(** * Decoding of stimulus angles: path resolver, aggregator and bias report

    A shallow embedding of [scripts/config.py], [scripts/run_decod_angles.py]
    and [scripts/plot_decod_angles_bias.py].

    Numbers are binary64 floats ([PrimFloat.float]); NaN is [nan].  Python
    dictionaries are stdpp's [gmap]; exceptions are the [Raise] results of a
    small error monad; the directories touched by [paths] are an explicit
    [world] that is threaded through the calls. *)

From Stdlib Require Import List String Ascii ZArith Bool Lia PrimFloat.
From Stdlib Require Uint63.
From Stdlib Require FloatAxioms SpecFloat.
From stdpp Require Import base option list gmap strings.
Import ListNotations.

Local Open Scope string_scope.
Local Open Scope list_scope.

(** ** Exceptions and the error monad *)

Inductive exn : Type :=
| KeyError (key : string)
| IndexError
| ValueError
| NameError (name : string)
| AttributeError
| OSError (path : string)
| IOError (path : string).

Inductive result (A : Type) : Type :=
| Ok (a : A)
| Raise (e : exn).
Arguments Ok {A} a.
Arguments Raise {A} e.

Definition bind {A B : Type} (m : result A) (k : A -> result B) : result B :=
  match m with
  | Ok a => k a
  | Raise e => Raise e
  end.

Declare Scope err_scope.
Delimit Scope err_scope with err.
Notation "'let*' x := m 'in' k" := (bind m (fun x => k))
  (at level 10, x name, m at level 100, k at level 200) : err_scope.
Notation "'let*' ' p := m 'in' k" := (bind m (fun p => k))
  (at level 10, p pattern, m at level 100, k at level 200) : err_scope.
Local Open Scope err_scope.

Definition is_ok {A : Type} (m : result A) : bool :=
  match m with Ok _ => true | Raise _ => false end.

(** [for x in xs: body], the body threading a state and able to raise. *)
Fixpoint for_each {A S : Type} (xs : list A) (body : A -> S -> result S)
    (s : S) : result S :=
  match xs with
  | [] => Ok s
  | x :: xs' => let* s' := body x s in for_each xs' body s'
  end.

(** [[f(x) for x in xs]] with a body that can raise. *)
Fixpoint map_r {A B : Type} (f : A -> result B) (xs : list A) : result (list B) :=
  match xs with
  | [] => Ok []
  | x :: xs' => let* y := f x in let* ys := map_r f xs' in Ok (y :: ys)
  end.

(** ** Python string helpers used by [config.py] *)

Module PyStr.

Definition startswith (c : ascii) (s : string) : bool :=
  match s with
  | String c' _ => Ascii.eqb c' c
  | EmptyString => false
  end.

Fixpoint endswith (c : ascii) (s : string) : bool :=
  match s with
  | EmptyString => false
  | String c' EmptyString => Ascii.eqb c' c
  | String _ r => endswith c r
  end.

Fixpoint contains (c : ascii) (s : string) : bool :=
  match s with
  | EmptyString => false
  | String c' r => Ascii.eqb c' c || contains c r
  end.

Fixpoint all_are (c : ascii) (s : string) : bool :=
  match s with
  | EmptyString => true
  | String c' r => Ascii.eqb c' c && all_are c r
  end.

Definition mem (c : ascii) (chars : list ascii) : bool :=
  existsb (Ascii.eqb c) chars.

(** [s.lstrip(chars)] *)
Fixpoint lstrip (chars : list ascii) (s : string) : string :=
  match s with
  | EmptyString => EmptyString
  | String c r => if mem c chars then lstrip chars r else s
  end.

(** [s.rstrip(chars)] *)
Fixpoint rstrip (chars : list ascii) (s : string) : string :=
  match s with
  | EmptyString => EmptyString
  | String c r =>
      match rstrip chars r with
      | EmptyString => if mem c chars then EmptyString else String c EmptyString
      | r' => String c r'
      end
  end.

(** [s.strip(chars)]: the characters of [chars] removed from both ends. *)
Definition strip (chars : string) (s : string) : string :=
  let cs := list_ascii_of_string chars in
  rstrip cs (lstrip cs s).

(** [s.split(sep)] for a one-character separator. *)
Fixpoint split (sep : ascii) (s : string) : list string :=
  match s with
  | EmptyString => [EmptyString]
  | String c r =>
      if Ascii.eqb c sep then EmptyString :: split sep r
      else match split sep r with
           | w :: ws => String c w :: ws
           | [] => [String c EmptyString]
           end
  end.

(** The newline character. *)
Definition nl : string := String (ascii_of_nat 10) EmptyString.

(** [posixpath.join(path, b)] *)
Definition join (path b : string) : string :=
  if startswith "/" b then b
  else if String.eqb path "" || endswith "/" path then String.append path b
  else String.append path (String.append "/" b).

Definition join3 (a b c : string) : string := join (join a b) c.

(** [p[:p.rfind('/') + 1]] *)
Fixpoint upto_last_sep (p : string) : string :=
  match p with
  | EmptyString => EmptyString
  | String c r =>
      if contains "/" r then String c (upto_last_sep r)
      else if Ascii.eqb c "/" then String c EmptyString
      else EmptyString
  end.

(** [posixpath.dirname(p)] *)
Definition dirname (p : string) : string :=
  let head := upto_last_sep p in
  if negb (String.eqb head "") && negb (all_are "/" head)
  then rstrip ["/"%char] head
  else head.

End PyStr.

(** ** [config.py] *)

Module Config.

(** The directories and log files the resolver can see and change.  Paths
    are compared as they are spelled, and whatever exists counts as a
    directory: a file in the place of a folder, permissions and links are
    left out. *)
Record world : Type := {
  present : gset string;              (* what [op.exists] answers for *)
  appended : gmap string (list string) (* lines appended per file *)
}.

Definition exists_ (p : string) (w : world) : bool :=
  bool_decide (p ∈ present w).

(** [os.mkdir(p)]: the empty path is ENOENT.  It is called on paths that
    do not exist only; the other ways [os.mkdir] can fail (a missing or
    unwritable parent, a parent that is a file) are left out. *)
Definition mkdir (p : string) (w : world) : result world :=
  if String.eqb p "" then Raise (OSError p)
  else Ok {| present := {[ p ]} ∪ present w; appended := appended w |}.

(** [with open(fname, "a") as f: f.write(line)] *)
Definition append_line (fname line : string) (w : world) : world :=
  {| present := {[ fname ]} ∪ present w;
     appended := <[ fname := default [] (appended w !! fname) ++ [line] ]> (appended w) |}.

(** The keyword arguments of [paths] and their defaults. *)
Record kwargs : Type := {
  subject : string;
  data_type : string;
  lock : string;
  analysis : string;
  pyscript : string;
  log : bool
}.

Definition defaults : kwargs :=
  {| subject := "fsaverage"; data_type := "erf"; lock := "target";
     analysis := "analysis"; pyscript := "config.py"; log := false |}.

Definition subjects : list string :=
  [ "ak130184"; "el130086"; "ga130053"; "gm130176"; "hn120493";
    "ia130315"; "jd110235"; "jm120476"; "ma130185"; "mc130295";
    "mj130216"; "mr080072"; "oa130317"; "rg110386"; "sb120316";
    "tc120199"; "ts130283"; "yp130276"; "av130322"; "ps120458" ].

Definition fmt2 (a b : string) (ext : string) : string :=
  String.append a (String.append "_" (String.append b ext)).
Definition fmt3 (a b c : string) (ext : string) : string :=
  String.append a (String.append "_" (fmt2 b c ext)).
Definition fmt4 (a b c d : string) (ext : string) : string :=
  String.append a (String.append "_" (fmt3 b c d ext)).

Section Resolver.

(** [base_path = op.dirname(op.dirname(__file__))], fixed at import. *)
Variable base_path : string.

Definition data_path : string := PyStr.join base_path "data/".

Definition path_template (typ : string) (k : kwargs) : gmap string string :=
  let this_path := PyStr.join3 data_path (subject k) typ in
  <[ "base_path" := base_path ]>
  (<[ "data_path" := data_path ]>
  (<[ "report" := PyStr.join base_path "results" ]>
  (<[ "log" := PyStr.join base_path
                 (String.append (PyStr.strip ".py" (pyscript k)) ".log") ]>
  (<[ "behavior" := PyStr.join this_path
                      (String.append (subject k) "_fixed.mat") ]>
  (<[ "epoch" := PyStr.join this_path
                   (fmt3 (subject k) (lock k) (data_type k) ".mat") ]>
  (<[ "evoked" := PyStr.join this_path
                    (fmt4 (subject k) (lock k) (data_type k) (analysis k) ".pickle") ]>
  (<[ "decod" := PyStr.join this_path
                   (fmt4 (subject k) (lock k) (data_type k) (analysis k) ".pickle") ]>
  (<[ "generalize" := PyStr.join this_path
                        (fmt4 (subject k) (lock k) (data_type k) (analysis k) ".pickle") ]>
   ∅)))))))).

(** [file = path_template[typ]] *)
Definition lookup_template (typ : string) (k : kwargs) : result string :=
  match path_template typ k !! typ with
  | Some file => Ok file
  | None => Raise (KeyError typ)
  end.

(** The body of [for ii in range(len(folder_))]; [n] counts the
    iterations that are left. *)
Fixpoint make_folders (n : nat) (folder_ : list string) (w : world)
    : result world :=
  match n with
  | O => Ok w
  | S n' =>
      match folder_ with
      | [] => Raise IndexError
      | f0 :: rest =>
          let* w' := (if exists_ f0 w then Ok w else mkdir f0 w) in
          let folder_' :=
            match rest with
            | f1 :: tl => String.append f0 (String.append "/" f1) :: tl
            | [] => folder_
            end in
          make_folders n' folder_' w'
      end
  end.

(** "Create subfolder if necessary" *)
Definition create_subfolders (file : string) (w : world) : result world :=
  let folder := PyStr.dirname file in
  let folder_ := if String.eqb folder "" then [] else PyStr.split "/" folder in
  make_folders (length folder_) folder_ w.

(** [paths] called with [log=False]; this is also the inner call
    [paths('log')] of the logging branch. *)
Definition paths_quiet (typ : string) (k : kwargs) (w : world)
    : result (string * world) :=
  let* file := lookup_template typ k in
  let* w' := create_subfolders file w in
  Ok (file, w').

Definition paths (typ : string) (k : kwargs) (w : world)
    : result (string * world) :=
  let* file := lookup_template typ k in
  let* w1 := (if log k
              then let* '(fname, w0) := paths_quiet "log" defaults w in
                   Ok (append_line fname
                         (String.append file (String.append " " PyStr.nl)) w0)
              else Ok w) in
  let* w2 := create_subfolders file w1 in
  Ok (file, w2).

End Resolver.

End Config.

(** ** The NumPy operations the scripts use *)

Module Np.

Definition vec : Type := list float.

Definition of_nat (n : nat) : float :=
  PrimFloat.of_uint63 (Uint63.of_Z (Z.of_nat n)).

(** [np.zeros(n)] *)
Definition zeros (n : nat) : vec := repeat 0%float n.

(** [c * v] for a scalar [c] *)
Definition scale (c : float) (v : vec) : vec :=
  map (fun x => PrimFloat.mul c x) v.

(** [a - b], elementwise on vectors of one length *)
Fixpoint sub (a b : vec) : result vec :=
  match a, b with
  | [], [] => Ok []
  | x :: a', y :: b' =>
      let* r := sub a' b' in Ok (PrimFloat.sub x y :: r)
  | _, _ => Raise ValueError
  end.

(** [-v] *)
Definition neg (v : vec) : vec := map PrimFloat.opp v.

Definition isnan (x : float) : bool := PrimFloat.is_nan x.
Definition notnan (x : float) : bool := negb (isnan x).

(** [np.sum(v)]: the reduction by [+], left to right.  NumPy adds in
    pairwise blocks once there are eight entries or more, so the last bits
    of a long sum can differ from this one. *)
Definition sum (v : vec) : float :=
  match v with
  | [] => 0%float
  | x :: r => fold_left PrimFloat.add r x
  end.

(** [np.mean(v)] *)
Definition mean (v : vec) : float :=
  PrimFloat.div (sum v) (of_nat (length v)).

(** [np.std(v)], with [ddof=0] *)
Definition std (v : vec) : float :=
  let m := mean v in
  PrimFloat.sqrt
    (mean (map (fun x => let d := PrimFloat.sub x m in PrimFloat.mul d d) v)).

(** The entries [np.nanmean] and [np.nanstd] keep. *)
Definition dropnan (v : vec) : vec := List.filter notnan v.

(** [np.nanmean(v)]: the mean of the entries kept.  NumPy puts zero in
    the place of each NaN, adds all the entries and divides by the number
    of those kept; the last bits can differ from this one. *)
Definition nanmean (v : vec) : float := mean (dropnan v).

(** [np.nanstd(v)]: the standard deviation of the entries kept, with the
    same reservation on the last bits. *)
Definition nanstd (v : vec) : float := std (dropnan v).

(** [sum(~np.isnan(v))] *)
Definition count_notnan (v : vec) : nat := length (dropnan v).

(** [np.where(cond)[0]] for a condition on the entries of [v] *)
Definition where_ {A : Type} (cond : A -> bool) (v : list A) : list nat :=
  map fst (List.filter (fun p => cond (snd p)) (combine (seq 0 (length v)) v)).

(** [v[idx]] with an integer index array *)
Definition take {A : Type} (v : list A) (idx : list nat) : result (list A) :=
  map_r (fun i => match nth_error v i with
                  | Some x => Ok x
                  | None => Raise IndexError
                  end) idx.

(** Sorting as [np.sort] orders floats: NaN last. *)
Definition sort_le (x y : float) : bool :=
  PrimFloat.leb x y || isnan y.

Fixpoint insert_sorted (x : float) (l : vec) : vec :=
  match l with
  | [] => [x]
  | y :: r => if sort_le x y then x :: l else y :: insert_sorted x r
  end.

Definition sort (v : vec) : vec := fold_right insert_sorted [] v.

(** The mask [aux[1:] != aux[:-1]] of [np.unique], applied. *)
Fixpoint drop_repeats (prev : float) (l : vec) : vec :=
  match l with
  | [] => []
  | y :: r =>
      if PrimFloat.eqb y prev then drop_repeats y r
      else y :: drop_repeats y r
  end.

(** [np.unique(v)]: the sorted array without the entries equal to the one
    before them; a NaN is kept each time, as NumPy did before 1.21. *)
Definition unique (v : vec) : vec :=
  match sort v with
  | [] => []
  | x :: r => x :: drop_repeats x r
  end.

(** A two-dimensional array with its [shape]. *)
Record ndarray2 : Type := {
  nrow : nat;
  ncol : nat;
  rows : list vec
}.

Definition wf2 (a : ndarray2) : Prop :=
  length (rows a) = nrow a /\ Forall (fun r => length r = ncol a) (rows a).

(** A three-dimensional array with its [shape]. *)
Record ndarray3 : Type := {
  dim0 : nat;
  dim1 : nat;
  dim2 : nat;
  planes : list (list vec)
}.

Definition wf3 (a : ndarray3) : Prop :=
  length (planes a) = dim0 a /\
  Forall (fun p => length p = dim1 a /\
                   Forall (fun r => length r = dim2 a) p) (planes a).

(** [a[idx, :]] *)
Definition take_rows (a : ndarray2) (idx : list nat) : result ndarray2 :=
  let* r := take (rows a) idx in
  Ok {| nrow := length idx; ncol := ncol a; rows := r |}.

(** [a[:, idx]] *)
Definition take_cols (a : ndarray2) (idx : list nat) : result ndarray2 :=
  let* r := map_r (fun row => take row idx) (rows a) in
  Ok {| nrow := nrow a; ncol := length idx; rows := r |}.

(** [a[idx, ...]] *)
Definition take_planes (a : ndarray3) (idx : list nat) : result ndarray3 :=
  let* p := take (planes a) idx in
  Ok {| dim0 := length idx; dim1 := dim1 a; dim2 := dim2 a; planes := p |}.

(** Column [j] of a list of rows. *)
Definition column (j : nat) (rs : list vec) : vec :=
  map (fun r => nth j r nan) rs.

(** [f(a, axis=0)] for a reduction [f] of vectors: one value per column. *)
Definition along_axis0 (f : vec -> float) (a : ndarray2) : vec :=
  map (fun j => f (column j (rows a))) (seq 0 (ncol a)).

(** [f(a, axis=1)]: one value per row. *)
Definition along_axis1 (f : vec -> float) (a : ndarray2) : vec :=
  map f (rows a).

(** [f(a, axis=0)] on three dimensions: reduces over the planes. *)
Definition along3_axis0 (f : vec -> float) (a : ndarray3) : ndarray2 :=
  {| nrow := dim1 a; ncol := dim2 a;
     rows := map (fun k =>
               map (fun j => f (map (fun p => nth j (nth k p []) nan) (planes a)))
                   (seq 0 (dim2 a)))
             (seq 0 (dim1 a)) |}.

(** [f(a, axis=1)] on three dimensions: reduces inside each plane. *)
Definition along3_axis1 (f : vec -> float) (a : ndarray3) : ndarray2 :=
  {| nrow := dim0 a; ncol := dim2 a;
     rows := map (fun p => map (fun j => f (column j p)) (seq 0 (dim2 a)))
                 (planes a) |}.

Fixpoint chunks (n k : nat) (l : vec) : list vec :=
  match n with
  | O => []
  | S n' => firstn k l :: chunks n' k (skipn k l)
  end.

(** [a.reshape([n, -1])]: the unknown dimension cannot be inferred when
    [n] is zero or does not divide the size. *)
Definition reshape_rows (a : ndarray2) (n : nat) : result ndarray2 :=
  let size := (nrow a * ncol a)%nat in
  if (n =? 0)%nat then Raise ValueError
  else if negb (size mod n =? 0)%nat then Raise ValueError
  else Ok {| nrow := n; ncol := (size / n)%nat;
             rows := chunks n (size / n)%nat (concat (rows a)) |}.

(** [v.reshape(n)] *)
Definition reshape_len (v : vec) (n : nat) : result vec :=
  if (length v =? n)%nat then Ok v else Raise ValueError.

End Np.

(** ** The order of the floats that are not NaN *)

Module FloatOrder.

Import SpecFloat.

(** The place of a float that is not NaN on a line of triples of integers
    in lexicographic order: the sign and class, then the exponent, then
    the mantissa.  NaN is given a place of its own; it is never
    compared. *)
Definition key (f : spec_float) : Z * Z * Z :=
  match f with
  | S754_zero _ => (0, 0, 0)%Z
  | S754_infinity true => (-2, 0, 0)%Z
  | S754_infinity false => (2, 0, 0)%Z
  | S754_nan => (3, 0, 0)%Z
  | S754_finite true m e => (-1, - e, - Z.pos m)%Z
  | S754_finite false m e => (1, e, Z.pos m)%Z
  end.

Definition lex_lt (a b : Z * Z * Z) : Prop :=
  let '(a1, a2, a3) := a in
  let '(b1, b2, b3) := b in
  (a1 < b1 \/ (a1 = b1 /\ (a2 < b2 \/ (a2 = b2 /\ a3 < b3))))%Z.

Definition fkey (x : float) : Z * Z * Z := key (FloatOps.Prim2SF x).

Definition lt (x y : float) : Prop := lex_lt (fkey x) (fkey y).
Definition le (x y : float) : Prop := lt x y \/ fkey x = fkey y.

Definition no_nan (l : Np.vec) : Prop := forall y, In y l -> Np.isnan y = false.

(** Every entry of a list is related to all the entries after it. *)
Fixpoint increasing (R : float -> float -> Prop) (l : Np.vec) : Prop :=
  match l with
  | [] => True
  | x :: r => (forall y, In y r -> R x y) /\ increasing R r
  end.

End FloatOrder.

(** ** [run_decod_angles.py] *)

Set Warnings "-inexact-float".

Module Aggregator.

Import Np.

(** A time of interest: [(start, end)] in seconds. *)
Definition toi : Type := (float * float)%type.

Definition tois : list toi :=
  [ ((-0.100)%float, 0.050%float); (0.100%float, 0.250%float);
    (0.300%float, 0.800%float); (0.900%float, 1.050%float) ].

Definition n_bins : nat := 24.

(** One row of the events table: the two columns the script names, and
    any other column for the queries of [subscores]. *)
Record event : Type := {
  detect_button : float;
  target_present : bool;
  column : string -> float
}.

(** [df.query(q).index] after [reset_index()]: the positions of the rows
    that satisfy the query. *)
Definition query_index (q : event -> bool) (evs : list event) : list nat :=
  where_ q evs.

(** ['detect_button == %i' % pas + ' and target_present == True'] *)
Definition pas_query (pas : nat) (e : event) : bool :=
  PrimFloat.eqb (detect_button e) (of_nat pas) && Bool.eqb (target_present e) true.

(** ['target_present == True'] *)
Definition present_query (e : event) : bool :=
  Bool.eqb (target_present e) true.

(** A value of the per-subject [subscore] dictionary: the array stored
    under the name of a subselection, or the list stored under
    [name + '_toi']. *)
Inductive subvalue : Type :=
| Dynamics (v : vec)
| PerToi (l : list float).

(** The [results] dictionary: its keys are fixed when it is created. *)
Record results : Type := {
  diagonal : list vec;
  angle_pred : list (list vec);
  toi_ : list (list vec);
  subscore : list (gmap string subvalue);
  corr_contrast : list vec;
  corr_pas : list vec;
  R_contrast : list vec;
  R_vis : list vec;
  align_on_diag : list (list (list vec));
  early_maintain : list (list vec);
  R_vis_duration : list (list vec);
  times_ : option vec;
  bins_ : option vec
}.

Definition empty_results : results :=
  {| diagonal := []; angle_pred := []; toi_ := []; subscore := [];
     corr_contrast := []; corr_pas := []; R_contrast := []; R_vis := [];
     align_on_diag := []; early_maintain := []; R_vis_duration := [];
     times_ := None; bins_ := None |}.

(** The script's variables that outlive one iteration of the subject
    loop: [results], and [times] and [bins], unbound before their first
    assignment. *)
Record vars : Type := {
  res : results;
  times : option vec;
  bins : option vec
}.

(** [d[key].append(x)] *)
Definition append_to (key : string) (x : float) (d : gmap string subvalue)
    : result (gmap string subvalue) :=
  match d !! key with
  | Some (PerToi l) => Ok (<[ key := PerToi (l ++ [x]) ]> d)
  | Some (Dynamics _) => Raise AttributeError
  | None => Raise (KeyError key)
  end.

(** [np.where((times >= toi[0]) & (times < toi[1]))[0]] *)
Definition toi_window (ts : vec) (t : toi) : list nat :=
  where_ (fun x => PrimFloat.leb (fst t) x && PrimFloat.ltb x (snd t)) ts.

(** What the script imports and reads but does not define: the
    classifier object with the two attributes read from it, the helpers
    of [base] and [jr.stats], the [subscores] of the configuration, the
    pickles on disk and the base path. *)
Record env : Type := {
  GAT : Type;
  (** [gat.train_times_['times']] *)
  e_train_times : GAT -> vec;
  (** [gat.y_true_] *)
  e_y_true_ : GAT -> vec;
  (** [base.get_predict(gat, sel=sel, toi=toi)] *)
  e_get_predict : GAT -> list nat -> toi -> ndarray2;
  (** [base.get_predict_error(gat, mean=False)]: trials by time samples *)
  e_get_predict_error_diag : GAT -> ndarray2;
  (** [base.get_predict_error(gat, toi=toi)] *)
  e_get_predict_error_toi : GAT -> toi -> ndarray2;
  (** [base.get_predict_error(gat, toi=toi, typ='align_on_diag', mean=False)]:
      trials by classifiers of the window by test times *)
  e_get_predict_error_align : GAT -> toi -> ndarray3;
  (** [base.get_predict_error(gat, toi=toi, typ='gat')] *)
  e_get_predict_error_gat : GAT -> toi -> ndarray2;
  (** [base.angle_acc], on one vector; its [axis] argument is written out
      with [along_axis0] and the like. *)
  e_angle_acc : vec -> float;
  (** [jr.stats.circ_mean], on one vector *)
  e_circ_mean : vec -> float;
  (** [jr.stats.circ_tuning(alpha, n=n)], giving [(probas, bins)] *)
  e_circ_tuning : ndarray2 -> nat -> vec * vec;
  (** [jr.stats.repeated_spearman(X, y)] *)
  e_repeated_spearman : ndarray2 -> vec -> vec;
  (** [scripts.config.subscores]: pairs of a name and a query *)
  e_subscores : list (string * (event -> bool));
  (** what [pickle.load] reads at a path: [(gat, _, events_sel, events)] *)
  e_disk : string -> option (GAT * unit * list nat * list event);
  (** [scripts.config.base_path] *)
  e_base_path : string
}.

Section Script.

Variable E : env.

Local Abbreviation train_times := (e_train_times E).
Local Abbreviation y_true_ := (e_y_true_ E).
Local Abbreviation get_predict := (e_get_predict E).
Local Abbreviation get_predict_error_diag := (e_get_predict_error_diag E).
Local Abbreviation get_predict_error_toi := (e_get_predict_error_toi E).
Local Abbreviation get_predict_error_align := (e_get_predict_error_align E).
Local Abbreviation get_predict_error_gat := (e_get_predict_error_gat E).
Local Abbreviation angle_acc := (e_angle_acc E).
Local Abbreviation circ_mean := (e_circ_mean E).
Local Abbreviation circ_tuning := (e_circ_tuning E).
Local Abbreviation repeated_spearman := (e_repeated_spearman E).
Local Abbreviation subscores := (e_subscores E).
Local Abbreviation disk := (e_disk E).
Local Abbreviation base_path := (e_base_path E).

Definition pickled : Type := (GAT E * unit * list nat * list event)%type.

(** "Mean error across trial on the diagonal" *)
Definition diagonal_entry (gat : GAT E) : vec :=
  along_axis0 angle_acc (get_predict_error_diag gat).

(** [[.100, .250] if analysis == 'target_circAngle' else [.900, 1.150]] *)
Definition peak_toi (analysis : string) : toi :=
  if String.eqb analysis "target_circAngle"
  then (0.100%float, 0.250%float) else (0.900%float, 1.150%float).

(** "Mean prediction for each angle at peak time"; the loop also
    rebinds [bins]. *)
Definition angle_pred_section (analysis : string) (gat : GAT E)
    (bins0 : option vec) : list vec * option vec :=
  fold_left
    (fun (acc : list vec * option vec) (angle : float) =>
       let y_pred :=
         get_predict gat
           (where_ (fun y => PrimFloat.eqb y angle) (y_true_ gat))
           (peak_toi analysis) in
       let '(probas, bins') := circ_tuning y_pred n_bins in
       (fst acc ++ [probas], Some bins'))
    (unique (y_true_ gat)) ([], bins0).

(** "Mean tuning error per toi" *)
Definition toi_section (gat : GAT E) (bins0 : option vec)
    : list vec * option vec :=
  fold_left
    (fun (acc : list vec * option vec) (t : toi) =>
       let '(probas, bins') :=
         circ_tuning (get_predict_error_toi gat t) n_bins in
       (fst acc ++ [probas], Some bins'))
    tois ([], bins0).

(** One iteration of [for subanalysis in subscores]. *)
Definition subscore_body (ts : vec) (y_error : ndarray2)
    (subevents : list event) (subanalysis : string * (event -> bool))
    (d : gmap string subvalue) : result (gmap string subvalue) :=
  let name := fst subanalysis in
  let key_toi := String.append name "_toi" in
  let d := <[ key_toi := PerToi [] ]> d in
  let subsel := query_index (snd subanalysis) subevents in
  if (length subsel =? 0)%nat then
    let d := <[ name := Dynamics (scale nan (zeros (ncol y_error))) ]> d in
    for_each tois (fun _ d => append_to key_toi nan d) d
  else
    let* selected := take_rows y_error subsel in
    let d := <[ name := Dynamics (along_axis0 angle_acc selected) ]> d in
    for_each tois
      (fun t d =>
         let toi_ := toi_window ts t in
         let* cols := take_cols y_error toi_ in
         let y_error_toi := along_axis1 circ_mean cols in
         let* picked := take y_error_toi subsel in
         append_to key_toi (angle_acc picked) d)
      d.

(** "Mean y_error per toi per vis" *)
Definition subscore_section (gat : GAT E) (subevents : list event)
    : result (gmap string subvalue) :=
  let y_error := get_predict_error_diag gat in
  for_each subscores (subscore_body (train_times gat) y_error subevents) ∅.

(** One iteration of [for pas in range(4)]. *)
Definition pas_body (y_error : ndarray3) (subevents : list event)
    (pas : nat) (results_pas : list vec) : result (list vec) :=
  let sel := query_index (pas_query pas) subevents in
  if (length sel =? 0)%nat then
    Ok (results_pas ++ [scale nan (zeros (dim2 y_error))])
  else
    let* selected := take_planes y_error sel in
    let y_error_ := along3_axis0 angle_acc selected in
    let y_error_ := along_axis0 mean y_error_ in
    Ok (results_pas ++ [y_error_]).

Definition results_pas_of (y_error : ndarray3) (subevents : list event)
    : result (list vec) :=
  for_each (seq 0 4) (pas_body y_error subevents) [].

(** "Finally, test if duration if affected by visibility" *)
Definition rank_correlation (y_error : ndarray3) (subevents : list event)
    : result vec :=
  let sel := query_index present_query subevents in
  let* selected := take_planes y_error sel in
  let X := along3_axis1 angle_acc selected in
  let* X2 := reshape_rows X (length sel) in
  let* buttons := take (map detect_button subevents) sel in
  let R := repeated_spearman X2 buttons in
  reshape_len R (dim2 y_error).

(** One iteration of the [for toi in tois] of the "Duration" part. *)
Definition duration_body (gat : GAT E) (subevents : list event) (t : toi)
    (acc : list (list vec) * list vec)
    : result (list (list vec) * list vec) :=
  let y_error := get_predict_error_align gat t in
  let* results_pas := results_pas_of y_error subevents in
  let results_ := fst acc ++ [results_pas] in
  let* R := rank_correlation y_error subevents in
  Ok (results_, snd acc ++ [R]).

Definition duration_section (gat : GAT E) (subevents : list event)
    : result (list (list vec) * list vec) :=
  for_each tois (duration_body gat subevents) ([], []).

(** "maintenance of early classifiers" *)
Definition early_maintain_section (gat : GAT E) : list vec :=
  map (fun t => along_axis0 angle_acc (get_predict_error_gat gat t))
      [ (0.100%float, 0.150%float); (0.170%float, 0.220%float) ].

(** [events.iloc[events_sel].reset_index()] *)
Definition iloc (events : list event) (events_sel : list nat)
    : result (list event) :=
  take events events_sel.

(** [with open(fname, 'rb') as f: pickle.load(f)] *)
Definition load (fname : string) : result pickled :=
  match disk fname with
  | Some p => Ok p
  | None => Raise (IOError fname)
  end.

(** The keyword arguments of [paths(typ, subject=..., analysis=...)]. *)
Definition kw (subject analysis : string) : Config.kwargs :=
  {| Config.subject := subject;
     Config.data_type := Config.data_type Config.defaults;
     Config.lock := Config.lock Config.defaults;
     Config.analysis := analysis;
     Config.pyscript := Config.pyscript Config.defaults;
     Config.log := Config.log Config.defaults |}.

(** The body of [for s, subject in enumerate(subjects)]. *)
Definition subject_body (analysis : string) (subject : string)
    (st : vars * Config.world) : result (vars * Config.world) :=
  let v := fst st in
  let* '(fname, w) :=
    Config.paths base_path "decod" (kw subject analysis) (snd st) in
  let* '(gat, _, events_sel, events) := load fname in
  let ts := train_times gat in
  let* subevents := iloc events events_sel in
  let y_error := diagonal_entry gat in
  let '(angle_results, bins1) := angle_pred_section analysis gat (bins v) in
  let '(toi_results, bins2) := toi_section gat bins1 in
  let* sub_results := subscore_section gat subevents in
  let* '(aligned, R_vis_dur) := duration_section gat subevents in
  let early := early_maintain_section gat in
  let r := res v in
  Ok ({| res :=
           {| diagonal := diagonal r ++ [y_error];
              angle_pred := angle_pred r ++ [angle_results];
              toi_ := toi_ r ++ [toi_results];
              subscore := subscore r ++ [sub_results];
              corr_contrast := corr_contrast r;
              corr_pas := corr_pas r;
              R_contrast := R_contrast r;
              R_vis := R_vis r;
              align_on_diag := align_on_diag r ++ [aligned];
              early_maintain := early_maintain r ++ [early];
              R_vis_duration := R_vis_duration r ++ [R_vis_dur];
              times_ := times_ r;
              bins_ := bins_ r |};
         times := Some ts;
         bins := bins2 |}, w).

(** "Gather data": a fresh [results], then the subject loop.  [times]
    and [bins] keep whatever they were bound to before. *)
Definition gather (subjects : list string) (analysis : string)
    (times0 bins0 : option vec) (w : Config.world)
    : result (vars * Config.world) :=
  for_each subjects (subject_body analysis)
    ({| res := empty_results; times := times0; bins := bins0 |}, w).

(** [results['times'] = times; results['bins'] = bins] *)
Definition with_times_bins (v : vars) : result results :=
  let r := res v in
  let* t := match times v with
            | Some t => Ok t
            | None => Raise (NameError "times")
            end in
  let* b := match bins v with
            | Some b => Ok b
            | None => Raise (NameError "bins")
            end in
  Ok {| diagonal := diagonal r; angle_pred := angle_pred r;
        toi_ := toi_ r; subscore := subscore r;
        corr_contrast := corr_contrast r; corr_pas := corr_pas r;
        R_contrast := R_contrast r; R_vis := R_vis r;
        align_on_diag := align_on_diag r;
        early_maintain := early_maintain r;
        R_vis_duration := R_vis_duration r;
        times_ := Some t; bins_ := Some b |}.

(** The mapping that is handed to [pickle.dump] for one analysis. *)
Definition results_to_dump (subjects : list string) (analysis : string)
    (times0 bins0 : option vec) (w : Config.world)
    : result (results * vars * Config.world) :=
  let* '(v, w') := gather subjects analysis times0 bins0 w in
  let* r := with_times_bins v in
  Ok (r, v, w').

(** What the script has written: the pickles, by path, in order. *)
Record script_state : Type := {
  s_times : option vec;
  s_bins : option vec;
  written : list (string * results);
  s_world : Config.world
}.

(** The body of [for analysis in ['target_circAngle', 'probe_circAngle']]. *)
Definition analysis_body (subjects : list string) (analysis : string)
    (st : script_state) : result script_state :=
  let* '(r, v, w) :=
    results_to_dump subjects analysis (s_times st) (s_bins st) (s_world st) in
  let* '(fname, w') :=
    Config.paths base_path "score"
      (kw "fsaverage" (String.append analysis "-tuning")) w in
  Ok {| s_times := times v; s_bins := bins v;
        written := written st ++ [(fname, r)];
        s_world := w' |}.

Definition script (subjects : list string) (w : Config.world)
    : result script_state :=
  for_each [ "target_circAngle"; "probe_circAngle" ]
    (analysis_body subjects)
    {| s_times := None; s_bins := None; written := []; s_world := w |}.

End Script.

End Aggregator.

(** ** [plot_decod_angles_bias.py] *)

Module Report.

Import Np.

(** [p < .05] *)
Definition below_05 (p : float) : bool := PrimFloat.ltb p 0.05%float.

(** [sig=p_val < .05] on a matrix of p-values *)
Definition sig_mask (p_val : ndarray2) : list (list bool) :=
  map (map below_05) (rows p_val).

(** [np.diag(a)] *)
Definition diag (a : ndarray2) : vec :=
  map (fun i => nth i (nth i (rows a) []) nan)
      (seq 0 (Nat.min (nrow a) (ncol a))).

(** [['', '*'][p < .05]] *)
Definition star (p : float) : string :=
  if below_05 p then "*" else "".

(** [a.T] *)
Definition transpose (a : ndarray2) : ndarray2 :=
  {| nrow := ncol a; ncol := nrow a;
     rows := map (fun j => column j (rows a)) (seq 0 (ncol a)) |}.

(** [np.vstack(vs)] for vectors of length [n] *)
Definition vstack (n : nat) (vs : list vec) : ndarray2 :=
  {| nrow := length vs; ncol := n; rows := vs |}.

(** [l[i]] *)
Definition get {A : Type} (l : list A) (i : nat) : result A :=
  match nth_error l i with
  | Some x => Ok x
  | None => Raise IndexError
  end.

(** The arrays the report reads from the loaded results; the first axis
    of each is the subject. *)
Record loaded : Type := {
  r_tois : list (float * float);
  bias : list (list (list ndarray2));            (* subject, ii, jj, t, t *)
  bias_pval : list (list ndarray2);              (* ii, jj, t, t *)
  bias_vis_toi : list (list (list (list vec)));  (* subject, ii, jj, vis, toi *)
  bias_toi : list (list (list vec))              (* subject, ii, jj, toi *)
}.

(** [a[:, i, j, k]] *)
Definition slice3 (a : list (list (list vec))) (i j k : nat) : result vec :=
  map_r (fun subj =>
           let* x := get subj i in
           let* y := get x j in
           get y k) a.

(** [a[:, i, j, k, l]] *)
Definition slice4 (a : list (list (list (list vec)))) (i j k l : nat)
    : result vec :=
  map_r (fun subj =>
           let* x := get subj i in
           let* y := get x j in
           let* z := get y k in
           get z l) a.

(** [a[:, i, j, :, l]] *)
Definition slice4_rows (a : list (list (list (list vec)))) (i j l : nat)
    : result (list vec) :=
  map_r (fun subj =>
           let* x := get subj i in
           let* y := get x j in
           map_r (fun z => get z l) y) a.

Section Stats.

(** [scipy.stats.wilcoxon(x)], called with one sample and the default
    arguments; it gives [(statistic, pvalue)]. *)
Variable wilcoxon : vec -> float * float.
(** [jr.stats.repeated_spearman(X, y)] *)
Variable repeated_spearman : ndarray2 -> vec -> vec.

(** What [quick_stats] computes. *)
Record quick : Type := {
  q_pvals : vec;
  q_sig : list string;
  q_m : vec;
  q_s : vec
}.

Definition quick_stats (x : ndarray2) : quick :=
  let pvals := map (fun ii => snd (wilcoxon ii)) (rows (transpose x)) in
  let sig := map star pvals in
  let m := along_axis0 nanmean x in
  let s := along_axis0 nanstd x in
  {| q_pvals := pvals; q_sig := sig; q_m := m; q_s := s |}.

(** One cell of the table: [(m, sem, p_val)], the three numbers of
    ['[%.3f+/-%.3f, p=%.4f]']. *)
Definition table_cell (score : vec) : float * float * float :=
  let p_val := snd (wilcoxon score) in
  let m := nanmean score in
  let sem :=
    PrimFloat.div (nanstd score)
                  (PrimFloat.sqrt (of_nat (count_notnan score))) in
  (m, sem, p_val).

(** The body of [for t, (toi, ax) in enumerate(zip(tois, axes))] for
    the stimulus [TP]: the bar statistics and the column of the table. *)
Definition visibility_column (r : loaded) (TP t : nat)
    : result (quick * list (float * float * float)) :=
  let* score :=
    map_r (fun vis =>
             let* v := slice4 (bias_vis_toi r) TP 1 vis t in
             Ok (neg v))
          (seq 0 4) in
  let x := transpose (vstack (length (bias_vis_toi r)) score) in
  let q := quick_stats x in
  let* hi := get score (length score - 1) in
  let* lo := get score 0 in
  let* diff := Np.sub hi lo in
  Ok (q, map table_cell (score ++ [diff])).

(** "report assymetry of target probe bias to prove independence" *)
Definition contrast (r : loaded) : result (float * float * float) :=
  let* probe := slice3 (bias_toi r) 1 1 3 in
  let* target := slice3 (bias_toi r) 0 1 3 in
  let* diff := Np.sub probe target in
  let p_val := snd (wilcoxon diff) in
  let m := nanmean diff in
  let sem :=
    PrimFloat.div (nanstd diff)
                  (PrimFloat.sqrt (of_nat (count_notnan diff))) in
  Ok (m, sem, p_val).

(** The three numbers printed from the per-subject correlations. *)
Definition regression_summary (all_R : vec) : float * float * float :=
  let m := nanmean all_R in
  let sem := PrimFloat.div (std all_R) (PrimFloat.sqrt (of_nat 20)) in
  let p := snd (wilcoxon all_R) in
  (m, sem, p).

(** The body of [for toi in range(4)] of the regression analyses. *)
Definition regression (r : loaded) (t : nat)
    : result (float * float * float) :=
  let* X := slice4_rows (bias_vis_toi r) 0 1 t in
  let y := map of_nat (seq 0 4) in
  let all_R :=
    repeated_spearman
      (transpose (vstack 4 X)) y in
  Ok (regression_summary all_R).

(** The significance overlay of the generalization matrix [(ii, jj)]. *)
Definition gat_overlay (r : loaded) (ii jj : nat)
    : result (list (list bool)) :=
  let* row := get (bias_pval r) ii in
  let* p_val := get row jj in
  Ok (sig_mask p_val).

(** The significance line of the diagonal plot. *)
Definition diagonal_overlay (r : loaded) : result (list bool) :=
  let* row := get (bias_pval r) 0 in
  let* p_val := get row 1 in
  Ok (map below_05 (diag p_val)).

End Stats.

End Report.

(** ** The stored p-values

    [results['bias_pval']] is computed by an analysis that is not part of
    these scripts; the report only loads it. *)

Module Upstream.

Import Np.

(** [bias[:, ii, jj, a, b]]: the values of one cell, one per subject. *)
Definition bias_cell (bias : list (list (list ndarray2))) (ii jj a b : nat)
    : vec :=
  map (fun subj =>
         match nth_error subj ii with
         | Some x =>
             match nth_error x jj with
             | Some m => nth b (nth a (rows m) []) nan
             | None => nan
             end
         | None => nan
         end)
      bias.

(** Modelled from the spec: the computation of [results['bias_pval']] is
    missing from the sources.  The specification has every p-value of the
    report as the Wilcoxon signed-rank test against zero across the
    subjects, so the cell [(a, b)] of the table of the pair [(ii, jj)] is
    taken to be the p-value of [wilcoxon] on [bias[:, ii, jj, a, b]], for
    [n] time samples. *)
Definition pval_table (wilcoxon : vec -> float * float)
    (bias : list (list (list ndarray2))) (ii jj n : nat) : ndarray2 :=
  {| nrow := n; ncol := n;
     rows := map (fun a =>
               map (fun b => snd (wilcoxon (bias_cell bias ii jj a b)))
                   (seq 0 n))
             (seq 0 n) |}.

(** The loaded table is the modelled one, for the four pairs the report
    reads. *)
Definition stored_as_modelled (wilcoxon : vec -> float * float)
    (r : Report.loaded) (n : nat) : Prop :=
  forall ii jj, ii < 2 -> jj < 2 ->
    exists row,
      nth_error (Report.bias_pval r) ii = Some row /\
      nth_error row jj = Some (pval_table wilcoxon (Report.bias r) ii jj n).

End Upstream.

(** ** Closed forms

    What the loops of the aggregator store, written as the sentences of
    the specification have it; the properties below relate them to the
    loops. *)

Module ClosedForms.

Import Np Aggregator.

(** [v[idx]] where every index is inside [v]. *)
Definition pick (v : vec) (idx : list nat) : vec :=
  map (fun i => nth i v nan) idx.

Section Closed.

Variable E : env.

(** The array stored under the name of a subselection, in closed form:
    NaNs when no trial matches, else the accuracy over the matching trials
    at every time sample. *)
Definition dynamics_of (y_error : ndarray2) (subevents : list event)
    (q : event -> bool) : vec :=
  let subsel := query_index q subevents in
  match subsel with
  | [] => repeat nan (ncol y_error)
  | _ => along_axis0 (e_angle_acc E)
           {| nrow := length subsel; ncol := ncol y_error;
              rows := map (fun i => nth i (rows y_error) []) subsel |}
  end.

(** The value for one window, as the sentence has it: first the circular
    mean over the time samples that fall in the window, for every trial,
    then the angle accuracy over the selected trials. *)
Definition window_error (ts : vec) (y_error : ndarray2) (subsel : list nat)
    (t : toi) : float :=
  let in_window := toi_window ts t in
  let per_trial :=
    map (fun row => e_circ_mean E (pick row in_window)) (rows y_error) in
  e_angle_acc E (pick per_trial subsel).

(** The list stored under [name + '_toi'], in closed form. *)
Definition per_toi_of (ts : vec) (y_error : ndarray2) (subevents : list event)
    (q : event -> bool) : list float :=
  let subsel := query_index q subevents in
  match subsel with
  | [] => repeat nan (length tois)
  | _ => map (window_error ts y_error subsel) tois
  end.

(** The data of one subject fit together: the error array has one row per
    selected trial and one column per time sample. *)
Definition fits (ts : vec) (y_error : ndarray2) (subevents : list event) : Prop :=
  wf2 y_error /\ nrow y_error = length subevents /\ length ts = ncol y_error.

(** The keys the loop over [subscores] writes, in order. *)
Definition keys_of (subs : list (string * (event -> bool))) : list string :=
  flat_map (fun s => [fst s; String.append (fst s) "_toi"]) subs.

(** The vector of one visibility stratum in the "Duration" part, in
    closed form. *)
Definition stratum_of (y_error : ndarray3) (subevents : list event)
    (pas : nat) : vec :=
  let sel := query_index (pas_query pas) subevents in
  match sel with
  | [] => repeat nan (dim2 y_error)
  | _ => along_axis0 mean
           (along3_axis0 (e_angle_acc E)
              {| dim0 := length sel; dim1 := dim1 y_error; dim2 := dim2 y_error;
                 planes := map (fun i => nth i (planes y_error) []) sel |})
  end.

(** The tuning curves at the peak window: one per unique true angle, each
    from the trials whose true label equals that angle. *)
Definition angle_curves (analysis : string) (gat : GAT E) : list vec :=
  map (fun angle =>
         fst (e_circ_tuning E
                (e_get_predict E gat
                   (where_ (fun y => PrimFloat.eqb y angle) (e_y_true_ E gat))
                   (peak_toi analysis))
                n_bins))
      (unique (e_y_true_ E gat)).

(** The tuning curves of the error, one per window of [tois]. *)
Definition toi_curves (gat : GAT E) : list vec :=
  map (fun t => fst (e_circ_tuning E (e_get_predict_error_toi E gat t) n_bins))
      tois.

(** What one subject adds to [results], and the [times] and [bins] the
    script holds after that subject. *)
Record contribution : Type := {
  c_diagonal : vec;
  c_angle_pred : list vec;
  c_toi : list vec;
  c_subscore : gmap string subvalue;
  c_align_on_diag : list (list vec);
  c_early_maintain : list vec;
  c_R_vis_duration : list vec;
  c_times : vec;
  c_bins : vec
}.

Definition contribution_of (analysis : string) (p : pickled E)
    : result contribution :=
  let '(gat, _, events_sel, events) := p in
  let* subevents := iloc events events_sel in
  let* d := subscore_section E gat subevents in
  let* '(aligned, R) := duration_section E gat subevents in
  Ok {| c_diagonal := diagonal_entry E gat;
        c_angle_pred := angle_curves analysis gat;
        c_toi := toi_curves gat;
        c_subscore := d;
        c_align_on_diag := aligned;
        c_early_maintain := early_maintain_section E gat;
        c_R_vis_duration := R;
        c_times := e_train_times E gat;
        c_bins := snd (e_circ_tuning E
                         (e_get_predict_error_toi E gat (0.900%float, 1.050%float))
                         n_bins) |}.

(** The contribution of a subject: a function of the pickle at the
    subject's path, and of nothing else. *)
Definition contribution_at (analysis subject : string) : result contribution :=
  let* fname :=
    Config.lookup_template (e_base_path E) "decod" (kw subject analysis) in
  let* p := load E fname in
  contribution_of analysis p.

(** [results] and the two variables after one more subject. *)
Definition push (v : vars) (c : contribution) : vars :=
  let r := res v in
  {| res :=
       {| diagonal := diagonal r ++ [c_diagonal c];
          angle_pred := angle_pred r ++ [c_angle_pred c];
          toi_ := toi_ r ++ [c_toi c];
          subscore := subscore r ++ [c_subscore c];
          corr_contrast := corr_contrast r;
          corr_pas := corr_pas r;
          R_contrast := R_contrast r;
          R_vis := R_vis r;
          align_on_diag := align_on_diag r ++ [c_align_on_diag c];
          early_maintain := early_maintain r ++ [c_early_maintain c];
          R_vis_duration := R_vis_duration r ++ [c_R_vis_duration c];
          times_ := times_ r;
          bins_ := bins_ r |};
     times := Some (c_times c);
     bins := Some (c_bins c) |}.

End Closed.

End ClosedForms.

(** ** A small concrete data set

    Three trials and four time samples per subject, with helpers simple
    enough to evaluate; used to run the definitions. *)

Module Toy.

Import Np Aggregator.

Record toy_gat : Type := {
  tg_times : vec;
  tg_y_true : vec;
  tg_error : ndarray2;
  tg_aligned : ndarray3
}.

Definition half_pi : float := 1.5707963267948966%float.

(** [np.pi / 2 - np.mean(np.abs(y_error))] *)
Definition toy_angle_acc (v : vec) : float :=
  PrimFloat.sub half_pi (mean (map PrimFloat.abs v)).

Definition toy_subscores : list (string * (event -> bool)) :=
  [ ("seen", fun e => PrimFloat.leb 1%float (detect_button e));
    ("unseen", fun e => PrimFloat.eqb (detect_button e) 0%float);
    ("absent", fun e => negb (target_present e)) ].

Definition ev (button : float) (present : bool) : event :=
  {| detect_button := button; target_present := present;
     column := fun _ => nan |}.

Definition events : list event :=
  [ ev 2%float true; ev 0%float true; ev 2%float true ].

Definition gat_a : toy_gat :=
  {| tg_times := [0%float; 0.12%float; 0.2%float; 0.5%float];
     tg_y_true := [0.5%float; 1%float; 0.5%float];
     tg_error :=
       {| nrow := 3; ncol := 4;
          rows := [ [0.1%float; 0.2%float; 0.3%float; 0.4%float];
                    [1%float; (-1)%float; 0.5%float; 0%float];
                    [0.25%float; 0.25%float; (-0.5)%float; 0.75%float] ] |};
     tg_aligned :=
       {| dim0 := 3; dim1 := 2; dim2 := 4;
          planes :=
            [ [ [0.1%float; 0.2%float; 0.3%float; 0.4%float];
                [0.5%float; 0.5%float; 0.5%float; 0.5%float] ];
              [ [1%float; 1%float; 1%float; 1%float];
                [0%float; 0%float; 0%float; 0%float] ];
              [ [0.25%float; 0.5%float; 0.75%float; 1%float];
                [0.5%float; 0.25%float; 0%float; 0%float] ] ] |} |}.

(** A second subject, recorded on other time samples. *)
Definition gat_b : toy_gat :=
  {| tg_times := [0%float; 0.25%float; 0.5%float; 1%float];
     tg_y_true := tg_y_true gat_a;
     tg_error := tg_error gat_a;
     tg_aligned := tg_aligned gat_a |}.

Definition last_path : string :=
  "./data/ps120458/decod/ps120458_target_erf_target_circAngle.pickle".

(** Every subject's pickle holds [gat_a], but the last subject's holds
    [gat_b]. *)
Definition toy_disk (fname : string)
    : option (toy_gat * unit * list nat * list event) :=
  if String.eqb fname last_path
  then Some (gat_b, tt, [0; 1; 2], events)
  else Some (gat_a, tt, [0; 1; 2], events).

Definition E : env :=
  {| GAT := toy_gat;
     e_train_times := tg_times;
     e_y_true_ := tg_y_true;
     e_get_predict := fun g sel _ =>
       {| nrow := length sel; ncol := 1;
          rows := map (fun i => [nth i (tg_y_true g) nan]) sel |};
     e_get_predict_error_diag := tg_error;
     e_get_predict_error_toi := fun g _ =>
       {| nrow := nrow (tg_error g); ncol := 1;
          rows := map (fun r => [mean r]) (rows (tg_error g)) |};
     e_get_predict_error_align := fun g _ => tg_aligned g;
     e_get_predict_error_gat := fun g _ => tg_error g;
     e_angle_acc := toy_angle_acc;
     e_circ_mean := mean;
     e_circ_tuning := fun a n =>
       (repeat (PrimFloat.div 1%float (of_nat n)) n,
        map (fun k => PrimFloat.add (of_nat (nrow a)) (of_nat k)) (seq 0 n));
     e_repeated_spearman := fun X _ => zeros (ncol X);
     e_subscores := toy_subscores;
     e_disk := toy_disk;
     e_base_path := "." |}.

Definition world0 : Config.world :=
  {| Config.present := {[ "." ]}; Config.appended := ∅ |}.

(** A stand-in for the signed-rank test: the p-value is small when every
    entry is positive. *)
Definition toy_wilcoxon (v : vec) : float * float :=
  (sum (map PrimFloat.abs v),
   if forallb (fun x => PrimFloat.ltb 0%float x) v
   then 0.01%float else 0.5%float).

Definition four (a : float) : vec :=
  [ a; PrimFloat.add a 1%float; PrimFloat.add a 2%float; PrimFloat.add a 3%float ].

(** One subject's block of [bias_toi]: estimator, reference, toi. *)
Definition block_toi (a : float) : list (list vec) :=
  [ [ four a; four (PrimFloat.mul a 2%float) ];
    [ four (PrimFloat.add a 10%float); four (PrimFloat.mul a 3%float) ] ].

(** One subject's block of [bias_vis_toi]: estimator, reference,
    visibility, toi. *)
Definition block_vis (a : float) : list (list (list vec)) :=
  let vis := [ four a; four (PrimFloat.opp a);
               four (PrimFloat.mul a 2%float); four (PrimFloat.add a 1%float) ] in
  [ [ vis; vis ]; [ vis; vis ] ].

Definition p_values : ndarray2 :=
  {| nrow := 2; ncol := 2;
     rows := [ [0.01%float; 0.05%float]; [0.2%float; nan] ] |}.

(** Three subjects; the second one has no data. *)
Definition loaded0 : Report.loaded :=
  {| Report.r_tois := tois;
     Report.bias := [];
     Report.bias_pval := [ [p_values; p_values]; [p_values; p_values] ];
     Report.bias_vis_toi := [ block_vis (-1)%float; block_vis nan; block_vis (-2)%float ];
     Report.bias_toi := [ block_toi 0.5%float; block_toi nan; block_toi 2%float ] |}.

End Toy.

(** ** The folders of a path, and well-formed pickles *)

Module Layout.

(** The successive paths [f0], [f0/f1], [f0/f1/f2], ... that the loop of
    [paths] tests and creates. *)
Fixpoint prefixes_from (f0 : string) (rest : list string) : list string :=
  f0 :: match rest with
        | [] => []
        | f1 :: tl => prefixes_from (String.append f0 (String.append "/" f1)) tl
        end.

Definition prefixes (l : list string) : list string :=
  match l with
  | [] => []
  | f0 :: rest => prefixes_from f0 rest
  end.

(** The five types whose file lies in the folder of a subject. *)
Definition subject_types : list string :=
  [ "behavior"; "epoch"; "evoked"; "decod"; "generalize" ].

End Layout.

Module WellFormed.

Import Np Aggregator ClosedForms.

(** The array [X] of the rank correlation: one row per selected trial with
    the target present, holding its angle accuracies over the classifiers
    of the window, per test time. *)
Definition present_accuracies (E : env) (y_error : ndarray3)
    (subevents : list event) : ndarray2 :=
  let sel := query_index present_query subevents in
  along3_axis1 (e_angle_acc E)
    {| dim0 := length sel; dim1 := dim1 y_error; dim2 := dim2 y_error;
       planes := map (fun i => nth i (planes y_error) []) sel |}.

(** The ratings of the selected trials with the target present. *)
Definition present_ratings (subevents : list event) : vec :=
  pick (map detect_button subevents) (query_index present_query subevents).

(** The pickle of a subject is there and its parts fit together. *)
Definition well_formed (E : env) (analysis subject : string) : Prop :=
  PyStr.startswith "/" subject = false /\
  exists fname gat u events_sel events subevents,
    Config.lookup_template (e_base_path E) "decod" (kw subject analysis)
      = Ok fname /\
    e_disk E fname = Some (gat, u, events_sel, events) /\
    iloc events events_sel = Ok subevents /\
    fits (e_train_times E gat) (e_get_predict_error_diag E gat) subevents /\
    (forall t, In t tois ->
       let y_error := e_get_predict_error_align E gat t in
       length (planes y_error) = length subevents /\
       length (e_repeated_spearman E
                 (present_accuracies E y_error subevents)
                 (present_ratings subevents))
       = dim2 y_error) /\
    (exists e, In e subevents /\ target_present e = true).

End WellFormed.

(** A second small data set: the names of the subselections repeat. *)
Module Toy2.

Import Np Aggregator.

Definition with_subscores (E : env)
    (subs : list (string * (event -> bool))) : env :=
  {| GAT := GAT E;
     e_train_times := e_train_times E;
     e_y_true_ := e_y_true_ E;
     e_get_predict := e_get_predict E;
     e_get_predict_error_diag := e_get_predict_error_diag E;
     e_get_predict_error_toi := e_get_predict_error_toi E;
     e_get_predict_error_align := e_get_predict_error_align E;
     e_get_predict_error_gat := e_get_predict_error_gat E;
     e_angle_acc := e_angle_acc E;
     e_circ_mean := e_circ_mean E;
     e_circ_tuning := e_circ_tuning E;
     e_repeated_spearman := e_repeated_spearman E;
     e_subscores := subs;
     e_disk := e_disk E;
     e_base_path := e_base_path E |}.

Definition unseen_query (e : event) : bool :=
  PrimFloat.eqb (detect_button e) 0%float.

Definition seen_query (e : event) : bool :=
  PrimFloat.leb 1%float (detect_button e).

Definition E_repeat : env :=
  with_subscores Toy.E [ ("seen", unseen_query); ("seen", seen_query) ].

(** The environment of [Toy] on another disk and base path. *)
Definition with_disk (E : env) (base_path : string)
    (disk : string -> option (GAT E * unit * list nat * list event)) : env :=
  {| GAT := GAT E;
     e_train_times := e_train_times E;
     e_y_true_ := e_y_true_ E;
     e_get_predict := e_get_predict E;
     e_get_predict_error_diag := e_get_predict_error_diag E;
     e_get_predict_error_toi := e_get_predict_error_toi E;
     e_get_predict_error_align := e_get_predict_error_align E;
     e_get_predict_error_gat := e_get_predict_error_gat E;
     e_angle_acc := e_angle_acc E;
     e_circ_mean := e_circ_mean E;
     e_circ_tuning := e_circ_tuning E;
     e_repeated_spearman := e_repeated_spearman E;
     e_subscores := e_subscores E;
     e_disk := disk;
     e_base_path := base_path |}.

(** A disk on which the pickle of the third subject is missing. *)
Definition disk_without_third (fname : string)
    : option (Toy.toy_gat * unit * list nat * list event) :=
  if String.eqb fname
       "./data/ga130053/decod/ga130053_target_erf_target_circAngle.pickle"
  then None else Toy.toy_disk fname.

Definition E_missing : env := with_disk Toy.E "." disk_without_third.

End Toy2.

(** A third small data set: a subject none of whose selected trials has
    the target present. *)
Module Toy3.

Import Np Aggregator.

Definition absent_events : list event :=
  [ Toy.ev 2%float false; Toy.ev 0%float false; Toy.ev 2%float false ].

Definition absent_disk (fname : string)
    : option (Toy.toy_gat * unit * list nat * list event) :=
  Some (Toy.gat_a, tt, [0; 1; 2], absent_events).

Definition E_absent : env := Toy2.with_disk Toy.E "." absent_disk.

End Toy3.

(** Three subjects with data everywhere, and the table of p-values that
    the stand-in test gives on their [bias]. *)
Module Toy4.

Import Np Aggregator.

Definition bias_block (a : float) : list (list ndarray2) :=
  let m := {| nrow := 2; ncol := 2;
              rows := [ [a; PrimFloat.opp a];
                        [PrimFloat.mul a 2%float; PrimFloat.sub a 1%float] ] |} in
  [ [m; m]; [m; m] ].

Definition bias1 : list (list (list ndarray2)) :=
  [ bias_block 1%float; bias_block 2%float; bias_block 0.5%float ].

Definition loaded1 : Report.loaded :=
  {| Report.r_tois := tois;
     Report.bias := bias1;
     Report.bias_pval :=
       map (fun ii =>
              map (fun jj => Upstream.pval_table Toy.toy_wilcoxon bias1 ii jj 2)
                  [0; 1])
           [0; 1];
     Report.bias_vis_toi :=
       [ Toy.block_vis (-1)%float; Toy.block_vis (-3)%float;
         Toy.block_vis (-2)%float ];
     Report.bias_toi :=
       [ Toy.block_toi 0.5%float; Toy.block_toi 1%float; Toy.block_toi 2%float ] |}.

End Toy4.

(** * Properties *)

(** ** The error monad and the loops *)

Lemma bind_ok {A B : Type} (m : result A) (k : A -> result B) (b : B) :
  bind m k = Ok b -> exists a, m = Ok a /\ k a = Ok b.
Proof. destruct m as [a|e]; simpl; intros H; [eauto | discriminate]. Qed.

Lemma for_each_app {A S : Type} (xs ys : list A) (body : A -> S -> result S) (s : S) :
  for_each (xs ++ ys) body s =
  bind (for_each xs body s) (for_each ys body).
Proof.
  revert s; induction xs as [|x xs IH]; intros s; simpl; [reflexivity|].
  destruct (body x s) as [s'|e]; simpl; [apply IH | reflexivity].
Qed.

Lemma for_each_ext {A S : Type} (xs : list A) (f g : A -> S -> result S) (s : S) :
  (forall x s', In x xs -> f x s' = g x s') ->
  for_each xs f s = for_each xs g s.
Proof.
  revert s; induction xs as [|x xs IH]; intros s H; simpl; [reflexivity|].
  rewrite (H x s (or_introl eq_refl)).
  destruct (g x s) as [s'|e]; simpl; [|reflexivity].
  apply IH; intros; apply H; right; assumption.
Qed.

Lemma map_r_ok {A B : Type} (f : A -> result B) (g : A -> B) (xs : list A) :
  (forall x, In x xs -> f x = Ok (g x)) ->
  map_r f xs = Ok (map g xs).
Proof.
  induction xs as [|x xs IH]; intros H; simpl; [reflexivity|].
  rewrite (H x (or_introl eq_refl)); simpl.
  rewrite IH by (intros; apply H; right; assumption).
  reflexivity.
Qed.

Lemma map_r_length {A B : Type} (f : A -> result B) (xs : list A) (ys : list B) :
  map_r f xs = Ok ys -> length ys = length xs.
Proof.
  revert ys; induction xs as [|x xs IH]; intros ys; simpl.
  - intros [= <-]; reflexivity.
  - destruct (f x) as [y|e]; simpl; [|discriminate].
    destruct (map_r f xs) as [ys'|e]; simpl; [|discriminate].
    intros [= <-]; simpl; f_equal; apply IH; reflexivity.
Qed.

(** ** NumPy facts *)

Module NpFacts.

Import Np.

Lemma nan_times_zero : PrimFloat.mul nan 0%float = nan.
Proof. reflexivity. Qed.

(** [np.nan * np.zeros(n)] is [n] NaNs. *)
Lemma scale_nan_zeros (n : nat) : scale nan (zeros n) = repeat nan n.
Proof.
  unfold scale, zeros; induction n as [|n IH]; simpl; [reflexivity|].
  rewrite IH; reflexivity.
Qed.

Lemma isnan_nan : isnan nan = true.
Proof. reflexivity. Qed.

Lemma where_lt {A : Type} (cond : A -> bool) (v : list A) (i : nat) :
  In i (where_ cond v) -> i < length v.
Proof.
  unfold where_; intros H.
  apply in_map_iff in H as [[j x] [<- H]].
  apply filter_In in H as [H _].
  apply in_combine_l in H. apply in_seq in H. simpl in *. lia.
Qed.

Lemma in_combine_seq {A : Type} (l : list A) (s i : nat) (x : A) :
  In (i, x) (combine (seq s (length l)) l) <->
  s <= i /\ nth_error l (i - s) = Some x.
Proof.
  revert s; induction l as [|y l IH]; intros s; simpl.
  - split; [tauto|]. intros [_ H]. destruct (i - s); discriminate.
  - rewrite IH. split.
    + intros [[= <- <-]|[Hle H]].
      * rewrite Nat.sub_diag; simpl; auto.
      * replace (i - s) with (S (i - S s)) by lia. simpl. split; [lia | exact H].
    + intros [Hle H]. destruct (i - s) as [|k] eqn:E; simpl in H.
      * left. injection H as ->. f_equal. lia.
      * right. split; [lia|]. replace (i - S s) with k by lia. exact H.
Qed.

(** The indices [np.where] gives are exactly the positions where the
    condition holds. *)
Lemma where_spec {A : Type} (cond : A -> bool) (v : list A) (i : nat) :
  In i (where_ cond v) <->
  exists x, nth_error v i = Some x /\ cond x = true.
Proof.
  unfold where_. rewrite in_map_iff. split.
  - intros [[j x] [Hj H]]; simpl in Hj; subst j.
    apply filter_In in H as [H Hc]; simpl in Hc.
    apply in_combine_seq in H as [_ H]. rewrite Nat.sub_0_r in H.
    exists x; split; assumption.
  - intros [x [Hn Hc]]. exists (i, x); split; [reflexivity|].
    apply filter_In; split; [|exact Hc].
    apply in_combine_seq. rewrite Nat.sub_0_r. split; [lia | exact Hn].
Qed.

Lemma where_nil_iff {A : Type} (cond : A -> bool) (v : list A) :
  where_ cond v = [] <-> forall x, In x v -> cond x = false.
Proof.
  split.
  - intros H x Hx. apply In_nth_error in Hx as [i Hi].
    destruct (cond x) eqn:E; [|reflexivity].
    assert (In i (where_ cond v)) by (apply where_spec; eauto).
    rewrite H in *. contradiction.
  - intros H. destruct (where_ cond v) as [|i l] eqn:E; [reflexivity|].
    assert (Hi : In i (where_ cond v)) by (rewrite E; left; reflexivity).
    apply where_spec in Hi as [x [Hn Hc]].
    apply nth_error_In in Hn. rewrite (H x Hn) in Hc. discriminate.
Qed.

(** Indexing inside the bounds does not raise. *)
Lemma take_ok {A : Type} (d : A) (v : list A) (idx : list nat) :
  (forall i, In i idx -> i < length v) ->
  take v idx = Ok (map (fun i => nth i v d) idx).
Proof.
  intros H. unfold take. apply map_r_ok. intros i Hi.
  destruct (nth_error v i) as [x|] eqn:E.
  - rewrite (nth_error_nth _ _ d E). reflexivity.
  - apply nth_error_None in E. specialize (H i Hi). lia.
Qed.

Lemma take_nil {A : Type} (v : list A) : take v [] = Ok [].
Proof. reflexivity. Qed.

Lemma along_axis0_length (f : vec -> float) (a : ndarray2) :
  length (along_axis0 f a) = ncol a.
Proof. unfold along_axis0. rewrite length_map, length_seq. reflexivity. Qed.

Lemma along_axis1_length (f : vec -> float) (a : ndarray2) :
  length (along_axis1 f a) = length (rows a).
Proof. unfold along_axis1. apply length_map. Qed.

End NpFacts.

(** ** The path resolver *)

Module ConfigFacts.

Import Config.

(** The template has exactly nine keys. *)
Lemma template_keys (base_path typ : string) (k : kwargs) :
  dom (path_template base_path typ k) =
  ({[ "base_path"; "data_path"; "report"; "log"; "behavior"; "epoch";
      "evoked"; "decod"; "generalize" ]} : gset string).
Proof.
  unfold path_template. rewrite !dom_insert_L, dom_empty_L.
  apply leibniz_equiv. set_solver.
Qed.

Lemma lookup_template_outside (base_path typ : string) (k : kwargs) :
  typ ∉ ({[ "base_path"; "data_path"; "report"; "log"; "behavior"; "epoch";
            "evoked"; "decod"; "generalize" ]} : gset string) ->
  lookup_template base_path typ k = Raise (KeyError typ).
Proof.
  intros H. unfold lookup_template.
  rewrite <- (template_keys base_path typ k) in H.
  apply not_elem_of_dom in H. rewrite H. reflexivity.
Qed.

Lemma lookup_template_inside (base_path typ : string) (k : kwargs) :
  typ ∈ ({[ "base_path"; "data_path"; "report"; "log"; "behavior"; "epoch";
            "evoked"; "decod"; "generalize" ]} : gset string) ->
  exists file, lookup_template base_path typ k = Ok file.
Proof.
  intros H. unfold lookup_template.
  rewrite <- (template_keys base_path typ k) in H.
  apply elem_of_dom in H as [file H]. rewrite H. eauto.
Qed.

(** The call of the aggregator's subject loop, at the first subject and
    a relative base path: the path under the layout, and the three
    directories made on the way. *)
Example paths_decod_first_subject :
  match paths "." "decod"
     {| subject := "ak130184"; data_type := "erf"; lock := "target";
        analysis := "target_circAngle"; pyscript := "config.py"; log := false |}
     {| present := {[ "." ]}; appended := ∅ |} with
  | Ok (file, w) =>
      file = "./data/ak130184/decod/ak130184_target_erf_target_circAngle.pickle"
      /\ present w = {[ "."; "./data"; "./data/ak130184"; "./data/ak130184/decod" ]}
  | Raise _ => False
  end.
Proof. vm_compute. split; reflexivity. Qed.

End ConfigFacts.

(** C3.  The resolver has no entry for the artifact type ['score']:
    whatever the base path, the keyword arguments and the directories
    present, [paths('score', ...)] raises [KeyError('score')] at
    [path_template[typ]]; no path is returned and no directory is made. *)
Theorem paths_score_raises_KeyError :
  forall (base_path : string) (k : Config.kwargs) (w : Config.world),
    Config.paths base_path "score" k w = Raise (KeyError "score").
Proof.
  intros base_path k w. unfold Config.paths.
  rewrite ConfigFacts.lookup_template_outside; [reflexivity|].
  set_unfold. intuition discriminate.
Qed.

(** ** The aggregator: subselections *)

Module SubscoreFacts.

Import Np NpFacts Aggregator ClosedForms.

Lemma string_length_append (a b : string) :
  String.length (String.append a b) = String.length a + String.length b.
Proof. induction a as [|c a IH]; simpl; [reflexivity | rewrite IH; reflexivity]. Qed.

(** The key [name + '_toi'] is never the key [name]. *)
Lemma key_toi_fresh (name : string) : String.append name "_toi" <> name.
Proof.
  intros H. apply (f_equal String.length) in H.
  rewrite string_length_append in H. simpl in H. lia.
Qed.

Local Abbreviation dict := (gmap string subvalue).

Lemma append_to_list (key : string) (x : float) (d : dict) (l : list float) :
  d !! key = Some (PerToi l) ->
  append_to key x d = Ok (<[ key := PerToi (l ++ [x]) ]> d).
Proof. intros H. unfold append_to. rewrite H. reflexivity. Qed.

(** A loop whose body appends one value per item to the list under [key]:
    the list grows by these values, in the order of the items, and no
    other key changes. *)
Lemma for_each_append_to {T : Type} (key : string) (g : T -> float)
    (body : T -> dict -> result dict) (ts : list T) :
  (forall t d, In t ts -> body t d = append_to key (g t) d) ->
  forall (d : dict) (l0 : list float),
    d !! key = Some (PerToi l0) ->
    exists d', for_each ts body d = Ok d' /\
               d' !! key = Some (PerToi (l0 ++ map g ts)) /\
               forall k, k <> key -> d' !! k = d !! k.
Proof.
  induction ts as [|t ts IH]; intros Hb d l0 Hd; simpl.
  - exists d. rewrite app_nil_r. auto.
  - rewrite (Hb t d (or_introl eq_refl)), (append_to_list _ _ _ _ Hd). simpl.
    destruct (IH (fun t' d' Hin => Hb t' d' (or_intror Hin))
                 (<[ key := PerToi (l0 ++ [g t]) ]> d) (l0 ++ [g t]))
      as [d' [H1 [H2 H3]]].
    { apply lookup_insert_eq. }
    exists d'. split; [exact H1|]. split.
    + rewrite H2, <- app_assoc. reflexivity.
    + intros k Hk. rewrite (H3 k Hk). apply lookup_insert_ne. congruence.
Qed.

Section Loops.

Variable E : env.

Lemma take_cols_ok (ts : vec) (y_error : ndarray2) (subevents : list event) (t : toi) :
  fits ts y_error subevents ->
  take_cols y_error (toi_window ts t) =
  Ok {| nrow := nrow y_error; ncol := length (toi_window ts t);
        rows := map (fun row => pick row (toi_window ts t)) (rows y_error) |}.
Proof.
  intros [[Hn Hr] [_ Hts]]. unfold take_cols.
  rewrite (map_r_ok _ (fun row => pick row (toi_window ts t))).
  - reflexivity.
  - intros row Hrow. unfold pick. apply take_ok.
    intros i Hi. apply where_lt in Hi.
    rewrite List.Forall_forall in Hr. rewrite (Hr row Hrow). lia.
Qed.

Lemma window_value_ok (ts : vec) (y_error : ndarray2) (subevents : list event)
    (q : event -> bool) (t : toi) :
  fits ts y_error subevents ->
  (let* cols := take_cols y_error (toi_window ts t) in
   let y_error_toi := along_axis1 (e_circ_mean E) cols in
   let* picked := take y_error_toi (query_index q subevents) in
   Ok (e_angle_acc E picked))
  = Ok (window_error E ts y_error (query_index q subevents) t).
Proof.
  intros F. rewrite (take_cols_ok _ _ _ _ F). simpl.
  unfold along_axis1; simpl. rewrite map_map.
  rewrite (take_ok nan).
  - reflexivity.
  - intros i Hi. apply where_lt in Hi.
    destruct F as [[Hn _] [He _]]. rewrite length_map. lia.
Qed.

(** One iteration of the loop over [subscores], when the data fit: it does
    not raise, it stores the two closed forms under its two keys and
    leaves every other key alone. *)
Lemma subscore_body_spec (ts : vec) (y_error : ndarray2) (subevents : list event)
    (name : string) (q : event -> bool) (d : dict) :
  fits ts y_error subevents ->
  exists d',
    subscore_body E ts y_error subevents (name, q) d = Ok d' /\
    d' !! name = Some (Dynamics (dynamics_of E y_error subevents q)) /\
    d' !! String.append name "_toi" =
      Some (PerToi (per_toi_of E ts y_error subevents q)) /\
    forall k, k <> name -> k <> String.append name "_toi" -> d' !! k = d !! k.
Proof.
  intros F. unfold subscore_body, dynamics_of, per_toi_of. simpl fst; simpl snd.
  pose proof (key_toi_fresh name) as Hfresh.
  destruct (query_index q subevents) as [|i0 sel] eqn:Esel.
  - (* no trial matches *)
    simpl Nat.eqb. cbv iota.
    destruct (for_each_append_to (String.append name "_toi") (fun _ : toi => nan)
                (fun (_ : toi) d => append_to (String.append name "_toi") nan d) tois
                (fun _ _ _ => eq_refl)
                (<[ name := Dynamics (scale nan (zeros (ncol y_error))) ]>
                   (<[ String.append name "_toi" := PerToi [] ]> d)) [])
      as [d' [H1 [H2 H3]]].
    { rewrite lookup_insert_ne by congruence. apply lookup_insert_eq. }
    exists d'. split; [exact H1|]. split; [|split].
    + rewrite (H3 name) by congruence.
      rewrite lookup_insert_eq, scale_nan_zeros. reflexivity.
    + rewrite H2. reflexivity.
    + intros k Hk1 Hk2. rewrite (H3 k Hk2).
      rewrite !lookup_insert_ne by congruence. reflexivity.
  - (* some trials match *)
    change ((length (i0 :: sel) =? 0)%nat) with false. cbv iota.
    unfold take_rows. rewrite (take_ok ([] : vec) (rows y_error) (i0 :: sel)).
    2:{ intros i Hi. rewrite <- Esel in Hi. apply where_lt in Hi.
        destruct F as [[Hn _] [He _]]. lia. }
    simpl bind.
    assert (Hbody : forall (t : toi) (d0 : dict), In t tois ->
              (let* cols := take_cols y_error (toi_window ts t) in
               let y_error_toi := along_axis1 (e_circ_mean E) cols in
               let* picked := take y_error_toi (i0 :: sel) in
               append_to (String.append name "_toi") (e_angle_acc E picked) d0)
              = append_to (String.append name "_toi")
                  (window_error E ts y_error (i0 :: sel) t) d0).
    { intros t d0 _. pose proof (window_value_ok ts y_error subevents q t F) as W.
      rewrite Esel in W.
      destruct (take_cols y_error (toi_window ts t)) as [cols|e]; simpl in *; [|discriminate].
      destruct (take (along_axis1 (e_circ_mean E) cols) (i0 :: sel)) as [picked|e];
        simpl in *; [|discriminate].
      injection W as ->. reflexivity. }
    destruct (for_each_append_to (String.append name "_toi")
                (window_error E ts y_error (i0 :: sel)) _ tois Hbody
                (<[ name := Dynamics (along_axis0 (e_angle_acc E)
                      {| nrow := length (i0 :: sel); ncol := ncol y_error;
                         rows := map (fun i => nth i (rows y_error) []) (i0 :: sel) |}) ]>
                   (<[ String.append name "_toi" := PerToi [] ]> d)) [])
      as [d' [H1 [H2 H3]]].
    { rewrite lookup_insert_ne by congruence. apply lookup_insert_eq. }
    exists d'. split; [exact H1|]. split; [|split].
    + rewrite (H3 name) by congruence. rewrite lookup_insert_eq. reflexivity.
    + rewrite H2. reflexivity.
    + intros k Hk1 Hk2. rewrite (H3 k Hk2).
      rewrite !lookup_insert_ne by congruence. reflexivity.
Qed.

(** The whole loop, started from any dictionary: with keys that are all
    different, every subselection ends with its two closed forms. *)
Lemma subscore_loop_spec (ts : vec) (y_error : ndarray2) (subevents : list event)
    (subs : list (string * (event -> bool))) :
  fits ts y_error subevents ->
  List.NoDup (keys_of subs) ->
  forall d0 : dict,
  exists d,
    for_each subs (subscore_body E ts y_error subevents) d0 = Ok d /\
    (forall name q, In (name, q) subs ->
       d !! name = Some (Dynamics (dynamics_of E y_error subevents q)) /\
       d !! String.append name "_toi" =
         Some (PerToi (per_toi_of E ts y_error subevents q))) /\
    (forall k, ~ In k (keys_of subs) -> d !! k = d0 !! k).
Proof.
  intros F. induction subs as [|[name q] subs IH]; intros ND d0.
  - exists d0. simpl. split; [reflexivity|]. split; [intros ? ? []|auto].
  - simpl in ND. apply NoDup_cons_iff in ND as [N1 ND].
    apply NoDup_cons_iff in ND as [N2 ND].
    destruct (subscore_body_spec ts y_error subevents name q d0 F)
      as [d1 [B1 [B2 [B3 B4]]]].
    destruct (IH ND d1) as [d [L1 [L2 L3]]].
    exists d. simpl. rewrite B1. simpl. split; [exact L1|]. split.
    + intros name' q' [[= <- <-]|Hin].
      * rewrite !L3; [auto | exact N2 | ].
        intros Hin. apply N1. right. exact Hin.
      * apply L2, Hin.
    + intros k Hk. simpl in Hk.
      rewrite L3 by tauto. apply B4; intros ->; tauto.
Qed.

Lemma dynamics_of_length (y_error : ndarray2) (subevents : list event)
    (q : event -> bool) :
  length (dynamics_of E y_error subevents q) = ncol y_error.
Proof.
  unfold dynamics_of. destruct (query_index q subevents).
  - apply repeat_length.
  - rewrite along_axis0_length. reflexivity.
Qed.

Lemma per_toi_of_length (ts : vec) (y_error : ndarray2) (subevents : list event)
    (q : event -> bool) :
  length (per_toi_of E ts y_error subevents q) = length tois.
Proof.
  unfold per_toi_of. destruct (query_index q subevents).
  - apply repeat_length.
  - apply length_map.
Qed.

Lemma stratum_of_length (y_error : ndarray3) (subevents : list event) (pas : nat) :
  length (stratum_of E y_error subevents pas) = dim2 y_error.
Proof.
  unfold stratum_of. destruct (query_index (pas_query pas) subevents).
  - apply repeat_length.
  - rewrite along_axis0_length. reflexivity.
Qed.

Lemma pas_body_spec (y_error : ndarray3) (subevents : list event)
    (pas : nat) (acc : list vec) :
  length (planes y_error) = length subevents ->
  pas_body E y_error subevents pas acc =
  Ok (acc ++ [stratum_of E y_error subevents pas]).
Proof.
  intros F. unfold pas_body, stratum_of.
  destruct (query_index (pas_query pas) subevents) as [|i0 sel] eqn:Esel.
  - simpl. rewrite scale_nan_zeros. reflexivity.
  - change ((length (i0 :: sel) =? 0)%nat) with false. cbv iota.
    unfold take_planes.
    rewrite (take_ok ([] : list vec) (planes y_error) (i0 :: sel)).
    + reflexivity.
    + intros i Hi. rewrite <- Esel in Hi. apply where_lt in Hi. lia.
Qed.

(** The four strata of one window: no raise, four vectors, in the order
    of the ratings 0 to 3. *)
Lemma results_pas_of_spec (y_error : ndarray3) (subevents : list event) :
  length (planes y_error) = length subevents ->
  results_pas_of E y_error subevents =
  Ok (map (stratum_of E y_error subevents) (seq 0 4)).
Proof.
  intros F. unfold results_pas_of. simpl.
  do 4 (rewrite pas_body_spec by exact F; simpl bind).
  reflexivity.
Qed.

End Loops.

End SubscoreFacts.

(** X17.  When the data of a subject fit together and the keys of
    [subscores] are all different, the two guarded loops return.  The
    loop over [subscores] gives a dictionary that holds, for every
    subselection, an array with one entry per time sample and a list with
    one entry per window of [tois]; when the query matches no trial, both
    are all NaN.  For every window the loop over the four ratings gives
    four vectors of the length of the last axis of the error array, one
    per rating, all NaN for a rating that no trial with the target present
    has.  The rank correlation that follows the loop over the ratings is
    not part of this statement. *)
Theorem zero_match_stores_nan (E : Aggregator.env) (gat : Aggregator.GAT E)
    (subevents : list Aggregator.event) :
  ClosedForms.fits (Aggregator.e_train_times E gat)
                   (Aggregator.e_get_predict_error_diag E gat) subevents ->
  List.NoDup (ClosedForms.keys_of (Aggregator.e_subscores E)) ->
  (forall t, In t Aggregator.tois ->
     length (Np.planes (Aggregator.e_get_predict_error_align E gat t))
     = length subevents) ->
  (exists d,
     Aggregator.subscore_section E gat subevents = Ok d /\
     forall name q, In (name, q) (Aggregator.e_subscores E) ->
       exists v l,
         d !! name = Some (Aggregator.Dynamics v) /\
         d !! String.append name "_toi" = Some (Aggregator.PerToi l) /\
         length v = length (Aggregator.e_train_times E gat) /\
         length l = length Aggregator.tois /\
         (Aggregator.query_index q subevents = [] ->
            v = repeat nan (length (Aggregator.e_train_times E gat)) /\
            l = repeat nan (length Aggregator.tois)))
  /\
  (forall t, In t Aggregator.tois ->
     let y_error := Aggregator.e_get_predict_error_align E gat t in
     exists strata,
       Aggregator.results_pas_of E y_error subevents = Ok strata /\
       length strata = 4 /\
       forall pas, pas < 4 ->
         exists v,
           nth_error strata pas = Some v /\
           length v = Np.dim2 y_error /\
           (Aggregator.query_index (Aggregator.pas_query pas) subevents = [] ->
              v = repeat nan (Np.dim2 y_error))).
Proof.
  intros F ND FA. split.
  - destruct (SubscoreFacts.subscore_loop_spec E _ _ _ (Aggregator.e_subscores E) F ND ∅)
      as [d [H1 [H2 _]]].
    exists d. split; [exact H1|].
    intros name q Hin. destruct (H2 name q Hin) as [Hv Hl].
    destruct F as [_ [_ Hts]].
    eexists; eexists. split; [exact Hv|]. split; [exact Hl|].
    split; [|split].
    + rewrite SubscoreFacts.dynamics_of_length. symmetry. exact Hts.
    + apply SubscoreFacts.per_toi_of_length.
    + intros Hq. unfold ClosedForms.dynamics_of, ClosedForms.per_toi_of.
      rewrite Hq, Hts. split; reflexivity.
  - intros t Ht y_error. subst y_error.
    rewrite (SubscoreFacts.results_pas_of_spec E _ _ (FA t Ht)).
    eexists. split; [reflexivity|]. split; [reflexivity|].
    intros pas Hpas.
    exists (ClosedForms.stratum_of E (Aggregator.e_get_predict_error_align E gat t)
              subevents pas).
    split; [|split].
    + destruct pas as [|[|[|[|pas]]]]; try reflexivity. lia.
    + apply SubscoreFacts.stratum_of_length.
    + intros Hq. unfold ClosedForms.stratum_of. rewrite Hq. reflexivity.
Qed.

Lemma zero_match_stores_nan_witness :
  (exists d,
     Aggregator.subscore_section Toy.E Toy.gat_a Toy.events = Ok d /\
     forall name q, In (name, q) (Aggregator.e_subscores Toy.E) ->
       exists v l,
         d !! name = Some (Aggregator.Dynamics v) /\
         d !! String.append name "_toi" = Some (Aggregator.PerToi l) /\
         length v = length (Aggregator.e_train_times Toy.E Toy.gat_a) /\
         length l = length Aggregator.tois /\
         (Aggregator.query_index q Toy.events = [] ->
            v = repeat nan (length (Aggregator.e_train_times Toy.E Toy.gat_a)) /\
            l = repeat nan (length Aggregator.tois)))
  /\
  (forall t, In t Aggregator.tois ->
     let y_error := Aggregator.e_get_predict_error_align Toy.E Toy.gat_a t in
     exists strata,
       Aggregator.results_pas_of Toy.E y_error Toy.events = Ok strata /\
       length strata = 4 /\
       forall pas, pas < 4 ->
         exists v,
           nth_error strata pas = Some v /\
           length v = Np.dim2 y_error /\
           (Aggregator.query_index (Aggregator.pas_query pas) Toy.events = [] ->
              v = repeat nan (Np.dim2 y_error))).
Proof.
  apply (zero_match_stores_nan Toy.E Toy.gat_a Toy.events).
  - unfold ClosedForms.fits, Np.wf2. simpl.
    repeat split; repeat constructor.
  - unfold ClosedForms.keys_of. simpl.
    repeat (constructor; [simpl; intuition discriminate|]). constructor.
  - intros t _. reflexivity.
Defined.

(** ** The aggregator: the rank correlation of the "Duration" part *)

Module DurationFacts.

Import Np NpFacts Aggregator ClosedForms.

Lemma present_subset_empty (subevents : list event) :
  (forall e, In e subevents -> target_present e = false) ->
  query_index present_query subevents = [].
Proof.
  intros H. apply where_nil_iff. intros e He.
  unfold present_query. rewrite (H e He). reflexivity.
Qed.

Lemma strata_empty (subevents : list event) (pas : nat) :
  (forall e, In e subevents -> target_present e = false) ->
  query_index (pas_query pas) subevents = [].
Proof.
  intros H. apply where_nil_iff. intros e He.
  unfold pas_query. rewrite (H e He). apply andb_false_r.
Qed.

(** With trials that fit the array, the step is one expression of the
    subset with the target present, whatever the subset is. *)
Lemma rank_correlation_closed (E : env) (y_error : ndarray3)
    (subevents : list event) :
  length (planes y_error) = length subevents ->
  rank_correlation E y_error subevents =
  let sel := query_index present_query subevents in
  let X := along3_axis1 (e_angle_acc E)
             {| dim0 := length sel; dim1 := dim1 y_error; dim2 := dim2 y_error;
                planes := map (fun i => nth i (planes y_error) []) sel |} in
  let* X2 := reshape_rows X (length sel) in
  reshape_len
    (e_repeated_spearman E X2 (pick (map detect_button subevents) sel))
    (dim2 y_error).
Proof.
  intros F. unfold rank_correlation, take_planes. cbv zeta.
  rewrite (take_ok ([] : list vec) (planes y_error)).
  2:{ intros i Hi. apply where_lt in Hi. lia. }
  simpl bind.
  destruct (reshape_rows _ _) as [X2|e]; [|reflexivity]. simpl bind.
  rewrite (take_ok nan (map detect_button subevents)).
  - reflexivity.
  - intros i Hi. apply where_lt in Hi. rewrite length_map. exact Hi.
Qed.

End DurationFacts.

(** C10.  When no selected trial has the target present, the four strata
    of every window are the NaN placeholders, but the rank correlation of
    that window is still attempted on the empty subset: its
    [reshape([len(sel), -1])] raises [ValueError], nothing stands in for
    it, and the "Duration" part as a whole raises. *)
Theorem rank_correlation_has_no_guard (E : Aggregator.env)
    (gat : Aggregator.GAT E) (subevents : list Aggregator.event) :
  (forall e, In e subevents -> Aggregator.target_present e = false) ->
  (forall t, In t Aggregator.tois ->
     let y_error := Aggregator.e_get_predict_error_align E gat t in
     Aggregator.results_pas_of E y_error subevents
       = Ok (repeat (repeat nan (Np.dim2 y_error)) 4) /\
     Aggregator.rank_correlation E y_error subevents = Raise ValueError) /\
  Aggregator.duration_section E gat subevents = Raise ValueError.
Proof.
  intros H.
  assert (R : forall y, Aggregator.rank_correlation E y subevents = Raise ValueError).
  { intros y. unfold Aggregator.rank_correlation.
    rewrite (DurationFacts.present_subset_empty subevents H). reflexivity. }
  assert (P : forall y, Aggregator.results_pas_of E y subevents
                        = Ok (repeat (repeat nan (Np.dim2 y)) 4)).
  { intros y. unfold Aggregator.results_pas_of. simpl.
    unfold Aggregator.pas_body.
    rewrite !(DurationFacts.strata_empty subevents _ H). simpl.
    rewrite NpFacts.scale_nan_zeros. reflexivity. }
  split.
  - intros t _ y_error. split; [apply P | apply R].
  - unfold Aggregator.duration_section. simpl.
    unfold Aggregator.duration_body at 1. rewrite P, R. reflexivity.
Qed.

Lemma rank_correlation_has_no_guard_witness :
  (forall t, In t Aggregator.tois ->
     let y_error := Aggregator.e_get_predict_error_align Toy.E Toy.gat_a t in
     Aggregator.results_pas_of Toy.E y_error
       [Toy.ev 2%float false; Toy.ev 0%float false]
       = Ok (repeat (repeat nan (Np.dim2 y_error)) 4) /\
     Aggregator.rank_correlation Toy.E y_error
       [Toy.ev 2%float false; Toy.ev 0%float false] = Raise ValueError) /\
  Aggregator.duration_section Toy.E Toy.gat_a
    [Toy.ev 2%float false; Toy.ev 0%float false] = Raise ValueError.
Proof.
  apply (rank_correlation_has_no_guard Toy.E Toy.gat_a
           [Toy.ev 2%float false; Toy.ev 0%float false]).
  intros e [<-|[<-|[]]]; reflexivity.
Defined.

(** ** The aggregator: the "Duration" part, window by window *)

Module DurationMore.

Import Np NpFacts Aggregator ClosedForms.

(** Without a trial that has the target present the "Duration" part
    raises at its first window. *)
Lemma no_present_trial_raises (E : env) (gat : GAT E) (subevents : list event) :
  (forall e, In e subevents -> target_present e = false) ->
  duration_section E gat subevents = Raise ValueError.
Proof.
  intros H. unfold duration_section. simpl.
  unfold duration_body at 1, results_pas_of. simpl.
  unfold pas_body.
  rewrite !(DurationFacts.strata_empty subevents _ H). simpl.
  unfold rank_correlation.
  rewrite (DurationFacts.present_subset_empty subevents H). reflexivity.
Qed.

(** What the loop of the "Duration" part appends, window by window. *)
Lemma duration_loop_inv (E : env) (gat : GAT E) (subevents : list event)
    (ts : list toi) :
  forall (acc acc' : list (list vec) * list vec),
    for_each ts (duration_body E gat subevents) acc = Ok acc' ->
    exists strata Rs,
      acc' = (fst acc ++ strata, snd acc ++ Rs) /\
      List.Forall2
        (fun t s =>
           results_pas_of E (e_get_predict_error_align E gat t) subevents = Ok s)
        ts strata /\
      List.Forall2
        (fun t R =>
           rank_correlation E (e_get_predict_error_align E gat t) subevents = Ok R)
        ts Rs.
Proof.
  induction ts as [|t ts IH]; intros acc acc' H; simpl in H.
  - injection H as <-. exists [], []. rewrite !app_nil_r.
    split; [destruct acc; reflexivity|]. split; constructor.
  - apply bind_ok in H as [acc1 [H1 H]].
    unfold duration_body in H1.
    apply bind_ok in H1 as [s [Hs H1]].
    apply bind_ok in H1 as [R [HR H1]].
    injection H1 as <-.
    destruct (IH _ _ H) as [strata [Rs [-> [F1 F2]]]].
    exists (s :: strata), (R :: Rs). cbn [fst snd].
    rewrite <- !app_assoc. split; [reflexivity|].
    split; constructor; assumption.
Qed.

End DurationMore.

(** C1.  A subject none of whose selected trials has the target present:
    each of the four queries ['detect_button == %i and target_present ==
    True'] matches zero trials, the loop over [subscores] has stored its
    entries, and still the iteration of the subject loop raises
    [ValueError], and with it the subject loop: the "Duration" part has a
    guard for the four strata but none for the rank correlation that
    follows them. *)
Theorem zero_match_subject_raises (E : Aggregator.env)
    (analysis subject : string) (v : Aggregator.vars) (w : Config.world)
    (fname : string) (w' : Config.world) (gat : Aggregator.GAT E) (u : unit)
    (events_sel : list nat) (events subevents : list Aggregator.event)
    (d : gmap string Aggregator.subvalue) :
  Config.paths (Aggregator.e_base_path E) "decod"
    (Aggregator.kw subject analysis) w = Ok (fname, w') ->
  Aggregator.e_disk E fname = Some (gat, u, events_sel, events) ->
  Aggregator.iloc events events_sel = Ok subevents ->
  (forall e, In e subevents -> Aggregator.target_present e = false) ->
  Aggregator.subscore_section E gat subevents = Ok d ->
  (forall pas,
     Aggregator.query_index (Aggregator.pas_query pas) subevents = []) /\
  Aggregator.subject_body E analysis subject (v, w) = Raise ValueError /\
  (forall later,
     for_each (subject :: later) (Aggregator.subject_body E analysis) (v, w)
     = Raise ValueError).
Proof.
  intros Hp Hd Hi Ha Hs.
  assert (B : Aggregator.subject_body E analysis subject (v, w) = Raise ValueError).
  { unfold Aggregator.subject_body. cbn [fst snd]. rewrite Hp. cbn [bind].
    unfold Aggregator.load. rewrite Hd. cbn [bind]. rewrite Hi. cbn [bind].
    destruct (Aggregator.angle_pred_section E analysis gat (Aggregator.bins v))
      as [ar b1].
    destruct (Aggregator.toi_section E gat b1) as [tr b2].
    rewrite Hs. cbn [bind].
    rewrite (DurationMore.no_present_trial_raises E gat subevents Ha).
    reflexivity. }
  split; [|split].
  - intros pas. exact (DurationFacts.strata_empty subevents pas Ha).
  - exact B.
  - intros later. cbn [for_each]. rewrite B. reflexivity.
Qed.

Lemma zero_match_subject_raises_witness :
  (forall pas,
     Aggregator.query_index (Aggregator.pas_query pas) Toy3.absent_events = []) /\
  Aggregator.subject_body Toy3.E_absent "target_circAngle" "ak130184"
    ({| Aggregator.res := Aggregator.empty_results;
        Aggregator.times := None; Aggregator.bins := None |}, Toy.world0)
  = Raise ValueError /\
  (forall later,
     for_each ("ak130184" :: later)
       (Aggregator.subject_body Toy3.E_absent "target_circAngle")
       ({| Aggregator.res := Aggregator.empty_results;
           Aggregator.times := None; Aggregator.bins := None |}, Toy.world0)
     = Raise ValueError).
Proof.
  destruct (Config.paths (Aggregator.e_base_path Toy3.E_absent) "decod"
              (Aggregator.kw "ak130184" "target_circAngle") Toy.world0)
    as [[fname w']|e] eqn:Hp.
  - destruct (Aggregator.subscore_section Toy3.E_absent Toy.gat_a Toy3.absent_events)
      as [d|e] eqn:Hs.
    + apply (zero_match_subject_raises Toy3.E_absent "target_circAngle" "ak130184"
               {| Aggregator.res := Aggregator.empty_results;
                  Aggregator.times := None; Aggregator.bins := None |}
               Toy.world0 fname w' Toy.gat_a tt [0; 1; 2] Toy3.absent_events
               Toy3.absent_events d Hp).
      * reflexivity.
      * reflexivity.
      * intros e [<-|[<-|[<-|[]]]]; reflexivity.
      * exact Hs.
    + vm_compute in Hs. discriminate Hs.
  - vm_compute in Hp. discriminate Hp.
Defined.

(** ** The aggregator: the subject loop *)

Module GatherFacts.

Import Np NpFacts Aggregator ClosedForms.

(** A loop that appends one curve per item and rebinds [bins] each time. *)
Lemma fold_curves {X : Type} (ct : X -> vec * vec) (xs : list X)
    (l0 : list vec) (b0 : option vec) :
  fold_left
    (fun (acc : list vec * option vec) (x : X) =>
       let '(probas, bins') := ct x in (fst acc ++ [probas], Some bins'))
    xs (l0, b0)
  = (l0 ++ map (fun x => fst (ct x)) xs,
     match rev xs with
     | [] => b0
     | x :: _ => Some (snd (ct x))
     end).
Proof.
  revert l0 b0. induction xs as [|x xs IH]; intros l0 b0; simpl.
  - rewrite app_nil_r. reflexivity.
  - destruct (ct x) as [p b'] eqn:Ex. simpl. rewrite IH.
    rewrite <- app_assoc. simpl. f_equal.
    destruct (rev xs) as [|y ys] eqn:Er; simpl.
    + rewrite Ex. reflexivity.
    + reflexivity.
Qed.

Section Loop.

Variable E : env.

Lemma angle_pred_section_curves (analysis : string) (gat : GAT E) (b0 : option vec) :
  fst (angle_pred_section E analysis gat b0) = angle_curves E analysis gat.
Proof.
  unfold angle_pred_section, angle_curves.
  rewrite (fold_curves
             (fun angle =>
                e_circ_tuning E
                  (e_get_predict E gat
                     (where_ (fun y => PrimFloat.eqb y angle) (e_y_true_ E gat))
                     (peak_toi analysis)) n_bins)).
  reflexivity.
Qed.

Lemma toi_section_closed (gat : GAT E) (b0 : option vec) :
  toi_section E gat b0 =
  (toi_curves E gat,
   Some (snd (e_circ_tuning E
                (e_get_predict_error_toi E gat (0.900%float, 1.050%float))
                n_bins))).
Proof.
  unfold toi_section, toi_curves.
  rewrite (fold_curves
             (fun t => e_circ_tuning E (e_get_predict_error_toi E gat t) n_bins)).
  reflexivity.
Qed.

(** The path of a subject's pickle does not depend on the directories. *)
Lemma paths_decod (subject analysis : string) (w : Config.world)
    (fname : string) (w' : Config.world) :
  Config.paths (e_base_path E) "decod" (kw subject analysis) w = Ok (fname, w') ->
  Config.lookup_template (e_base_path E) "decod" (kw subject analysis) = Ok fname.
Proof.
  unfold Config.paths. intros H.
  apply bind_ok in H as [file [H1 H]]. rewrite H1.
  simpl in H. apply bind_ok in H as [w2 [_ H]]. congruence.
Qed.

(** One iteration of the subject loop that does not raise adds the
    subject's contribution, and nothing else, to the variables. *)
Lemma subject_body_inv (analysis subject : string) (v : vars) (w : Config.world)
    (v' : vars) (w' : Config.world) :
  subject_body E analysis subject (v, w) = Ok (v', w') ->
  exists c, contribution_at E analysis subject = Ok c /\ v' = push v c.
Proof.
  unfold subject_body, contribution_at. simpl fst; simpl snd. intros H.
  apply bind_ok in H as [[fname w1] [Hp H]].
  rewrite (paths_decod _ _ _ _ _ Hp). simpl bind.
  apply bind_ok in H as [[[[gat u] events_sel] events] [Hl H]].
  rewrite Hl. simpl bind. unfold contribution_of.
  apply bind_ok in H as [subevents [Hi H]]. rewrite Hi. simpl bind.
  destruct (angle_pred_section E analysis gat (bins v)) as [angle_results bins1] eqn:Ea.
  rewrite toi_section_closed in H.
  apply bind_ok in H as [d [Hs H]]. rewrite Hs. simpl bind.
  apply bind_ok in H as [[aligned R] [Hd H]]. rewrite Hd. simpl bind.
  injection H as <- <-.
  eexists. split; [reflexivity|].
  unfold push. simpl.
  rewrite <- (angle_pred_section_curves analysis gat (bins v)), Ea. reflexivity.
Qed.

(** The subject loop from any starting variables: what it adds to each
    list of [results] is the list of the subjects' contributions, in the
    order of the subjects; [times] and [bins] are those of the last
    subject, or unchanged when there is none. *)
Lemma subject_loop_spec (analysis : string) (subjects : list string) :
  forall (v0 : vars) (w : Config.world) (v : vars) (w' : Config.world),
    for_each subjects (subject_body E analysis) (v0, w) = Ok (v, w') ->
    exists cs,
      map_r (contribution_at E analysis) subjects = Ok cs /\
      v = fold_left push cs v0.
Proof.
  induction subjects as [|s subjects IH]; intros v0 w v w' H; simpl in H.
  - injection H as <- <-. exists []. split; reflexivity.
  - apply bind_ok in H as [[v1 w1] [H1 H]].
    apply subject_body_inv in H1 as [c [Hc ->]].
    apply IH in H as [cs [Hcs ->]].
    exists (c :: cs). simpl. rewrite Hc, Hcs. split; reflexivity.
Qed.

Lemma fold_push_res (cs : list contribution) (v0 : vars) :
  let r := res (fold_left push cs v0) in
  let r0 := res v0 in
  diagonal r = diagonal r0 ++ map c_diagonal cs /\
  angle_pred r = angle_pred r0 ++ map c_angle_pred cs /\
  toi_ r = toi_ r0 ++ map c_toi cs /\
  subscore r = subscore r0 ++ map c_subscore cs /\
  align_on_diag r = align_on_diag r0 ++ map c_align_on_diag cs /\
  early_maintain r = early_maintain r0 ++ map c_early_maintain cs /\
  R_vis_duration r = R_vis_duration r0 ++ map c_R_vis_duration cs.
Proof.
  revert v0. induction cs as [|c cs IH]; intros v0; simpl.
  - rewrite !app_nil_r. repeat split; reflexivity.
  - destruct (IH (push v0 c)) as (H1 & H2 & H3 & H4 & H5 & H6 & H7).
    simpl in *. rewrite H1, H2, H3, H4, H5, H6, H7, <- !app_assoc.
    repeat split; reflexivity.
Qed.

Lemma fold_push_last (cs : list contribution) (c : contribution) (v0 : vars) :
  times (fold_left push (cs ++ [c]) v0) = Some (c_times c) /\
  bins (fold_left push (cs ++ [c]) v0) = Some (c_bins c).
Proof. rewrite fold_left_app. simpl. split; reflexivity. Qed.

Lemma map_r_app_inv {A B : Type} (f : A -> result B) (xs : list A) (x : A)
    (ys : list B) :
  map_r f (xs ++ [x]) = Ok ys ->
  exists ys' y, map_r f xs = Ok ys' /\ f x = Ok y /\ ys = ys' ++ [y].
Proof.
  revert ys. induction xs as [|a xs IH]; intros ys; simpl.
  - destruct (f x) as [y|e]; simpl; [|discriminate].
    intros [= <-]. exists [], y. auto.
  - destruct (f a) as [b|e]; simpl; [|discriminate].
    destruct (map_r f (xs ++ [x])) as [zs|e] eqn:Ez; simpl; [|discriminate].
    intros [= <-]. destruct (IH zs eq_refl) as [ys' [y [H1 [H2 ->]]]].
    exists (b :: ys'), y. rewrite H1. auto.
Qed.

End Loop.

End GatherFacts.

(** [np.unique] gives values of its argument only. *)
Lemma insert_sorted_in (x u : float) (l : Np.vec) :
  In u (Np.insert_sorted x l) <-> u = x \/ In u l.
Proof.
  induction l as [|y l IH]; simpl.
  - intuition congruence.
  - destruct (Np.sort_le x y); simpl; [intuition congruence|].
    rewrite IH. intuition congruence.
Qed.

Lemma sort_in (u : float) (v : Np.vec) : In u (Np.sort v) <-> In u v.
Proof.
  unfold Np.sort. induction v as [|x v IH]; simpl; [tauto|].
  rewrite insert_sorted_in, IH. intuition congruence.
Qed.

Lemma drop_repeats_in (u prev : float) (l : Np.vec) :
  In u (Np.drop_repeats prev l) -> In u l.
Proof.
  revert prev. induction l as [|y l IH]; intros prev; simpl; [tauto|].
  destruct (PrimFloat.eqb y prev); simpl.
  - intros H. right. exact (IH y H).
  - intros [H|H]; [left; exact H | right; exact (IH y H)].
Qed.

Lemma unique_in (u : float) (v : Np.vec) : In u (Np.unique v) -> In u v.
Proof.
  unfold Np.unique. intros H. apply sort_in.
  destruct (Np.sort v) as [|x r]; [exact H|].
  destruct H as [H|H]; [left; exact H | right; exact (drop_repeats_in _ _ _ H)].
Qed.

(** ** The order of the floats, [np.sort] and [np.unique] *)

Module FloatOrderFacts.

Import SpecFloat FloatOrder.

Lemma compare_key (x y : spec_float) :
  x <> S754_nan -> y <> S754_nan ->
  match SFcompare x y with
  | Some Lt => lex_lt (key x) (key y)
  | Some Eq => key x = key y
  | Some Gt => lex_lt (key y) (key x)
  | None => False
  end.
Proof.
  intros Hx Hy.
  destruct x as [sx|sx| |sx mx ex], y as [sy|sy| |sy my ey];
    try congruence;
    repeat match goal with s : bool |- _ => destruct s end;
    simpl; try reflexivity; try lia;
    destruct (Z.compare_spec ex ey); simpl; try lia;
    rewrite Pos.compare_cont_spec; simpl;
    destruct (Pos.compare_spec mx my); simpl; subst; try lia; reflexivity.
Qed.

Lemma lex_lt_irrefl (a : Z * Z * Z) : ~ lex_lt a a.
Proof. destruct a as [[a1 a2] a3]. simpl. lia. Qed.

Lemma lex_lt_trans (a b c : Z * Z * Z) : lex_lt a b -> lex_lt b c -> lex_lt a c.
Proof.
  destruct a as [[a1 a2] a3], b as [[b1 b2] b3], c as [[c1 c2] c3]. simpl. lia.
Qed.

Lemma lex_lt_asym (a b : Z * Z * Z) : lex_lt a b -> lex_lt b a -> False.
Proof. intros H1 H2. exact (lex_lt_irrefl a (lex_lt_trans a b a H1 H2)). Qed.

Lemma notnan_spec (x : float) : Np.isnan x = false -> FloatOps.Prim2SF x <> S754_nan.
Proof.
  unfold Np.isnan, PrimFloat.is_nan. rewrite FloatAxioms.eqb_spec.
  intros H E. rewrite E in H. discriminate H.
Qed.

(** On floats that are not NaN the three comparisons read off the keys. *)
Lemma ltb_key (x y : float) :
  Np.isnan x = false -> Np.isnan y = false ->
  (PrimFloat.ltb x y = true <-> lex_lt (fkey x) (fkey y)).
Proof.
  intros Hx Hy. apply notnan_spec in Hx, Hy.
  rewrite FloatAxioms.ltb_spec. unfold SFltb, fkey.
  pose proof (compare_key _ _ Hx Hy) as C.
  destruct (SFcompare (FloatOps.Prim2SF x) (FloatOps.Prim2SF y)) as [[| |]|]; try contradiction.
  - rewrite C. split; [discriminate | intros H; destruct (lex_lt_irrefl _ H)].
  - tauto.
  - split; [discriminate | intros H; destruct (lex_lt_asym _ _ H C)].
Qed.

Lemma eqb_key (x y : float) :
  Np.isnan x = false -> Np.isnan y = false ->
  (PrimFloat.eqb x y = true <-> fkey x = fkey y).
Proof.
  intros Hx Hy. apply notnan_spec in Hx, Hy.
  rewrite FloatAxioms.eqb_spec. unfold SFeqb, fkey.
  pose proof (compare_key _ _ Hx Hy) as C.
  destruct (SFcompare (FloatOps.Prim2SF x) (FloatOps.Prim2SF y)) as [[| |]|]; try contradiction.
  - tauto.
  - split; [discriminate|]. intros H. rewrite H in C. destruct (lex_lt_irrefl _ C).
  - split; [discriminate|]. intros H. rewrite H in C. destruct (lex_lt_irrefl _ C).
Qed.

Lemma leb_key (x y : float) :
  Np.isnan x = false -> Np.isnan y = false ->
  (PrimFloat.leb x y = true <-> lex_lt (fkey x) (fkey y) \/ fkey x = fkey y).
Proof.
  intros Hx Hy. apply notnan_spec in Hx, Hy.
  rewrite FloatAxioms.leb_spec. unfold SFleb, fkey.
  pose proof (compare_key _ _ Hx Hy) as C.
  destruct (SFcompare (FloatOps.Prim2SF x) (FloatOps.Prim2SF y)) as [[| |]|]; try contradiction.
  - tauto.
  - tauto.
  - split; [discriminate|]. intros [H|H].
    + destruct (lex_lt_asym _ _ H C).
    + rewrite H in C. destruct (lex_lt_irrefl _ C).
Qed.

(** Two floats that are not NaN compare one way or the other. *)
Lemma leb_total (x y : float) :
  Np.isnan x = false -> Np.isnan y = false ->
  PrimFloat.leb x y = false -> lex_lt (fkey y) (fkey x).
Proof.
  intros Hx Hy H.
  pose proof (leb_key x y Hx Hy) as L.
  apply notnan_spec in Hx, Hy.
  pose proof (compare_key _ _ Hx Hy) as C.
  rewrite FloatAxioms.leb_spec in H. unfold SFleb in H. unfold fkey.
  destruct (SFcompare (FloatOps.Prim2SF x) (FloatOps.Prim2SF y)) as [[| |]|];
    try contradiction; try discriminate. exact C.
Qed.

End FloatOrderFacts.

Module UniqueFacts.

Import Np FloatOrder FloatOrderFacts.

Lemma le_trans (x y z : float) : le x y -> le y z -> le x z.
Proof.
  unfold le, lt. intros [H1|H1] [H2|H2].
  - left. exact (lex_lt_trans _ _ _ H1 H2).
  - left. rewrite <- H2. exact H1.
  - left. rewrite H1. exact H2.
  - right. congruence.
Qed.

Lemma lt_le_trans (x y z : float) : lt x y -> le y z -> lt x z.
Proof.
  unfold le, lt. intros H1 [H2|H2].
  - exact (lex_lt_trans _ _ _ H1 H2).
  - rewrite <- H2. exact H1.
Qed.

Lemma sort_le_leb (x y : float) :
  isnan y = false -> sort_le x y = PrimFloat.leb x y.
Proof. unfold sort_le. intros ->. apply orb_false_r. Qed.

Lemma insert_sorted_increasing (x : float) (l : vec) :
  isnan x = false -> no_nan l ->
  increasing le l -> increasing le (insert_sorted x l).
Proof.
  intros Hx. induction l as [|y r IH]; intros N S; simpl.
  - split; [intros y []|exact I].
  - assert (Hy : isnan y = false) by (apply N; left; reflexivity).
    destruct S as [S1 S2].
    rewrite (sort_le_leb x y Hy).
    destruct (PrimFloat.leb x y) eqn:L; simpl.
    + apply (leb_key x y Hx Hy) in L.
      split; [|split; assumption].
      intros z [<-|Hz]; [exact L|].
      exact (le_trans _ _ _ L (S1 z Hz)).
    + apply (leb_total x y Hx Hy) in L.
      split.
      * intros z Hz. apply insert_sorted_in in Hz as [->|Hz].
        -- left. exact L.
        -- exact (S1 z Hz).
      * apply IH; [|exact S2]. intros z Hz. apply N. right. exact Hz.
Qed.

Lemma sort_increasing (v : vec) : no_nan v -> increasing le (sort v).
Proof.
  unfold sort. induction v as [|x v IH]; intros N; simpl; [exact I|].
  apply insert_sorted_increasing.
  - apply N. left. reflexivity.
  - intros y Hy. apply N. right. apply sort_in. exact Hy.
  - apply IH. intros y Hy. apply N. right. exact Hy.
Qed.

(** After a sorted list has lost its repeats, what is left increases
    strictly, and every entry that was there equals one that is left. *)
Lemma drop_repeats_increasing (l : vec) :
  forall prev : float,
    isnan prev = false -> no_nan l ->
    (forall y, In y l -> le prev y) -> increasing le l ->
    (forall z, In z (drop_repeats prev l) -> lt prev z) /\
    increasing lt (drop_repeats prev l) /\
    (forall y, In y l ->
       fkey y = fkey prev \/
       exists u, In u (drop_repeats prev l) /\ fkey y = fkey u).
Proof.
  induction l as [|y r IH]; intros prev Hp N B S; simpl.
  - split; [intros z []|]. split; [exact I|]. intros y [].
  - assert (Hy : isnan y = false) by (apply N; left; reflexivity).
    destruct S as [S1 S2].
    destruct (IH y Hy (fun z Hz => N z (or_intror Hz)) S1 S2) as (I1 & I2 & I3).
    destruct (PrimFloat.eqb y prev) eqn:Q.
    + apply (eqb_key y prev Hy Hp) in Q.
      split; [|split].
      * intros z Hz. unfold lt. rewrite <- Q. exact (I1 z Hz).
      * exact I2.
      * intros z [<-|Hz]; [left; exact Q|].
        destruct (I3 z Hz) as [E|E]; [left; congruence | right; exact E].
    + assert (L : lt prev y).
      { destruct (B y (or_introl eq_refl)) as [L|L]; [exact L|].
        symmetry in L. apply (eqb_key y prev Hy Hp) in L. congruence. }
      split; [|split].
      * intros z [<-|Hz]; [exact L|].
        exact (lt_le_trans _ _ _ L (or_introl (I1 z Hz))).
      * simpl. split; assumption.
      * intros z [<-|Hz].
        -- right. exists y. split; [left; reflexivity | reflexivity].
        -- right. destruct (I3 z Hz) as [E|[u [Hu E]]].
           ++ exists y. split; [left; reflexivity | exact E].
           ++ exists u. split; [right; exact Hu | exact E].
Qed.

Lemma unique_increasing_key (v : vec) :
  no_nan v ->
  increasing lt (unique v) /\
  (forall y, In y v -> exists u, In u (unique v) /\ fkey y = fkey u).
Proof.
  intros N. pose proof (sort_increasing v N) as S.
  assert (N' : no_nan (sort v)) by (intros y Hy; apply N, sort_in, Hy).
  assert (M : forall y, In y v -> In y (sort v)) by (intros y; apply sort_in).
  unfold unique. destruct (sort v) as [|x r]; simpl.
  - split; [exact I|]. intros y Hy. destruct (M y Hy).
  - destruct S as [S1 S2].
    destruct (drop_repeats_increasing r x (N' x (or_introl eq_refl))
                (fun z Hz => N' z (or_intror Hz)) S1 S2) as (I1 & I2 & I3).
    split; [split; assumption|].
    intros y Hy. destruct (M y Hy) as [<-|Hr].
    + exists x. split; [left; reflexivity | reflexivity].
    + destruct (I3 y Hr) as [E|[u [Hu E]]].
      * exists x. split; [left; reflexivity | exact E].
      * exists u. split; [right; exact Hu | exact E].
Qed.

Lemma increasing_nth (R : float -> float -> Prop) (l : vec) :
  increasing R l ->
  forall i j, i < j < length l -> R (nth i l nan) (nth j l nan).
Proof.
  induction l as [|x r IH]; simpl; intros S i j H; [lia|].
  destruct S as [S1 S2].
  destruct j as [|j]; [lia|].
  destruct i as [|i].
  - apply S1. apply nth_In. lia.
  - apply IH; [exact S2 | lia].
Qed.

(** [np.unique] on labels without NaN: every label equals ([==]) one of
    the values returned, and the values returned increase strictly, so no
    two of them are equal. *)
Lemma unique_covers (v : vec) :
  no_nan v ->
  forall y, In y v -> exists u, In u (unique v) /\ PrimFloat.eqb y u = true.
Proof.
  intros N y Hy.
  destruct (unique_increasing_key v N) as [_ C].
  destruct (C y Hy) as [u [Hu E]].
  exists u. split; [exact Hu|].
  apply eqb_key; [exact (N y Hy) | exact (N u (unique_in u v Hu)) | exact E].
Qed.

Lemma unique_strictly_increasing (v : vec) :
  no_nan v ->
  forall i j, i < j < length (unique v) ->
    PrimFloat.ltb (nth i (unique v) nan) (nth j (unique v) nan) = true.
Proof.
  intros N i j H.
  destruct (unique_increasing_key v N) as [S _].
  assert (Hin : forall k, k < length (unique v) -> isnan (nth k (unique v) nan) = false).
  { intros k Hk. apply N, unique_in, nth_In, Hk. }
  apply ltb_key; [apply Hin; lia | apply Hin; lia |].
  exact (increasing_nth lt _ S i j H).
Qed.

Lemma unique_distinct (v : vec) :
  no_nan v ->
  forall i j, i < length (unique v) -> j < length (unique v) -> i <> j ->
    PrimFloat.eqb (nth i (unique v) nan) (nth j (unique v) nan) = false.
Proof.
  intros N i j Hi Hj Hne.
  destruct (unique_increasing_key v N) as [S _].
  assert (Hin : forall k, k < length (unique v) -> isnan (nth k (unique v) nan) = false).
  { intros k Hk. apply N, unique_in, nth_In, Hk. }
  destruct (PrimFloat.eqb (nth i (unique v) nan) (nth j (unique v) nan)) eqn:Q;
    [|reflexivity].
  apply (eqb_key _ _ (Hin i Hi) (Hin j Hj)) in Q.
  destruct (Nat.lt_total i j) as [L|[L|L]]; [| contradiction |].
  - pose proof (increasing_nth lt _ S i j (conj L Hj)) as C.
    unfold lt in C. rewrite Q in C. destruct (lex_lt_irrefl _ C).
  - pose proof (increasing_nth lt _ S j i (conj L Hi)) as C.
    unfold lt in C. rewrite Q in C. destruct (lex_lt_irrefl _ C).
Qed.

End UniqueFacts.

(** C6.  The entry of [results['angle_pred']] for one subject has one
    curve per value of [np.unique(gat.y_true_)], in that order.  The curve
    of an angle is the first component of [circ_tuning(y_pred, n=24)],
    where [y_pred] is [get_predict] on the trials at the positions [i]
    with [gat.y_true_[i] == angle], and on nothing else, in the peak
    window, which is fixed by the analysis: [.100, .250] for
    ['target_circAngle'] and [.900, 1.150] otherwise.  The values of
    [np.unique] are labels; when no label is NaN, every label equals one
    of them, and they increase strictly, so that no two curves are for
    equal angles. *)
Theorem tuning_curve_per_true_angle (E : Aggregator.env) (analysis : string)
    (gat : Aggregator.GAT E) (bins0 : option Np.vec) :
  let y_true := Aggregator.e_y_true_ E gat in
  let angles := Np.unique y_true in
  let curves := fst (Aggregator.angle_pred_section E analysis gat bins0) in
  curves =
    map (fun angle =>
           fst (Aggregator.e_circ_tuning E
                  (Aggregator.e_get_predict E gat
                     (Np.where_ (fun y => PrimFloat.eqb y angle) y_true)
                     (Aggregator.peak_toi analysis))
                  24))
        angles /\
  length curves = length angles /\
  (forall angle i,
     In i (Np.where_ (fun y => PrimFloat.eqb y angle) y_true) <->
     exists y, nth_error y_true i = Some y /\ PrimFloat.eqb y angle = true) /\
  (forall angle, In angle angles -> In angle y_true) /\
  ((forall y, In y y_true -> Np.isnan y = false) ->
   (forall y, In y y_true ->
      exists angle, In angle angles /\ PrimFloat.eqb y angle = true) /\
   (forall i j, i < j < length angles ->
      PrimFloat.ltb (nth i angles nan) (nth j angles nan) = true) /\
   (forall i j, i < length angles -> j < length angles -> i <> j ->
      PrimFloat.eqb (nth i angles nan) (nth j angles nan) = false)) /\
  Aggregator.peak_toi analysis =
    (if String.eqb analysis "target_circAngle"
     then (0.100%float, 0.250%float) else (0.900%float, 1.150%float)).
Proof.
  intros y_true angles curves. subst curves angles y_true.
  rewrite GatherFacts.angle_pred_section_curves.
  unfold ClosedForms.angle_curves.
  split; [reflexivity|]. split; [apply length_map|].
  split; [intros angle i; apply NpFacts.where_spec|].
  split; [intros angle; apply unique_in|].
  split; [|reflexivity].
  intros N. split; [exact (UniqueFacts.unique_covers _ N)|].
  split; [exact (UniqueFacts.unique_strictly_increasing _ N)|].
  exact (UniqueFacts.unique_distinct _ N).
Qed.

Lemma tuning_curve_per_true_angle_witness :
  Aggregator.e_y_true_ Toy.E Toy.gat_a = [0.5%float; 1%float; 0.5%float] /\
  Np.unique (Aggregator.e_y_true_ Toy.E Toy.gat_a) = [0.5%float; 1%float] /\
  (forall y, In y (Aggregator.e_y_true_ Toy.E Toy.gat_a) ->
     exists angle,
       In angle (Np.unique (Aggregator.e_y_true_ Toy.E Toy.gat_a)) /\
       PrimFloat.eqb y angle = true) /\
  (forall i j,
     i < j < length (Np.unique (Aggregator.e_y_true_ Toy.E Toy.gat_a)) ->
     PrimFloat.ltb (nth i (Np.unique (Aggregator.e_y_true_ Toy.E Toy.gat_a)) nan)
                   (nth j (Np.unique (Aggregator.e_y_true_ Toy.E Toy.gat_a)) nan)
     = true) /\
  (forall i j,
     i < length (Np.unique (Aggregator.e_y_true_ Toy.E Toy.gat_a)) ->
     j < length (Np.unique (Aggregator.e_y_true_ Toy.E Toy.gat_a)) -> i <> j ->
     PrimFloat.eqb (nth i (Np.unique (Aggregator.e_y_true_ Toy.E Toy.gat_a)) nan)
                   (nth j (Np.unique (Aggregator.e_y_true_ Toy.E Toy.gat_a)) nan)
     = false).
Proof.
  split; [reflexivity|]. split; [vm_compute; reflexivity|].
  destruct (tuning_curve_per_true_angle Toy.E "target_circAngle" Toy.gat_a None)
    as (_ & _ & _ & _ & H & _).
  apply H. intros y [<-|[<-|[<-|[]]]]; reflexivity.
Defined.

(** C7, as stated.  Not every window the aggregator passes as [toi=] is
    one of the four of [tois]: the peak window of the probe analysis is
    [.900, 1.150], and the two windows of the "maintenance of early
    classifiers" part are [.100, .150] and [.170, .220]. *)
Lemma windows_outside_tois :
  Aggregator.peak_toi "probe_circAngle" = (0.900%float, 1.150%float) /\
  ~ In (Aggregator.peak_toi "probe_circAngle") Aggregator.tois /\
  (forall (E : Aggregator.env) (gat : Aggregator.GAT E),
     Aggregator.early_maintain_section E gat =
     map (fun t => Np.along_axis0 (Aggregator.e_angle_acc E)
                     (Aggregator.e_get_predict_error_gat E gat t))
         [ (0.100%float, 0.150%float); (0.170%float, 0.220%float) ]) /\
  ~ In (0.100%float, 0.150%float) Aggregator.tois /\
  ~ In (0.170%float, 0.220%float) Aggregator.tois.
Proof.
  split; [reflexivity|].
  split; [simpl; intros [H|[H|[H|[H|[]]]]]; discriminate H|].
  split; [reflexivity|].
  split; simpl; intros [H|[H|[H|[H|[]]]]]; discriminate H.
Qed.

(** C7, amended.  The three loops of the subject loop that aggregate per
    time of interest run over [tois], the list of the four windows
    (-0.100, 0.050), (0.100, 0.250), (0.300, 0.800) and (0.900, 1.050), in
    that order: the tuning curves per toi are those of the four windows;
    the two lists of the "Duration" part hold, window by window, the
    strata and the rank correlation of that window; and the list under
    [name + '_toi'] holds, for each of the four windows, the angle accuracy
    over the selected trials of the per-trial circular mean over the time
    samples [t] of the window, [toi[0] <= t < toi[1]], or four NaNs when
    no trial is selected. *)
Theorem per_toi_mean_error (E : Aggregator.env) (gat : Aggregator.GAT E)
    (subevents : list Aggregator.event) (bins0 : option Np.vec) :
  let ts := Aggregator.e_train_times E gat in
  let y_error := Aggregator.e_get_predict_error_diag E gat in
  ClosedForms.fits ts y_error subevents ->
  List.NoDup (ClosedForms.keys_of (Aggregator.e_subscores E)) ->
  Aggregator.tois =
    [ ((-0.100)%float, 0.050%float); (0.100%float, 0.250%float);
      (0.300%float, 0.800%float); (0.900%float, 1.050%float) ] /\
  fst (Aggregator.toi_section E gat bins0) =
    map (fun t =>
           fst (Aggregator.e_circ_tuning E
                  (Aggregator.e_get_predict_error_toi E gat t) 24))
        Aggregator.tois /\
  (forall aligned R,
     Aggregator.duration_section E gat subevents = Ok (aligned, R) ->
     List.Forall2
       (fun t s =>
          Aggregator.results_pas_of E
            (Aggregator.e_get_predict_error_align E gat t) subevents = Ok s)
       Aggregator.tois aligned /\
     List.Forall2
       (fun t r =>
          Aggregator.rank_correlation E
            (Aggregator.e_get_predict_error_align E gat t) subevents = Ok r)
       Aggregator.tois R) /\
  (exists d,
     Aggregator.subscore_section E gat subevents = Ok d /\
     forall name q, In (name, q) (Aggregator.e_subscores E) ->
       let subsel := Aggregator.query_index q subevents in
       (subsel <> [] ->
        d !! String.append name "_toi" =
        Some (Aggregator.PerToi
                (map (fun t =>
                        let in_window := Aggregator.toi_window ts t in
                        let per_trial :=
                          map (fun row =>
                                 Aggregator.e_circ_mean E
                                   (ClosedForms.pick row in_window))
                              (Np.rows y_error) in
                        Aggregator.e_angle_acc E (ClosedForms.pick per_trial subsel))
                     Aggregator.tois))) /\
       (subsel = [] ->
        d !! String.append name "_toi" =
        Some (Aggregator.PerToi (map (fun _ => nan) Aggregator.tois)))) /\
  (forall t j,
     In j (Aggregator.toi_window ts t) <->
     exists x, nth_error ts j = Some x /\
               PrimFloat.leb (fst t) x = true /\ PrimFloat.ltb x (snd t) = true).
Proof.
  intros ts y_error F ND. subst ts y_error.
  split; [reflexivity|].
  split; [rewrite GatherFacts.toi_section_closed; reflexivity|].
  split.
  { intros aligned R H. unfold Aggregator.duration_section in H.
    destruct (DurationMore.duration_loop_inv E gat subevents Aggregator.tois _ _ H)
      as [strata [Rs [Eq [F1 F2]]]].
    cbn [fst snd app] in Eq. injection Eq as -> ->. split; assumption. }
  split.
  - destruct (SubscoreFacts.subscore_loop_spec E _ _ _ (Aggregator.e_subscores E) F ND ∅)
      as [d [H1 [H2 _]]].
    exists d. split; [exact H1|].
    intros name q Hin subsel. subst subsel.
    destruct (H2 name q Hin) as [_ Hl]. rewrite Hl.
    unfold ClosedForms.per_toi_of.
    destruct (Aggregator.query_index q subevents) as [|i0 sel].
    + split; [congruence | reflexivity].
    + split; [reflexivity | discriminate].
  - intros t j. unfold Aggregator.toi_window. rewrite NpFacts.where_spec.
    split; intros [x [Hx Hc]]; exists x; (split; [exact Hx|]).
    + apply andb_true_iff in Hc. exact Hc.
    + apply andb_true_iff. exact Hc.
Qed.

Lemma per_toi_mean_error_witness :
  let ts := Aggregator.e_train_times Toy.E Toy.gat_a in
  let y_error := Aggregator.e_get_predict_error_diag Toy.E Toy.gat_a in
  (exists aligned R,
     Aggregator.duration_section Toy.E Toy.gat_a Toy.events = Ok (aligned, R)) /\
  Aggregator.tois =
    [ ((-0.100)%float, 0.050%float); (0.100%float, 0.250%float);
      (0.300%float, 0.800%float); (0.900%float, 1.050%float) ] /\
  fst (Aggregator.toi_section Toy.E Toy.gat_a None) =
    map (fun t =>
           fst (Aggregator.e_circ_tuning Toy.E
                  (Aggregator.e_get_predict_error_toi Toy.E Toy.gat_a t) 24))
        Aggregator.tois /\
  (forall aligned R,
     Aggregator.duration_section Toy.E Toy.gat_a Toy.events = Ok (aligned, R) ->
     List.Forall2
       (fun t s =>
          Aggregator.results_pas_of Toy.E
            (Aggregator.e_get_predict_error_align Toy.E Toy.gat_a t) Toy.events
          = Ok s)
       Aggregator.tois aligned /\
     List.Forall2
       (fun t r =>
          Aggregator.rank_correlation Toy.E
            (Aggregator.e_get_predict_error_align Toy.E Toy.gat_a t) Toy.events
          = Ok r)
       Aggregator.tois R) /\
  (exists d,
     Aggregator.subscore_section Toy.E Toy.gat_a Toy.events = Ok d /\
     forall name q, In (name, q) (Aggregator.e_subscores Toy.E) ->
       let subsel := Aggregator.query_index q Toy.events in
       (subsel <> [] ->
        d !! String.append name "_toi" =
        Some (Aggregator.PerToi
                (map (fun t =>
                        let in_window := Aggregator.toi_window ts t in
                        let per_trial :=
                          map (fun row =>
                                 Aggregator.e_circ_mean Toy.E
                                   (ClosedForms.pick row in_window))
                              (Np.rows y_error) in
                        Aggregator.e_angle_acc Toy.E (ClosedForms.pick per_trial subsel))
                     Aggregator.tois))) /\
       (subsel = [] ->
        d !! String.append name "_toi" =
        Some (Aggregator.PerToi (map (fun _ => nan) Aggregator.tois)))) /\
  (forall t j,
     In j (Aggregator.toi_window ts t) <->
     exists x, nth_error ts j = Some x /\
               PrimFloat.leb (fst t) x = true /\ PrimFloat.ltb x (snd t) = true).
Proof.
  split.
  - eexists. eexists. vm_compute. reflexivity.
  - apply (per_toi_mean_error Toy.E Toy.gat_a Toy.events None).
    + unfold ClosedForms.fits, Np.wf2. simpl.
      repeat split; repeat constructor.
    + unfold ClosedForms.keys_of. simpl.
      repeat (constructor; [simpl; intuition discriminate|]). constructor.
Defined.

(** What a contribution is made of: the pickle at the subject's path. *)
Lemma contribution_at_inv (E : Aggregator.env) (analysis subject : string)
    (c : ClosedForms.contribution) :
  ClosedForms.contribution_at E analysis subject = Ok c ->
  exists fname gat u events_sel events,
    Config.lookup_template (Aggregator.e_base_path E) "decod"
      (Aggregator.kw subject analysis) = Ok fname /\
    Aggregator.e_disk E fname = Some (gat, u, events_sel, events) /\
    ClosedForms.c_times c = Aggregator.e_train_times E gat /\
    ClosedForms.c_bins c =
      snd (Aggregator.e_circ_tuning E
             (Aggregator.e_get_predict_error_toi E gat (0.900%float, 1.050%float))
             Aggregator.n_bins).
Proof.
  unfold ClosedForms.contribution_at. intros H.
  apply bind_ok in H as [fname [Hf H]].
  apply bind_ok in H as [[[[gat u] events_sel] events] [Hl H]].
  unfold Aggregator.load in Hl.
  destruct (Aggregator.e_disk E fname) as [p|] eqn:Ed; [|discriminate].
  injection Hl as ->.
  unfold ClosedForms.contribution_of in H.
  apply bind_ok in H as [subevents [_ H]].
  apply bind_ok in H as [d [_ H]].
  apply bind_ok in H as [[aligned R] [_ H]].
  injection H as <-. simpl.
  exists fname, gat, u, events_sel, events. auto.
Qed.

Lemma with_times_bins_inv (v : Aggregator.vars) (r : Aggregator.results) :
  Aggregator.with_times_bins v = Ok r ->
  Aggregator.times_ r = Aggregator.times v /\
  Aggregator.bins_ r = Aggregator.bins v /\
  Aggregator.diagonal r = Aggregator.diagonal (Aggregator.res v) /\
  Aggregator.angle_pred r = Aggregator.angle_pred (Aggregator.res v) /\
  Aggregator.toi_ r = Aggregator.toi_ (Aggregator.res v) /\
  Aggregator.subscore r = Aggregator.subscore (Aggregator.res v) /\
  Aggregator.align_on_diag r = Aggregator.align_on_diag (Aggregator.res v) /\
  Aggregator.early_maintain r = Aggregator.early_maintain (Aggregator.res v) /\
  Aggregator.R_vis_duration r = Aggregator.R_vis_duration (Aggregator.res v).
Proof.
  unfold Aggregator.with_times_bins. intros H.
  destruct (Aggregator.times v) as [t|]; [|discriminate].
  destruct (Aggregator.bins v) as [b|]; [|discriminate].
  simpl in H. injection H as <-. simpl. repeat split; reflexivity.
Qed.

(** The mapping handed to [pickle.dump], read back: the subject loop ran
    from a fresh [results], then [times] and [bins] were stored. *)
Lemma results_to_dump_inv (E : Aggregator.env) (subjects : list string)
    (analysis : string) (times0 bins0 : option Np.vec) (w : Config.world)
    (r : Aggregator.results) (v : Aggregator.vars) (w' : Config.world) :
  Aggregator.results_to_dump E subjects analysis times0 bins0 w = Ok (r, v, w') ->
  Aggregator.with_times_bins v = Ok r /\
  exists cs,
    map_r (ClosedForms.contribution_at E analysis) subjects = Ok cs /\
    v = fold_left ClosedForms.push cs
          {| Aggregator.res := Aggregator.empty_results;
             Aggregator.times := times0; Aggregator.bins := bins0 |}.
Proof.
  unfold Aggregator.results_to_dump, Aggregator.gather. intros H.
  apply bind_ok in H as [[v1 w1] [Hg H]].
  apply bind_ok in H as [r1 [Hr H]].
  injection H as <- <- <-.
  split; [exact Hr|].
  exact (GatherFacts.subject_loop_spec E analysis subjects _ _ _ _ Hg).
Qed.

(** C9.  When the subject loop has run over a list that ends with the
    subject [last], the ['times'] and ['bins'] entries of the mapping
    handed to [pickle.dump] are those of the pickle at the path of [last]:
    its [gat.train_times_['times']], and the bins [circ_tuning] gave for
    the last window of [tois] on that [gat].  The subjects before [last]
    have no part in them. *)
Theorem times_bins_from_last_subject (E : Aggregator.env)
    (earlier : list string) (last analysis : string)
    (times0 bins0 : option Np.vec) (w : Config.world)
    (r : Aggregator.results) (v : Aggregator.vars) (w' : Config.world) :
  Aggregator.results_to_dump E (earlier ++ [last]) analysis times0 bins0 w
    = Ok (r, v, w') ->
  exists fname gat u events_sel events,
    Config.lookup_template (Aggregator.e_base_path E) "decod"
      (Aggregator.kw last analysis) = Ok fname /\
    Aggregator.e_disk E fname = Some (gat, u, events_sel, events) /\
    Aggregator.times_ r = Some (Aggregator.e_train_times E gat) /\
    Aggregator.bins_ r =
      Some (snd (Aggregator.e_circ_tuning E
                   (Aggregator.e_get_predict_error_toi E gat
                      (0.900%float, 1.050%float))
                   Aggregator.n_bins)).
Proof.
  intros H. apply results_to_dump_inv in H as [Hr [cs [Hcs ->]]].
  apply GatherFacts.map_r_app_inv in Hcs as [cs' [c [_ [Hc ->]]]].
  apply with_times_bins_inv in Hr as [Ht [Hb _]].
  destruct (GatherFacts.fold_push_last cs' c
              {| Aggregator.res := Aggregator.empty_results;
                 Aggregator.times := times0; Aggregator.bins := bins0 |})
    as [Ft Fb].
  rewrite Ft in Ht. rewrite Fb in Hb.
  apply contribution_at_inv in Hc
    as [fname [gat [u [events_sel [events [Hf [Hd [Hct Hcb]]]]]]]].
  exists fname, gat, u, events_sel, events.
  rewrite Ht, Hb, Hct, Hcb. auto.
Qed.

Lemma times_bins_from_last_subject_witness :
  exists r v w',
    Aggregator.results_to_dump Toy.E
      (firstn 19 Config.subjects ++ ["ps120458"]) "target_circAngle"
      None None Toy.world0 = Ok (r, v, w') /\
    exists fname gat u events_sel events,
      Config.lookup_template (Aggregator.e_base_path Toy.E) "decod"
        (Aggregator.kw "ps120458" "target_circAngle") = Ok fname /\
      Aggregator.e_disk Toy.E fname = Some (gat, u, events_sel, events) /\
      Aggregator.times_ r = Some (Aggregator.e_train_times Toy.E gat) /\
      Aggregator.bins_ r =
        Some (snd (Aggregator.e_circ_tuning Toy.E
                     (Aggregator.e_get_predict_error_toi Toy.E gat
                        (0.900%float, 1.050%float))
                     Aggregator.n_bins)).
Proof.
  destruct (Aggregator.results_to_dump Toy.E
              (firstn 19 Config.subjects ++ ["ps120458"]) "target_circAngle"
              None None Toy.world0) as [[[r v] w']|e] eqn:H.
  - exists r, v, w'. split; [reflexivity|].
    exact (times_bins_from_last_subject Toy.E (firstn 19 Config.subjects)
             "ps120458" "target_circAngle" None None Toy.world0 r v w' H).
  - vm_compute in H. discriminate H.
Defined.

(** X18.  When the subject loop has completed, each list of the mapping
    handed to [pickle.dump] has one entry per subject, in the order of
    [subjects]: the entry at a position is the contribution of the
    subject at that position, computed from the pickle at that subject's
    path. *)
Theorem results_follow_subject_order (E : Aggregator.env)
    (subjects : list string) (analysis : string)
    (times0 bins0 : option Np.vec) (w : Config.world)
    (r : Aggregator.results) (v : Aggregator.vars) (w' : Config.world) :
  Aggregator.results_to_dump E subjects analysis times0 bins0 w = Ok (r, v, w') ->
  exists cs,
    map_r (ClosedForms.contribution_at E analysis) subjects = Ok cs /\
    length cs = length subjects /\
    Aggregator.diagonal r = map ClosedForms.c_diagonal cs /\
    Aggregator.angle_pred r = map ClosedForms.c_angle_pred cs /\
    Aggregator.toi_ r = map ClosedForms.c_toi cs /\
    Aggregator.subscore r = map ClosedForms.c_subscore cs /\
    Aggregator.align_on_diag r = map ClosedForms.c_align_on_diag cs /\
    Aggregator.early_maintain r = map ClosedForms.c_early_maintain cs /\
    Aggregator.R_vis_duration r = map ClosedForms.c_R_vis_duration cs.
Proof.
  intros H1.
  apply results_to_dump_inv in H1 as [Hr1 [cs1 [Hc1 ->]]].
  exists cs1. split; [exact Hc1|].
  split; [exact (map_r_length _ _ _ Hc1)|].
  apply with_times_bins_inv in Hr1 as (_ & _ & D1 & D2 & D3 & D4 & D5 & D6 & D7).
  destruct (GatherFacts.fold_push_res cs1
              {| Aggregator.res := Aggregator.empty_results;
                 Aggregator.times := times0; Aggregator.bins := bins0 |})
    as (P1 & P2 & P3 & P4 & P5 & P6 & P7).
  simpl in P1, P2, P3, P4, P5, P6, P7.
  rewrite D1, D2, D3, D4, D5, D6, D7.
  repeat split; assumption.
Qed.

Lemma results_follow_subject_order_witness :
  exists r v w',
    Aggregator.results_to_dump Toy.E Config.subjects "target_circAngle"
      None None Toy.world0 = Ok (r, v, w') /\
    exists cs,
      map_r (ClosedForms.contribution_at Toy.E "target_circAngle")
        Config.subjects = Ok cs /\
      length cs = length Config.subjects /\
      Aggregator.diagonal r = map ClosedForms.c_diagonal cs /\
      Aggregator.angle_pred r = map ClosedForms.c_angle_pred cs /\
      Aggregator.toi_ r = map ClosedForms.c_toi cs /\
      Aggregator.subscore r = map ClosedForms.c_subscore cs /\
      Aggregator.align_on_diag r = map ClosedForms.c_align_on_diag cs /\
      Aggregator.early_maintain r = map ClosedForms.c_early_maintain cs /\
      Aggregator.R_vis_duration r = map ClosedForms.c_R_vis_duration cs.
Proof.
  destruct (Aggregator.results_to_dump Toy.E Config.subjects "target_circAngle"
              None None Toy.world0) as [[[r1 v1] w1']|e1] eqn:H1.
  - exists r1, v1, w1'. split; [reflexivity|].
    exact (results_follow_subject_order Toy.E Config.subjects
             "target_circAngle" None None Toy.world0 r1 v1 w1' H1).
  - vm_compute in H1. discriminate H1.
Defined.

(** ** The report *)

Module ReportFacts.

Import Np NpFacts Report.

Lemma nth_nil {A : Type} (j : nat) (d : A) : nth j [] d = d.
Proof. destruct j; reflexivity. Qed.

Lemma map_nth_seq {A : Type} (l : list A) (d : A) :
  map (fun j => nth j l d) (seq 0 (length l)) = l.
Proof.
  induction l as [|x l IH]; simpl; [reflexivity|].
  f_equal. rewrite <- seq_shift, map_map. exact IH.
Qed.

Lemma column_nth (j i : nat) (rs : list vec) :
  nth i (column j rs) nan = nth j (nth i rs []) nan.
Proof.
  unfold column.
  rewrite <- (nth_nil j nan) at 1.
  exact (map_nth (fun r => nth j r nan) rs [] i).
Qed.

(** [a.T.T] is [a]. *)
Lemma transpose_involutive (a : ndarray2) :
  wf2 a -> rows (transpose (transpose a)) = rows a.
Proof.
  intros [Hn Hr]. unfold transpose; simpl.
  rewrite <- Hn.
  rewrite <- (map_nth_seq (rows a) []) at 2.
  apply map_ext_in. intros i Hi. apply in_seq in Hi.
  unfold column at 1. rewrite map_map.
  rewrite (map_ext _ (fun j => nth j (nth i (rows a) []) nan))
    by (intros j; apply column_nth).
  rewrite List.Forall_forall in Hr.
  rewrite <- (Hr (nth i (rows a) [])) by (apply nth_In; lia).
  apply map_nth_seq.
Qed.

Lemma star_iff (p : float) : star p = "*" <-> PrimFloat.ltb p 0.05%float = true.
Proof.
  unfold star, below_05. destruct (PrimFloat.ltb p 0.05%float).
  - split; reflexivity.
  - split; discriminate.
Qed.

(** A cell of the overlay is set exactly when its p-value is below 0.05. *)
Lemma sig_mask_cell (p_val : ndarray2) (a b : nat) :
  nth b (nth a (sig_mask p_val) []) false =
  PrimFloat.ltb (nth b (nth a (rows p_val) []) nan) 0.05%float.
Proof.
  unfold sig_mask.
  rewrite (map_nth (map below_05) (rows p_val) [] a
           : nth a (map (map below_05) (rows p_val)) []
             = map below_05 (nth a (rows p_val) [])).
  exact (map_nth below_05 (nth a (rows p_val) []) nan b).
Qed.

Lemma sub_map {A : Type} (f g : A -> float) (l : list A) :
  Np.sub (map f l) (map g l) = Ok (map (fun x => PrimFloat.sub (f x) (g x)) l).
Proof.
  induction l as [|x l IH]; simpl; [reflexivity|]. rewrite IH. reflexivity.
Qed.

Lemma get_ok {A : Type} (l : list A) (i : nat) (d : A) :
  i < length l -> get l i = Ok (nth i l d).
Proof.
  intros H. unfold get. destruct (nth_error l i) as [x|] eqn:E.
  - rewrite (nth_error_nth _ _ d E). reflexivity.
  - apply nth_error_None in E. lia.
Qed.

End ReportFacts.

Lemma map_r_forall {A B : Type} (f : A -> result B) (P : B -> Prop)
    (xs : list A) (ys : list B) :
  (forall x y, f x = Ok y -> P y) ->
  map_r f xs = Ok ys -> List.Forall P ys.
Proof.
  intros HP. revert ys. induction xs as [|x xs IH]; intros ys; simpl.
  - intros [= <-]. constructor.
  - destruct (f x) as [y|e] eqn:Ey; simpl; [|discriminate].
    destruct (map_r f xs) as [ys'|e]; simpl; [|discriminate].
    intros [= <-]. constructor; [exact (HP x y Ey) | apply IH; reflexivity].
Qed.

Lemma map_r_nth {A B : Type} (f : A -> result B) (xs : list A) (ys : list B)
    (i : nat) (x : A) :
  map_r f xs = Ok ys -> nth_error xs i = Some x ->
  exists y, f x = Ok y /\ nth_error ys i = Some y.
Proof.
  revert ys i. induction xs as [|a xs IH]; intros ys i; simpl.
  - destruct i; discriminate.
  - destruct (f a) as [b|e] eqn:Eb; simpl; [|discriminate].
    destruct (map_r f xs) as [ys'|e]; simpl; [|discriminate].
    intros [= <-]. destruct i as [|i]; simpl.
    + intros [= <-]. exists b. auto.
    + intros Hx. exact (IH ys' i eq_refl Hx).
Qed.

(** [a[:, i, j, k]] where every subject's block is large enough. *)
Lemma slice3_ok (a : list (list (list Np.vec))) (i j k : nat) :
  (forall subj, In subj a ->
     i < length subj /\ j < length (nth i subj []) /\
     k < length (nth j (nth i subj []) [])) ->
  Report.slice3 a i j k =
  Ok (map (fun subj => nth k (nth j (nth i subj []) []) nan) a).
Proof.
  intros H. unfold Report.slice3. apply map_r_ok. intros subj Hs.
  destruct (H subj Hs) as (Hi & Hj & Hk).
  unfold bind.
  rewrite (ReportFacts.get_ok subj i [] Hi).
  pose proof (ReportFacts.get_ok (nth i subj []) j [] Hj) as G.
  unfold Np.vec in *. rewrite G.
  exact (ReportFacts.get_ok _ k nan Hk).
Qed.

(** In a list of four, index 3 is the last index. *)
Lemma nth_3_last (l : list float) :
  length l = 4 -> nth 3 l nan = List.last l nan.
Proof.
  destruct l as [|a1 [|a2 [|a3 [|a4 [|a5 l]]]]]; try discriminate. reflexivity.
Qed.

(** C8.  When every subject's block of [bias_toi] has the shape
    2 x 2 x 4, the contrast block returns the three printed numbers for
    the vector [diff] whose entry for a subject is the value at the last
    toi of the probe estimator minus that of the target estimator (both
    with the error taken to the probe): the mean of the entries that are
    not NaN, their standard deviation divided by the square root of their
    number, and the p-value of [wilcoxon(diff)]. *)
Theorem contrast_probe_minus_target (wilcoxon : Np.vec -> float * float)
    (r : Report.loaded) :
  (forall subj, In subj (Report.bias_toi r) ->
     length subj = 2 /\
     forall x, In x subj -> length x = 2 /\ forall y, In y x -> length y = 4) ->
  let diff :=
    map (fun subj =>
           PrimFloat.sub (List.last (nth 1 (nth 1 subj []) []) nan)
                         (List.last (nth 1 (nth 0 subj []) []) nan))
        (Report.bias_toi r) in
  let kept := List.filter Np.notnan diff in
  Report.contrast wilcoxon r =
    Ok (Np.mean kept,
        PrimFloat.div (Np.std kept) (PrimFloat.sqrt (Np.of_nat (length kept))),
        snd (wilcoxon diff)).
Proof.
  intros Hshape diff kept.
  assert (S4 : forall subj, In subj (Report.bias_toi r) ->
            forall i, i < 2 ->
              length (nth 1 (nth i subj []) []) = 4).
  { intros subj Hs i Hi. destruct (Hshape subj Hs) as [L2 Hx].
    destruct (Hx (nth i subj [])) as [L2' Hy]; [apply nth_In; lia|].
    destruct (Hy (nth 1 (nth i subj []) [])) as []; [apply nth_In; lia|].
    reflexivity. }
  assert (B : forall subj, In subj (Report.bias_toi r) ->
            forall i, i < 2 ->
              i < length subj /\ 1 < length (nth i subj []) /\
              3 < length (nth 1 (nth i subj []) [])).
  { intros subj Hs i Hi. rewrite (S4 subj Hs i Hi).
    destruct (Hshape subj Hs) as [L2 Hx].
    destruct (Hx (nth i subj [])) as [L2' _]; [apply nth_In; lia|]. lia. }
  unfold Report.contrast.
  rewrite (slice3_ok _ 1 1 3) by (intros subj Hs; apply (B subj Hs 1); lia).
  simpl bind.
  rewrite (slice3_ok _ 0 1 3) by (intros subj Hs; apply (B subj Hs 0); lia).
  simpl bind.
  rewrite ReportFacts.sub_map. simpl bind.
  assert (D : map (fun subj =>
                PrimFloat.sub (nth 3 (nth 1 (nth 1 subj []) []) nan)
                              (nth 3 (nth 1 (nth 0 subj []) []) nan))
              (Report.bias_toi r) = diff).
  { subst diff. apply map_ext_in. intros subj Hs.
    pose proof (S4 subj Hs 1 ltac:(lia)) as L1.
    pose proof (S4 subj Hs 0 ltac:(lia)) as L0.
    cbv beta. unfold Np.vec in *.
    rewrite (nth_3_last _ L1), (nth_3_last _ L0). reflexivity. }
  rewrite D. reflexivity.
Qed.

Lemma contrast_probe_minus_target_witness :
  let diff :=
    map (fun subj =>
           PrimFloat.sub (List.last (nth 1 (nth 1 subj []) []) nan)
                         (List.last (nth 1 (nth 0 subj []) []) nan))
        (Report.bias_toi Toy.loaded0) in
  let kept := List.filter Np.notnan diff in
  Report.contrast Toy.toy_wilcoxon Toy.loaded0 =
    Ok (Np.mean kept,
        PrimFloat.div (Np.std kept) (PrimFloat.sqrt (Np.of_nat (length kept))),
        snd (Toy.toy_wilcoxon diff)).
Proof.
  apply (contrast_probe_minus_target Toy.toy_wilcoxon Toy.loaded0).
  intros subj Hs. simpl in Hs.
  destruct Hs as [<-|[<-|[<-|[]]]];
    (split; [reflexivity|]);
    intros x Hx; simpl in Hx; destruct Hx as [<-|[<-|[]]];
    (split; [reflexivity|]);
    intros y Hy; simpl in Hy; destruct Hy as [<-|[<-|[]]]; reflexivity.
Defined.

(** The vectors the bars of one panel are made of have one entry per
    subject. *)
Lemma score_lengths (r : Report.loaded) (TP t : nat) (score : list Np.vec) :
  map_r (fun vis =>
           let* v := Report.slice4 (Report.bias_vis_toi r) TP 1 vis t in
           Ok (Np.neg v))
        (seq 0 4) = Ok score ->
  List.Forall (fun s => length s = length (Report.bias_vis_toi r)) score.
Proof.
  apply map_r_forall. intros vis y H.
  apply bind_ok in H as [v [Hv H]]. injection H as <-.
  unfold Np.neg. rewrite length_map.
  exact (map_r_length _ _ _ Hv).
Qed.

Module OverlayFacts.

Import Np NpFacts Report.

Lemma nth_map_seq {A : Type} (f : nat -> A) (n i : nat) (d : A) :
  i < n -> nth i (map f (seq 0 n)) d = f i.
Proof.
  intros H. rewrite (nth_indep _ d (f 0)) by (rewrite length_map, length_seq; exact H).
  rewrite (map_nth f (seq 0 n) 0 i). rewrite seq_nth by exact H. reflexivity.
Qed.

(** [np.diag(a)], entry by entry. *)
Lemma diag_nth (a : ndarray2) (i : nat) :
  i < Nat.min (nrow a) (ncol a) ->
  nth i (diag a) nan = nth i (nth i (rows a) []) nan.
Proof.
  intros H. unfold diag.
  exact (nth_map_seq (fun k => nth k (nth k (rows a) []) nan) _ i nan H).
Qed.

Lemma diag_length (a : ndarray2) : length (diag a) = Nat.min (nrow a) (ncol a).
Proof. unfold diag. rewrite length_map, length_seq. reflexivity. Qed.

(** A cell of the modelled table. *)
Lemma pval_table_cell (wilcoxon : vec -> float * float)
    (bias : list (list (list ndarray2))) (ii jj n a b : nat) :
  a < n -> b < n ->
  nth b (nth a (rows (Upstream.pval_table wilcoxon bias ii jj n)) []) nan
  = snd (wilcoxon (Upstream.bias_cell bias ii jj a b)).
Proof.
  intros Ha Hb. unfold Upstream.pval_table. cbn [rows]. unfold vec.
  rewrite (nth_map_seq
             (fun a0 => map (fun b0 => snd (wilcoxon (Upstream.bias_cell bias ii jj a0 b0)))
                            (seq 0 n)) n a [] Ha).
  exact (nth_map_seq
           (fun b0 => snd (wilcoxon (Upstream.bias_cell bias ii jj a b0))) n b nan Hb).
Qed.

End OverlayFacts.

(** C5.  In a panel of the visibility figure that is computed without an
    error, the p-value of each of the four bars, and of each of the five
    cells of the table, is the second component of [wilcoxon] applied to
    that bar's or cell's vector alone, a vector with one entry per
    subject; the marker of a bar is ['*'] exactly when its own p-value is
    below 0.05, and the p-value enters the comparison as it is.  In the
    overlays of the generalization matrices and of the diagonal, a cell
    is set exactly when the stored p-value of that cell is below 0.05.
    When the stored table is the one the specification describes, the
    p-value of [wilcoxon] on the cell's values across the subjects, a
    cell of an overlay is set exactly when that p-value is below 0.05. *)
Theorem significance_is_wilcoxon_below_05 (wilcoxon : Np.vec -> float * float)
    (r : Report.loaded) (TP t : nat) (q : Report.quick)
    (cells : list (float * float * float)) (n : nat) :
  Report.visibility_column wilcoxon r TP t = Ok (q, cells) ->
  (exists score diff,
     map_r (fun vis =>
              let* v := Report.slice4 (Report.bias_vis_toi r) TP 1 vis t in
              Ok (Np.neg v))
           (seq 0 4) = Ok score /\
     List.Forall (fun s => length s = length (Report.bias_vis_toi r)) score /\
     Report.q_pvals q = map (fun s => snd (wilcoxon s)) score /\
     Report.q_sig q =
       map (fun s => if PrimFloat.ltb (snd (wilcoxon s)) 0.05%float
                     then "*" else "") score /\
     map snd cells = map (fun s => snd (wilcoxon s)) (score ++ [diff])) /\
  (forall p, Report.star p = "*" <-> PrimFloat.ltb p 0.05%float = true) /\
  (forall ii jj mask,
     Report.gat_overlay r ii jj = Ok mask ->
     exists row p_val,
       nth_error (Report.bias_pval r) ii = Some row /\
       nth_error row jj = Some p_val /\
       length mask = length (Np.rows p_val) /\
       forall a b,
         nth b (nth a mask []) false =
         PrimFloat.ltb (nth b (nth a (Np.rows p_val) []) nan) 0.05%float) /\
  (forall line,
     Report.diagonal_overlay r = Ok line ->
     exists row p_val,
       nth_error (Report.bias_pval r) 0 = Some row /\
       nth_error row 1 = Some p_val /\
       length line = Nat.min (Np.nrow p_val) (Np.ncol p_val) /\
       forall i, i < length line ->
         nth i line false =
         PrimFloat.ltb (nth i (nth i (Np.rows p_val) []) nan) 0.05%float) /\
  (Upstream.stored_as_modelled wilcoxon r n ->
   (forall ii jj, ii < 2 -> jj < 2 ->
      exists mask,
        Report.gat_overlay r ii jj = Ok mask /\
        length mask = n /\
        forall a b, a < n -> b < n ->
          nth b (nth a mask []) false =
          PrimFloat.ltb
            (snd (wilcoxon (Upstream.bias_cell (Report.bias r) ii jj a b)))
            0.05%float) /\
   (exists line,
      Report.diagonal_overlay r = Ok line /\
      length line = n /\
      forall i, i < n ->
        nth i line false =
        PrimFloat.ltb
          (snd (wilcoxon (Upstream.bias_cell (Report.bias r) 0 1 i i)))
          0.05%float)).
Proof.
  intros H. split; [|split; [|split; [|split]]].
  - unfold Report.visibility_column in H.
    apply bind_ok in H as [score [Hs H]].
    apply bind_ok in H as [hi [_ H]].
    apply bind_ok in H as [lo [_ H]].
    apply bind_ok in H as [diff [_ H]].
    injection H as <- <-.
    exists score, diff. split; [exact Hs|].
    pose proof (score_lengths r TP t score Hs) as L.
    split; [exact L|].
    assert (P : Report.q_pvals
                  (Report.quick_stats wilcoxon
                     (Report.transpose
                        (Report.vstack (length (Report.bias_vis_toi r)) score)))
                = map (fun s => snd (wilcoxon s)) score).
    { unfold Report.quick_stats. cbn [Report.q_pvals].
      rewrite ReportFacts.transpose_involutive; [reflexivity|].
      split; [reflexivity | exact L]. }
    split; [exact P|]. split.
    + change (Report.q_sig (Report.quick_stats wilcoxon
                (Report.transpose
                   (Report.vstack (length (Report.bias_vis_toi r)) score))))
        with (map Report.star
                (Report.q_pvals (Report.quick_stats wilcoxon
                   (Report.transpose
                      (Report.vstack (length (Report.bias_vis_toi r)) score))))).
      rewrite P, map_map. reflexivity.
    + rewrite map_map. reflexivity.
  - apply ReportFacts.star_iff.
  - intros ii jj mask Hm. unfold Report.gat_overlay, Report.get in Hm.
    destruct (nth_error (Report.bias_pval r) ii) as [row|] eqn:Er; [|discriminate].
    simpl in Hm.
    destruct (nth_error row jj) as [p_val|] eqn:Ep; [|discriminate].
    simpl in Hm. injection Hm as <-.
    exists row, p_val. split; [reflexivity|]. split; [exact Ep|].
    split; [apply length_map|].
    intros a b. apply ReportFacts.sig_mask_cell.
  - intros line Hl. unfold Report.diagonal_overlay, Report.get in Hl.
    destruct (nth_error (Report.bias_pval r) 0) as [row|] eqn:Er; [|discriminate].
    cbn [bind] in Hl.
    destruct (nth_error row 1) as [p_val|] eqn:Ep; [|discriminate].
    cbn [bind] in Hl. injection Hl as <-.
    exists row, p_val. split; [reflexivity|]. split; [exact Ep|].
    rewrite length_map, OverlayFacts.diag_length. split; [reflexivity|].
    intros i Hi.
    change false with (Report.below_05 nan).
    rewrite (map_nth Report.below_05 (Report.diag p_val) nan i).
    rewrite (OverlayFacts.diag_nth p_val i Hi). reflexivity.
  - intros M. split.
    + intros ii jj Hii Hjj. destruct (M ii jj Hii Hjj) as [row [Er Ep]].
      unfold Report.gat_overlay, Report.get. rewrite Er. cbn [bind].
      rewrite Ep. cbn [bind]. eexists. split; [reflexivity|].
      split.
      * unfold Report.sig_mask, Upstream.pval_table. cbn [Np.rows].
        rewrite !length_map, length_seq. reflexivity.
      * intros a b Ha Hb. rewrite ReportFacts.sig_mask_cell.
        rewrite (OverlayFacts.pval_table_cell wilcoxon _ ii jj n a b Ha Hb).
        reflexivity.
    + destruct (M 0 1 ltac:(lia) ltac:(lia)) as [row [Er Ep]].
      unfold Report.diagonal_overlay, Report.get. rewrite Er. cbn [bind].
      rewrite Ep. cbn [bind]. eexists. split; [reflexivity|].
      assert (L : length (Report.diag (Upstream.pval_table wilcoxon (Report.bias r) 0 1 n)) = n).
      { rewrite OverlayFacts.diag_length. cbn [Upstream.pval_table Np.nrow Np.ncol].
        apply Nat.min_id. }
      split; [rewrite length_map; exact L|].
      intros i Hi.
      change false with (Report.below_05 nan).
      rewrite (map_nth Report.below_05 _ nan i).
      rewrite OverlayFacts.diag_nth
        by (cbn [Upstream.pval_table Np.nrow Np.ncol]; rewrite Nat.min_id; exact Hi).
      rewrite (OverlayFacts.pval_table_cell wilcoxon _ 0 1 n i i Hi Hi).
      reflexivity.
Qed.

Lemma significance_is_wilcoxon_below_05_witness :
  exists q cells,
    Report.visibility_column Toy.toy_wilcoxon Toy4.loaded1 0 0 = Ok (q, cells) /\
    Report.q_sig q = ["*"; ""; "*"; ""] /\
    Report.gat_overlay Toy4.loaded1 0 0 = Ok [ [true; false]; [true; false] ] /\
    Report.diagonal_overlay Toy4.loaded1 = Ok [true; false] /\
    (exists score diff,
       map_r (fun vis =>
                let* v := Report.slice4 (Report.bias_vis_toi Toy4.loaded1) 0 1 vis 0 in
                Ok (Np.neg v))
             (seq 0 4) = Ok score /\
       List.Forall (fun s => length s = length (Report.bias_vis_toi Toy4.loaded1)) score /\
       Report.q_pvals q = map (fun s => snd (Toy.toy_wilcoxon s)) score /\
       Report.q_sig q =
         map (fun s => if PrimFloat.ltb (snd (Toy.toy_wilcoxon s)) 0.05%float
                       then "*" else "") score /\
       map snd cells = map (fun s => snd (Toy.toy_wilcoxon s)) (score ++ [diff])) /\
    (forall p, Report.star p = "*" <-> PrimFloat.ltb p 0.05%float = true) /\
    (forall ii jj mask,
       Report.gat_overlay Toy4.loaded1 ii jj = Ok mask ->
       exists row p_val,
         nth_error (Report.bias_pval Toy4.loaded1) ii = Some row /\
         nth_error row jj = Some p_val /\
         length mask = length (Np.rows p_val) /\
         forall a b,
           nth b (nth a mask []) false =
           PrimFloat.ltb (nth b (nth a (Np.rows p_val) []) nan) 0.05%float) /\
    (forall line,
       Report.diagonal_overlay Toy4.loaded1 = Ok line ->
       exists row p_val,
         nth_error (Report.bias_pval Toy4.loaded1) 0 = Some row /\
         nth_error row 1 = Some p_val /\
         length line = Nat.min (Np.nrow p_val) (Np.ncol p_val) /\
         forall i, i < length line ->
           nth i line false =
           PrimFloat.ltb (nth i (nth i (Np.rows p_val) []) nan) 0.05%float) /\
    (forall ii jj, ii < 2 -> jj < 2 ->
       exists mask,
         Report.gat_overlay Toy4.loaded1 ii jj = Ok mask /\
         length mask = 2 /\
         forall a b, a < 2 -> b < 2 ->
           nth b (nth a mask []) false =
           PrimFloat.ltb
             (snd (Toy.toy_wilcoxon
                     (Upstream.bias_cell (Report.bias Toy4.loaded1) ii jj a b)))
             0.05%float) /\
    (exists line,
       Report.diagonal_overlay Toy4.loaded1 = Ok line /\
       length line = 2 /\
       forall i, i < 2 ->
         nth i line false =
         PrimFloat.ltb
           (snd (Toy.toy_wilcoxon
                   (Upstream.bias_cell (Report.bias Toy4.loaded1) 0 1 i i)))
           0.05%float).
Proof.
  destruct (Report.visibility_column Toy.toy_wilcoxon Toy4.loaded1 0 0)
    as [[q cells]|e] eqn:H.
  - exists q, cells. split; [reflexivity|].
    split; [vm_compute in H; injection H as <- _; reflexivity|].
    split; [vm_compute; reflexivity|].
    split; [vm_compute; reflexivity|].
    destruct (significance_is_wilcoxon_below_05 Toy.toy_wilcoxon Toy4.loaded1 0 0
                q cells 2 H) as (B & S & G & D & M).
    split; [exact B|]. split; [exact S|]. split; [exact G|]. split; [exact D|].
    apply M.
    intros ii jj Hii Hjj.
    destruct ii as [|[|ii]]; [| |lia];
      (destruct jj as [|[|jj]]; [| |lia]);
      (eexists; split; reflexivity).
  - vm_compute in H. discriminate H.
Defined.

(** C2.  The summary of the regression analyses at the correlations
    [0.5, NaN, 0.25]: the mean leaves the NaN out (0.375), but the
    standard error is [np.std(all_R) / np.sqrt(20)], which is NaN, and
    [wilcoxon] is given the vector with its NaN.  On the same vector a
    cell of the table has the standard error of the two entries that are
    not NaN; there too [wilcoxon] is given the vector with its NaN. *)
Theorem regression_sem_keeps_nan :
  forall wilcoxon : Np.vec -> float * float,
    let all_R := [0.5%float; nan; 0.25%float] in
    Report.regression_summary wilcoxon all_R
      = (0.375%float, nan, snd (wilcoxon all_R)) /\
    Report.table_cell wilcoxon all_R
      = (0.375%float, 0.088388347648318433%float, snd (wilcoxon all_R)).
Proof.
  intros wilcoxon all_R. subst all_R.
  unfold Report.regression_summary, Report.table_cell.
  split; repeat f_equal; vm_compute; reflexivity.
Qed.

(** Whether a p-value leaves NaN entries out is up to the function that
    computes it: with the stand-in of the toy data the cell of the table
    differs between the vector and the vector without its NaN. *)
Example table_cell_p_value_sees_nan :
  snd (Report.table_cell Toy.toy_wilcoxon [0.5%float; nan; 0.25%float])
  <> snd (Report.table_cell Toy.toy_wilcoxon [0.5%float; 0.25%float]).
Proof. vm_compute. intros H. discriminate H. Qed.

(** The save step of the aggregator cannot be reached past [paths]: an
    iteration of the loop over the analyses never ends without an
    exception. *)
Lemma analysis_body_raises (E : Aggregator.env) (subjects : list string)
    (analysis : string) (st : Aggregator.script_state) :
  is_ok (Aggregator.analysis_body E subjects analysis st) = false.
Proof.
  unfold Aggregator.analysis_body.
  destruct (Aggregator.results_to_dump E subjects analysis _ _ _)
    as [[[r v] w]|e]; [|reflexivity].
  cbn [bind]. unfold Config.paths.
  rewrite ConfigFacts.lookup_template_outside; [reflexivity|].
  set_unfold. intuition discriminate.
Qed.

(** * More properties of the three files *)

(** ** More on the path resolver *)

Module FolderFacts.

Import Config Layout.

Lemma world_eq (w1 w2 : world) :
  present w1 = present w2 -> appended w1 = appended w2 -> w1 = w2.
Proof. destruct w1, w2; simpl; intros -> ->; reflexivity. Qed.

Lemma append_sep_nonempty (a b : string) :
  String.append a (String.append "/" b) <> "".
Proof. destruct a; discriminate. Qed.

Lemma make_folders_step (n : nat) (f0 : string) (rest : list string) (w : world) :
  make_folders (S n) (f0 :: rest) w =
  let* w' := (if exists_ f0 w then Ok w else mkdir f0 w) in
  make_folders n
    match rest with
    | f1 :: tl => String.append f0 (String.append "/" f1) :: tl
    | [] => f0 :: rest
    end w'.
Proof. reflexivity. Qed.

(** Testing and, if needed, creating one folder. *)
Lemma ensure_closed (f0 : string) (w : world) :
  (if exists_ f0 w then Ok w else mkdir f0 w) =
  if bool_decide (f0 = "" /\ "" ∉ present w)
  then Raise (OSError "")
  else Ok {| present := {[ f0 ]} ∪ present w; appended := appended w |}.
Proof.
  unfold exists_, mkdir.
  destruct (bool_decide (f0 ∈ present w)) eqn:Ex.
  - apply bool_decide_eq_true in Ex.
    rewrite bool_decide_eq_false_2.
    2:{ intros [-> Hn]. contradiction. }
    f_equal. apply world_eq; simpl; [|reflexivity].
    apply set_eq. intros x. rewrite elem_of_union, elem_of_singleton.
    split; [auto|]. intros [->|H]; assumption.
  - apply bool_decide_eq_false in Ex.
    destruct (String.eqb_spec f0 "") as [->|Hne].
    + rewrite bool_decide_eq_true_2 by auto. reflexivity.
    + rewrite bool_decide_eq_false_2 by (intros [? _]; contradiction).
      reflexivity.
Qed.

(** The loop over the components of the folder: it raises only on an
    empty first component that does not exist, and otherwise leaves
    exactly the prefixes of the folder added to what was present. *)
Lemma make_folders_closed (rest : list string) :
  forall (f0 : string) (w : world),
    make_folders (S (length rest)) (f0 :: rest) w =
    if bool_decide (f0 = "" /\ "" ∉ present w)
    then Raise (OSError "")
    else Ok {| present := list_to_set (prefixes_from f0 rest) ∪ present w;
               appended := appended w |}.
Proof.
  induction rest as [|f1 tl IH]; intros f0 w;
    rewrite make_folders_step, ensure_closed;
    destruct (bool_decide (f0 = "" /\ "" ∉ present w)); try reflexivity;
    cbn [bind].
  - simpl. f_equal. apply world_eq; simpl; [|reflexivity].
    apply set_eq. intros x.
    rewrite !elem_of_union, elem_of_singleton, elem_of_empty. tauto.
  - change (length (f1 :: tl)) with (S (length tl)). rewrite IH.
    rewrite bool_decide_eq_false_2.
    2:{ intros [H _]. exact (append_sep_nonempty _ _ H). }
    f_equal. apply world_eq; simpl; [|reflexivity].
    apply set_eq. intros x.
    rewrite !elem_of_union, elem_of_singleton. tauto.
Qed.

Lemma split_cons (sep : ascii) (s : string) :
  exists f0 rest, PyStr.split sep s = f0 :: rest.
Proof.
  destruct s as [|c r]; simpl; [eauto|].
  destruct (Ascii.eqb c sep); [eauto|].
  destruct (PyStr.split sep r); eauto.
Qed.

(** The first component of a split is empty exactly for the empty string
    and for a string that starts with the separator. *)
Lemma split_head_empty (s : string) (f0 : string) (rest : list string) :
  PyStr.split "/" s = f0 :: rest ->
  (f0 = "" <-> s = "" \/ PyStr.startswith "/" s = true).
Proof.
  destruct s as [|c r]; simpl.
  - intros [= <- <-]. tauto.
  - destruct (Ascii.eqb c "/") eqn:Ec.
    + intros [= <- <-]. tauto.
    + destruct (PyStr.split "/" r) as [|w ws]; intros [= <- <-];
        split; try discriminate; intros [H|H]; discriminate.
Qed.

Lemma append_assoc (a b c : string) :
  String.append (String.append a b) c = String.append a (String.append b c).
Proof.
  induction a as [|x a IH]; [reflexivity|].
  change (String x (String.append (String.append a b) c)
          = String x (String.append a (String.append b c))).
  f_equal. exact IH.
Qed.

(** "Create subfolder if necessary", in closed form. *)
Lemma create_subfolders_closed (file : string) (w : world) :
  create_subfolders file w =
  let folder := PyStr.dirname file in
  if String.eqb folder "" then Ok w
  else if bool_decide (PyStr.startswith "/" folder = true /\ "" ∉ present w)
       then Raise (OSError "")
       else Ok {| present :=
                    list_to_set (prefixes (PyStr.split "/" folder)) ∪ present w;
                  appended := appended w |}.
Proof.
  unfold create_subfolders. cbv zeta.
  destruct (String.eqb_spec (PyStr.dirname file) "") as [E|E]; [reflexivity|].
  destruct (split_cons "/" (PyStr.dirname file)) as [f0 [rest Es]].
  rewrite Es. change (length (f0 :: rest)) with (S (length rest)).
  rewrite make_folders_closed. cbn [prefixes].
  pose proof (split_head_empty _ _ _ Es) as Hh.
  destruct (bool_decide (f0 = "" /\ "" ∉ present w)) eqn:D1.
  - apply bool_decide_eq_true in D1 as [D1 D2].
    rewrite bool_decide_eq_true_2; [reflexivity|].
    split; [|exact D2]. apply Hh in D1 as [D1|D1]; [contradiction | exact D1].
  - apply bool_decide_eq_false in D1.
    rewrite bool_decide_eq_false_2; [reflexivity|].
    intros [H1 H2]. apply D1. split; [|exact H2]. apply Hh. right. exact H1.
Qed.

End FolderFacts.

(** ** Which paths are absolute *)

Module PathFacts.

Import PyStr.

Lemma startswith_append (c : ascii) (a b : string) :
  a <> "" -> startswith c (String.append a b) = startswith c a.
Proof. destruct a; [congruence | reflexivity]. Qed.

(** Joining a relative component keeps the first character. *)
Lemma startswith_join (c : ascii) (path b : string) :
  path <> "" -> startswith "/" b = false ->
  startswith c (join path b) = startswith c path /\ join path b <> "".
Proof.
  intros Hp Hb. unfold join. rewrite Hb.
  destruct (String.eqb path "" || endswith "/" path).
  - split; [apply startswith_append, Hp | destruct path; [congruence|discriminate]].
  - split; [apply startswith_append, Hp | destruct path; [congruence|discriminate]].
Qed.

Lemma rstrip_empty (s : string) :
  rstrip ["/"%char] s = "" -> all_are "/" s = true.
Proof.
  induction s as [|c r IH]; [reflexivity|].
  cbn [rstrip all_are].
  destruct (rstrip ["/"%char] r) as [|x r'] eqn:E; [|discriminate].
  unfold mem. cbn [existsb]. rewrite orb_false_r.
  destruct (Ascii.eqb c "/"); [|discriminate].
  intros _. rewrite (IH eq_refl). reflexivity.
Qed.

Lemma rstrip_startswith (c : ascii) (s : string) :
  all_are "/" s = false ->
  startswith c (rstrip ["/"%char] s) = startswith c s.
Proof.
  destruct s as [|x r]; [reflexivity|]. intros H.
  cbn [rstrip].
  destruct (rstrip ["/"%char] r) as [|y r'] eqn:E; [|reflexivity].
  apply rstrip_empty in E. cbn [all_are] in H. rewrite E, andb_true_r in H.
  unfold mem. cbn [existsb]. rewrite orb_false_r, H. reflexivity.
Qed.

Lemma upto_last_sep_startswith (c : ascii) (p : string) :
  upto_last_sep p <> "" -> startswith c (upto_last_sep p) = startswith c p.
Proof.
  destruct p as [|x r]; [reflexivity|]. cbn [upto_last_sep].
  destruct (contains "/" r); [reflexivity|].
  destruct (Ascii.eqb x "/"); [reflexivity | congruence].
Qed.

(** A folder that is not empty starts as the path does. *)
Lemma dirname_startswith (c : ascii) (p : string) :
  dirname p <> "" -> startswith c (dirname p) = startswith c p.
Proof.
  unfold dirname. cbv zeta.
  destruct (String.eqb_spec (upto_last_sep p) "") as [E|E]; cbn [negb andb].
  - congruence.
  - intros H. destruct (all_are "/" (upto_last_sep p)) eqn:A; cbn [negb].
    + apply upto_last_sep_startswith, E.
    + rewrite rstrip_startswith by exact A.
      apply upto_last_sep_startswith, E.
Qed.

(** The folder of an absolute path is not empty. *)
Lemma dirname_absolute (p : string) :
  startswith "/" p = true -> dirname p <> "".
Proof.
  destruct p as [|x r]; [discriminate|]. cbn [startswith]. intros Hx.
  unfold dirname. cbv zeta.
  assert (U : exists h, upto_last_sep (String x r) = String x h).
  { cbn [upto_last_sep]. destruct (contains "/" r); [eauto|].
    rewrite Hx. eauto. }
  destruct U as [h U]. rewrite U. cbn [String.eqb negb andb].
  change (String.eqb (String x h) "") with false. cbn [negb andb].
  destruct (all_are "/" (String x h)) eqn:A; cbn [negb]; [discriminate|].
  intros R. apply rstrip_empty in R. congruence.
Qed.

End PathFacts.

(** ** The artifacts of a subject *)

Module ArtifactFacts.

Import Config PyStr PathFacts Layout.

Lemma startswith_name (subject rest : string) :
  startswith "/" subject = false ->
  startswith "/" (String.append subject (String.append "_" rest)) = false.
Proof. destruct subject; [reflexivity | intros H; exact H]. Qed.

Lemma data_path_nonempty (base_path : string) : data_path base_path <> "".
Proof.
  unfold data_path, join. cbn [startswith Ascii.eqb].
  change (startswith "/" "data/") with false. cbv iota.
  destruct (String.eqb base_path "" || endswith "/" base_path);
    destruct base_path; discriminate.
Qed.

Lemma data_path_startswith (base_path : string) :
  startswith "/" (data_path base_path) = startswith "/" base_path.
Proof.
  unfold data_path, join. change (startswith "/" "data/") with false. cbv iota.
  destruct base_path as [|c r]; [reflexivity|].
  destruct (String.eqb (String c r) "" || endswith "/" (String c r)); reflexivity.
Qed.

(** The file of a subject-level type, as [paths] builds it. *)
Lemma lookup_subject_type (base_path typ : string) (k : kwargs) :
  In typ subject_types ->
  exists name,
    lookup_template base_path typ k =
      Ok (join (join3 (data_path base_path) (subject k) typ)
               (String.append (subject k) (String.append "_" name))) /\
    startswith "/" typ = false.
Proof.
  unfold subject_types, lookup_template, path_template. cbv zeta.
  intros [<-|[<-|[<-|[<-|[<-|[]]]]]];
    rewrite ?lookup_insert_ne by discriminate;
    rewrite lookup_insert_eq; unfold fmt4, fmt3, fmt2; eauto.
Qed.

(** With a subject that does not start with ['/'], the file starts with
    ['/'] exactly when the base path does. *)
Lemma subject_file_startswith (base_path typ : string) (k : kwargs) :
  In typ subject_types ->
  startswith "/" (subject k) = false ->
  exists file,
    lookup_template base_path typ k = Ok file /\
    startswith "/" file = startswith "/" base_path /\
    (startswith "/" base_path = false -> dirname file <> "").
Proof.
  intros Ht Hs.
  destruct (lookup_subject_type base_path typ k Ht) as [name [L Htyp]].
  eexists. split; [exact L|].
  pose proof (data_path_nonempty base_path) as D0.
  destruct (startswith_join "/" (data_path base_path) (subject k) D0 Hs) as [J1 N1].
  destruct (startswith_join "/" _ typ N1 Htyp) as [J2 N2].
  destruct (startswith_join "/" _ _ N2 (startswith_name (subject k) name Hs)) as [J3 N3].
  split.
  - unfold join3. rewrite J3, J2, J1. apply data_path_startswith.
  - intros _. unfold join3 in *.
    set (this_path := join (join (data_path base_path) (subject k)) typ) in *.
    unfold dirname. cbv zeta.
    assert (C : contains "/" (join this_path
                  (String.append (subject k) (String.append "_" name))) = true).
    { unfold join. rewrite (startswith_name _ _ Hs).
      assert (G : forall a b, contains "/" (String.append a (String.append "/" b)) = true).
      { induction a as [|x a IH]; intros b; [reflexivity|].
        change (contains "/" (String x (String.append a (String.append "/" b))) = true).
        cbn [contains]. rewrite IH. apply orb_true_r. }
      assert (G' : forall a b, contains "/" a = true ->
                     contains "/" (String.append a b) = true).
      { induction a as [|x a IH]; intros b; [discriminate|].
        change (contains "/" (String x a) = true ->
                contains "/" (String x (String.append a b)) = true).
        cbn [contains]. destruct (Ascii.eqb x "/"); [reflexivity|].
        cbn [orb]. apply IH. }
      destruct (String.eqb this_path "" || endswith "/" this_path) eqn:Ee.
      - apply G'. apply orb_true_iff in Ee as [Ee|Ee].
        + apply String.eqb_eq in Ee. congruence.
        + clear -Ee. induction this_path as [|x a IH]; [discriminate|].
          cbn [endswith] in Ee. cbn [contains].
          destruct a; [rewrite Ee; reflexivity|].
          rewrite (IH Ee). apply orb_true_r.
      - apply G. }
    set (file := join this_path _) in *.
    assert (U : upto_last_sep file <> "").
    { destruct file as [|x r]; [discriminate|]. cbn [upto_last_sep].
      cbn [contains] in C. destruct (contains "/" r); [discriminate|].
      rewrite orb_false_r in C. rewrite C. discriminate. }
    destruct (String.eqb_spec (upto_last_sep file) "") as [E|E]; [contradiction|].
    cbn [negb andb].
    destruct (all_are "/" (upto_last_sep file)) eqn:A; cbn [negb]; [exact U|].
    intros R. apply rstrip_empty in R. congruence.
Qed.

End ArtifactFacts.

(** X1.  For a type that is none of the nine keys of the template, [paths]
    raises [KeyError] for that type, whatever the other arguments are and
    also when logging is asked for; nothing is created or written. *)
Theorem paths_unknown_type_raises (base_path typ : string) (k : Config.kwargs)
    (w : Config.world) :
  ~ In typ [ "base_path"; "data_path"; "report"; "log"; "behavior"; "epoch";
             "evoked"; "decod"; "generalize" ] ->
  Config.paths base_path typ k w = Raise (KeyError typ).
Proof.
  intros H. unfold Config.paths.
  rewrite ConfigFacts.lookup_template_outside; [reflexivity|].
  intros Hin. apply H. set_unfold in Hin. simpl.
  intuition (subst; auto 20).
Qed.

Lemma paths_unknown_type_raises_witness :
  Config.paths "." "scores" Config.defaults Toy.world0 = Raise (KeyError "scores").
Proof.
  apply (paths_unknown_type_raises "." "scores" Config.defaults Toy.world0).
  simpl. intuition discriminate.
Defined.

(** Creating the folders of a relative file does not raise; it adds the
    prefixes of the folder and leaves the log files alone. *)
Lemma create_subfolders_relative (file : string) (w : Config.world) :
  PyStr.startswith "/" file = false ->
  Config.create_subfolders file w =
  Ok (if String.eqb (PyStr.dirname file) "" then w
      else {| Config.present :=
                list_to_set (Layout.prefixes
                               (PyStr.split "/" (PyStr.dirname file)))
                ∪ Config.present w;
              Config.appended := Config.appended w |}).
Proof.
  intros H. rewrite FolderFacts.create_subfolders_closed. cbv zeta.
  destruct (String.eqb_spec (PyStr.dirname file) "") as [E|E]; [reflexivity|].
  rewrite bool_decide_eq_false_2; [reflexivity|].
  intros [A _]. rewrite (PathFacts.dirname_startswith "/" file E) in A. congruence.
Qed.

Lemma create_subfolders_absolute (file : string) (w : Config.world) :
  PyStr.startswith "/" file = true -> "" ∉ Config.present w ->
  Config.create_subfolders file w = Raise (OSError "").
Proof.
  intros H Hw. rewrite FolderFacts.create_subfolders_closed. cbv zeta.
  pose proof (PathFacts.dirname_absolute file H) as E.
  destruct (String.eqb_spec (PyStr.dirname file) "") as [E'|_]; [contradiction|].
  rewrite bool_decide_eq_true_2; [reflexivity|].
  split; [|exact Hw]. rewrite (PathFacts.dirname_startswith "/" file E). exact H.
Qed.

(** X3.  With a base path that starts with ['/'] and a subject that does
    not, [paths] raises [OSError] for each of the five subject-level types
    unless the empty path counts as existing: the first component of the
    split folder is the empty string, and [os.mkdir('')] fails. *)
Theorem paths_absolute_base_raises (base_path typ : string)
    (k : Config.kwargs) (w : Config.world) :
  In typ Layout.subject_types ->
  PyStr.startswith "/" base_path = true ->
  PyStr.startswith "/" (Config.subject k) = false ->
  Config.log k = false ->
  "" ∉ Config.present w ->
  Config.paths base_path typ k w = Raise (OSError "").
Proof.
  intros Ht Hb Hs Hl Hw.
  destruct (ArtifactFacts.subject_file_startswith base_path typ k Ht Hs)
    as [file [L [F _]]].
  rewrite Hb in F.
  unfold Config.paths. rewrite L, Hl. cbn [bind].
  rewrite (create_subfolders_absolute file w F Hw). reflexivity.
Qed.

Lemma paths_absolute_base_raises_witness :
  Config.paths "/home/user/project" "decod"
    (Aggregator.kw "ak130184" "target_circAngle") Toy.world0
  = Raise (OSError "").
Proof.
  apply (paths_absolute_base_raises "/home/user/project" "decod"
           (Aggregator.kw "ak130184" "target_circAngle") Toy.world0).
  - simpl. tauto.
  - reflexivity.
  - reflexivity.
  - reflexivity.
  - vm_compute. intros H. discriminate H.
Defined.

(** The inner call [paths('log')]: the file it names. *)
Lemma lookup_log_defaults (base_path : string) :
  Config.lookup_template base_path "log" Config.defaults
  = Ok (PyStr.join base_path "config.log").
Proof.
  unfold Config.lookup_template, Config.path_template. cbv zeta.
  rewrite !lookup_insert_ne by discriminate. rewrite lookup_insert_eq.
  reflexivity.
Qed.

Lemma join_relative (path b : string) :
  PyStr.startswith "/" path = false -> PyStr.startswith "/" b = false ->
  PyStr.startswith "/" (PyStr.join path b) = false.
Proof.
  intros Hp Hb. destruct path as [|c r].
  - unfold PyStr.join. rewrite Hb. exact Hb.
  - destruct (PathFacts.startswith_join "/" (String c r) b) as [J _];
      [discriminate | exact Hb |]. rewrite J. exact Hp.
Qed.

(** X4.  With logging, a relative base path and a subject that does not
    start with ['/'], [paths] for a subject-level type appends exactly one
    line, the returned file followed by a blank and a newline, to
    [config.log] under the base path, whatever [pyscript] was passed; the
    lines of every other file are left as they were, and the log file
    exists afterwards. *)
Theorem paths_log_appends_line (base_path typ : string)
    (k : Config.kwargs) (w : Config.world) :
  In typ Layout.subject_types ->
  PyStr.startswith "/" base_path = false ->
  PyStr.startswith "/" (Config.subject k) = false ->
  Config.log k = true ->
  let logfile := PyStr.join base_path "config.log" in
  exists file w',
    Config.paths base_path typ k w = Ok (file, w') /\
    Config.appended w' !! logfile =
      Some (default [] (Config.appended w !! logfile)
            ++ [String.append file (String.append " " PyStr.nl)]) /\
    (forall f, f <> logfile ->
       Config.appended w' !! f = Config.appended w !! f) /\
    logfile ∈ Config.present w'.
Proof.
  intros Ht Hb Hs Hl logfile.
  destruct (ArtifactFacts.subject_file_startswith base_path typ k Ht Hs)
    as [file [L [F _]]].
  rewrite Hb in F.
  assert (LF : PyStr.startswith "/" logfile = false)
    by (apply join_relative; [exact Hb | reflexivity]).
  exists file. eexists.
  unfold Config.paths, Config.paths_quiet.
  rewrite L, Hl, lookup_log_defaults. cbn [bind].
  fold logfile.
  rewrite (create_subfolders_relative logfile w LF). cbn [bind].
  rewrite (create_subfolders_relative file _ F). cbn [bind].
  split; [reflexivity|].
  set (w0 := if String.eqb (PyStr.dirname logfile) "" then w else _).
  assert (A0 : Config.appended w0 = Config.appended w)
    by (subst w0; destruct (String.eqb (PyStr.dirname logfile) ""); reflexivity).
  set (w1 := Config.append_line logfile _ w0).
  split; [|split].
  - destruct (String.eqb (PyStr.dirname file) ""); cbn [Config.appended];
      subst w1; cbn [Config.append_line Config.appended];
      rewrite lookup_insert_eq, A0; reflexivity.
  - intros f Hf.
    destruct (String.eqb (PyStr.dirname file) ""); cbn [Config.appended];
      subst w1; cbn [Config.append_line Config.appended];
      rewrite lookup_insert_ne by congruence; rewrite A0; reflexivity.
  - destruct (String.eqb (PyStr.dirname file) ""); cbn [Config.present];
      subst w1; cbn [Config.append_line Config.present];
      rewrite ?elem_of_union, elem_of_singleton; auto.
Qed.

Lemma paths_log_appends_line_witness :
  exists file w',
    Config.paths "." "decod"
      {| Config.subject := "ak130184"; Config.data_type := "erf";
         Config.lock := "target"; Config.analysis := "target_circAngle";
         Config.pyscript := "run_decod_angles.py"; Config.log := true |}
      Toy.world0 = Ok (file, w') /\
    Config.appended w' !! PyStr.join "." "config.log" =
      Some (default [] (Config.appended Toy.world0 !! PyStr.join "." "config.log")
            ++ [String.append file (String.append " " PyStr.nl)]) /\
    (forall f, f <> PyStr.join "." "config.log" ->
       Config.appended w' !! f = Config.appended Toy.world0 !! f) /\
    PyStr.join "." "config.log" ∈ Config.present w'.
Proof.
  apply (paths_log_appends_line "." "decod"
           {| Config.subject := "ak130184"; Config.data_type := "erf";
              Config.lock := "target"; Config.analysis := "target_circAngle";
              Config.pyscript := "run_decod_angles.py"; Config.log := true |}
           Toy.world0).
  - simpl. tauto.
  - reflexivity.
  - reflexivity.
  - reflexivity.
Defined.

(** ** More on the loop over the subselections *)

Module SubscoreMore.

Import Np NpFacts Aggregator ClosedForms SubscoreFacts.

(** Indexing raises nothing but [IndexError]. *)
Lemma take_result {A : Type} (v : list A) (idx : list nat) :
  (exists l, take v idx = Ok l) \/ take v idx = Raise IndexError.
Proof.
  unfold take. induction idx as [|i idx IH]; simpl; [eauto|].
  destruct (nth_error v i); simpl; [|auto].
  destruct IH as [[l ->]| ->]; simpl; eauto.
Qed.

Lemma take_cols_result (a : ndarray2) (idx : list nat) :
  (exists c, take_cols a idx = Ok c) \/ take_cols a idx = Raise IndexError.
Proof.
  unfold take_cols. induction (rows a) as [|r rs IH]; simpl; [eauto|].
  destruct (take_result r idx) as [[l ->]| ->]; simpl; [|auto].
  destruct (map_r (fun row => take row idx) rs); simpl in *.
  - eauto.
  - destruct IH as [[c H]|H]; [discriminate|]. injection H as ->. auto.
Qed.

(** A loop whose body either appends one value to the list under [key]
    or fails with [IndexError]. *)
Lemma for_each_append_or_index {T : Type} (key : string)
    (body : T -> gmap string subvalue -> result (gmap string subvalue))
    (ts : list T) :
  (forall t d, (exists x, body t d = append_to key x d)
               \/ body t d = Raise IndexError) ->
  forall (d : gmap string subvalue) (l0 : list float),
    d !! key = Some (PerToi l0) ->
    (exists d', for_each ts body d = Ok d')
    \/ for_each ts body d = Raise IndexError.
Proof.
  intros Hb. induction ts as [|t ts IH]; intros d l0 Hd; simpl; [eauto|].
  destruct (Hb t d) as [[x ->]| ->]; simpl; [|auto].
  rewrite (append_to_list _ _ _ _ Hd). simpl.
  apply (IH _ (l0 ++ [x])). apply lookup_insert_eq.
Qed.

Section Any.

Variable E : env.

(** One iteration of the loop over [subscores] on any data. *)
Lemma subscore_body_result (ts : vec) (y_error : ndarray2)
    (subevents : list event) (s : string * (event -> bool))
    (d : gmap string subvalue) :
  (exists d', subscore_body E ts y_error subevents s d = Ok d')
  \/ subscore_body E ts y_error subevents s d = Raise IndexError.
Proof.
  unfold subscore_body. cbv zeta.
  pose proof (key_toi_fresh (fst s)) as Hfresh.
  destruct (length (query_index (snd s) subevents) =? 0)%nat.
  - apply (for_each_append_or_index (String.append (fst s) "_toi")) with (l0 := []).
    + intros t d0. left. exists nan. reflexivity.
    + rewrite lookup_insert_ne by congruence. apply lookup_insert_eq.
  - destruct (take_result (rows y_error) (query_index (snd s) subevents))
      as [[l Hl]|Hl]; unfold take_rows; rewrite Hl; cbn [bind]; [|auto].
    apply (for_each_append_or_index (String.append (fst s) "_toi")) with (l0 := []).
    + intros t d0.
      destruct (take_cols_result y_error (toi_window ts t)) as [[c ->]| ->];
        cbn [bind]; [|auto].
      destruct (take_result (along_axis1 (e_circ_mean E) c)
                  (query_index (snd s) subevents)) as [[p ->]| ->];
        cbn [bind]; eauto.
    + rewrite lookup_insert_ne by congruence. apply lookup_insert_eq.
Qed.

(** The loop over [subscores] on any data, from any dictionary. *)
Lemma subscore_loop_result (ts : vec) (y_error : ndarray2)
    (subevents : list event) (subs : list (string * (event -> bool))) :
  forall d : gmap string subvalue,
    (exists d', for_each subs (subscore_body E ts y_error subevents) d = Ok d')
    \/ for_each subs (subscore_body E ts y_error subevents) d = Raise IndexError.
Proof.
  induction subs as [|s subs IH]; intros d; simpl; [eauto|].
  destruct (subscore_body_result ts y_error subevents s d) as [[d' ->]| ->];
    cbn [bind]; [apply IH | auto].
Qed.

(** The loop over [subscores] when the data fit, with names that may
    repeat: it does not raise, and the keys it does not write keep their
    values. *)
Lemma subscore_loop_frame (ts : vec) (y_error : ndarray2)
    (subevents : list event) (subs : list (string * (event -> bool))) :
  fits ts y_error subevents ->
  forall d0 : gmap string subvalue,
  exists d,
    for_each subs (subscore_body E ts y_error subevents) d0 = Ok d /\
    forall k, ~ In k (keys_of subs) -> d !! k = d0 !! k.
Proof.
  intros F. induction subs as [|[name q] subs IH]; intros d0; simpl.
  - exists d0. auto.
  - destruct (subscore_body_spec E ts y_error subevents name q d0 F)
      as [d1 [B1 [_ [_ B4]]]].
    destruct (IH d1) as [d [L1 L2]].
    exists d. rewrite B1. cbn [bind]. split; [exact L1|].
    intros k Hk. rewrite L2 by tauto. apply B4; intros ->; tauto.
Qed.

End Any.

End SubscoreMore.

(** X5.  On any data the loop over [subscores] either returns its
    dictionary or raises [IndexError]: it never raises [KeyError] or
    [AttributeError] from [results_[name + '_toi'].append], whatever the
    names are, because each iteration first binds that key to a fresh
    list and the key differs from the name. *)
Theorem subscore_section_only_index_error (E : Aggregator.env)
    (gat : Aggregator.GAT E) (subevents : list Aggregator.event) :
  (exists d, Aggregator.subscore_section E gat subevents = Ok d)
  \/ Aggregator.subscore_section E gat subevents = Raise IndexError.
Proof. apply SubscoreMore.subscore_loop_result. Qed.

(** X6.  Names may repeat in [subscores]: when the data fit, the two
    entries of a name are those of its last subselection, that is of one
    after which neither the name nor the name followed by ['_toi'] is
    written again. *)
Theorem subscore_last_name_wins (E : Aggregator.env) (gat : Aggregator.GAT E)
    (subevents : list Aggregator.event)
    (earlier later : list (string * (Aggregator.event -> bool)))
    (name : string) (q : Aggregator.event -> bool) :
  let ts := Aggregator.e_train_times E gat in
  let y_error := Aggregator.e_get_predict_error_diag E gat in
  Aggregator.e_subscores E = earlier ++ (name, q) :: later ->
  ClosedForms.fits ts y_error subevents ->
  ~ In name (ClosedForms.keys_of later) ->
  ~ In (String.append name "_toi") (ClosedForms.keys_of later) ->
  exists d,
    Aggregator.subscore_section E gat subevents = Ok d /\
    d !! name = Some (Aggregator.Dynamics
                        (ClosedForms.dynamics_of E y_error subevents q)) /\
    d !! String.append name "_toi" =
      Some (Aggregator.PerToi (ClosedForms.per_toi_of E ts y_error subevents q)).
Proof.
  intros ts y_error Hs F N1 N2. subst ts y_error.
  unfold Aggregator.subscore_section. rewrite Hs, for_each_app.
  destruct (SubscoreMore.subscore_loop_frame E _ _ _ earlier F ∅) as [d1 [L1 _]].
  rewrite L1. cbn [bind for_each].
  destruct (SubscoreFacts.subscore_body_spec E _ _ _ name q d1 F)
    as [d2 [B1 [B2 [B3 _]]]].
  rewrite B1. cbn [bind].
  destruct (SubscoreMore.subscore_loop_frame E _ _ _ later F d2) as [d [L2 L3]].
  exists d. split; [exact L2|].
  rewrite (L3 _ N1), (L3 _ N2). auto.
Qed.

Lemma subscore_last_name_wins_witness :
  exists d,
    Aggregator.subscore_section Toy2.E_repeat Toy.gat_a Toy.events = Ok d /\
    d !! "seen" =
      Some (Aggregator.Dynamics
              (ClosedForms.dynamics_of Toy2.E_repeat
                 (Aggregator.e_get_predict_error_diag Toy2.E_repeat Toy.gat_a)
                 Toy.events Toy2.seen_query)) /\
    d !! String.append "seen" "_toi" =
      Some (Aggregator.PerToi
              (ClosedForms.per_toi_of Toy2.E_repeat
                 (Aggregator.e_train_times Toy2.E_repeat Toy.gat_a)
                 (Aggregator.e_get_predict_error_diag Toy2.E_repeat Toy.gat_a)
                 Toy.events Toy2.seen_query)).
Proof.
  apply (subscore_last_name_wins Toy2.E_repeat Toy.gat_a Toy.events
           [("seen", Toy2.unseen_query)] [] "seen" Toy2.seen_query).
  - reflexivity.
  - unfold ClosedForms.fits, Np.wf2. simpl.
    repeat split; repeat constructor.
  - simpl. tauto.
  - simpl. tauto.
Defined.

(** ** The rank correlation on a subset that is not empty *)

Module RankFacts.

Import Np NpFacts Aggregator ClosedForms.

Lemma firstn_skipn_app {A : Type} (l1 l2 : list A) :
  firstn (length l1) (l1 ++ l2) = l1 /\ skipn (length l1) (l1 ++ l2) = l2.
Proof.
  induction l1 as [|x l1 [IH1 IH2]]; simpl; [auto|].
  rewrite IH1, IH2. auto.
Qed.

(** Cutting the concatenation of rows of one length gives the rows back. *)
Lemma chunks_concat (k : nat) (rs : list vec) :
  List.Forall (fun r => length r = k) rs ->
  chunks (length rs) k (concat rs) = rs.
Proof.
  induction 1 as [|r rs Hr _ IH]; simpl; [reflexivity|].
  subst k. destruct (firstn_skipn_app r (concat rs)) as [-> ->].
  rewrite IH. reflexivity.
Qed.

(** [a.reshape([n, -1])] of an array that has [n] rows, [n] not zero, is
    the array. *)
Lemma reshape_rows_same (a : ndarray2) :
  wf2 a -> nrow a <> 0 -> reshape_rows a (nrow a) = Ok a.
Proof.
  intros [Hn Hr] Hz. unfold reshape_rows. cbv zeta.
  destruct (nrow a =? 0)%nat eqn:E0; [apply Nat.eqb_eq in E0; contradiction|].
  rewrite (Nat.mul_comm (nrow a) (ncol a)), Nat.Div0.mod_mul.
  cbn [Nat.eqb negb]. rewrite Nat.div_mul by exact Hz.
  rewrite <- Hn at 2. rewrite chunks_concat by exact Hr.
  destruct a; reflexivity.
Qed.

End RankFacts.

(** The rank correlation of a window on a subset that is not empty. *)
Lemma rank_correlation_ok (E : Aggregator.env)
    (y_error : Np.ndarray3) (subevents : list Aggregator.event) :
  let sel := Aggregator.query_index Aggregator.present_query subevents in
  let X :=
    Np.along3_axis1 (Aggregator.e_angle_acc E)
      {| Np.dim0 := length sel; Np.dim1 := Np.dim1 y_error;
         Np.dim2 := Np.dim2 y_error;
         Np.planes := map (fun i => nth i (Np.planes y_error) []) sel |} in
  let y := ClosedForms.pick (map Aggregator.detect_button subevents) sel in
  length (Np.planes y_error) = length subevents ->
  (exists e, In e subevents /\ Aggregator.target_present e = true) ->
  length (Aggregator.e_repeated_spearman E X y) = Np.dim2 y_error ->
  Aggregator.rank_correlation E y_error subevents
  = Ok (Aggregator.e_repeated_spearman E X y).
Proof.
  intros sel X y F [e [He Hp]] HR.
  rewrite (DurationFacts.rank_correlation_closed E y_error subevents F).
  cbv zeta. fold sel. fold X. fold y.
  assert (Hsel : length sel <> 0).
  { intros Hz. apply length_zero_iff_nil in Hz.
    unfold sel, Aggregator.query_index in Hz.
    pose proof (proj1 (NpFacts.where_nil_iff _ _) Hz e He) as Hq.
    unfold Aggregator.present_query in Hq. rewrite Hp in Hq. discriminate. }
  assert (W : Np.wf2 X).
  { unfold X, Np.along3_axis1, Np.wf2. simpl. split.
    - rewrite !length_map. reflexivity.
    - apply List.Forall_forall. intros r Hr.
      apply in_map_iff in Hr as [p [<- _]].
      rewrite length_map, length_seq. reflexivity. }
  pose proof (RankFacts.reshape_rows_same X W) as RS.
  change (Np.nrow X) with (length sel) in RS. rewrite (RS Hsel). cbn [bind].
  unfold Np.reshape_len. rewrite HR, Nat.eqb_refl. reflexivity.
Qed.


(** X7.  When the error array has one plane per selected trial, at least
    one selected trial has the target present, and [repeated_spearman]
    gives one value per test time, the rank correlation of a window does
    not raise: it is [repeated_spearman(X, y)], where row [i] of [X] holds
    the angle accuracies over the classifiers of the window of the [i]-th
    trial with the target present, and [y] the ratings of these trials. *)
Theorem rank_correlation_on_present_trials (E : Aggregator.env)
    (y_error : Np.ndarray3) (subevents : list Aggregator.event) :
  let sel := Aggregator.query_index Aggregator.present_query subevents in
  let X :=
    Np.along3_axis1 (Aggregator.e_angle_acc E)
      {| Np.dim0 := length sel; Np.dim1 := Np.dim1 y_error;
         Np.dim2 := Np.dim2 y_error;
         Np.planes := map (fun i => nth i (Np.planes y_error) []) sel |} in
  let y := ClosedForms.pick (map Aggregator.detect_button subevents) sel in
  length (Np.planes y_error) = length subevents ->
  (exists e, In e subevents /\ Aggregator.target_present e = true) ->
  length (Aggregator.e_repeated_spearman E X y) = Np.dim2 y_error ->
  Aggregator.rank_correlation E y_error subevents
  = Ok (Aggregator.e_repeated_spearman E X y).
Proof. exact (rank_correlation_ok E y_error subevents). Qed.

Lemma rank_correlation_on_present_trials_witness :
  Aggregator.rank_correlation Toy.E (Toy.tg_aligned Toy.gat_a) Toy.events
  = Ok (Aggregator.e_repeated_spearman Toy.E
          (Np.along3_axis1 (Aggregator.e_angle_acc Toy.E)
             {| Np.dim0 := length (Aggregator.query_index
                                     Aggregator.present_query Toy.events);
                Np.dim1 := Np.dim1 (Toy.tg_aligned Toy.gat_a);
                Np.dim2 := Np.dim2 (Toy.tg_aligned Toy.gat_a);
                Np.planes :=
                  map (fun i => nth i (Np.planes (Toy.tg_aligned Toy.gat_a)) [])
                      (Aggregator.query_index Aggregator.present_query Toy.events) |})
          (ClosedForms.pick (map Aggregator.detect_button Toy.events)
             (Aggregator.query_index Aggregator.present_query Toy.events))).
Proof.
  apply (rank_correlation_on_present_trials Toy.E (Toy.tg_aligned Toy.gat_a)
           Toy.events).
  - reflexivity.
  - exists (Toy.ev 2%float true). split; [simpl; auto | reflexivity].
  - reflexivity.
Defined.

(** ** When the subject loop completes *)

Module LoopFacts.

Import Np NpFacts Aggregator ClosedForms WellFormed.

Lemma paths_decod_ok (E : env) (analysis subject : string) (w : Config.world) :
  PyStr.startswith "/" (e_base_path E) = false ->
  PyStr.startswith "/" subject = false ->
  exists fname w',
    Config.paths (e_base_path E) "decod" (kw subject analysis) w = Ok (fname, w').
Proof.
  intros Hb Hs.
  destruct (ArtifactFacts.subject_file_startswith (e_base_path E) "decod"
              (kw subject analysis)) as [file [L [F _]]];
    [simpl; tauto | exact Hs |].
  rewrite Hb in F. exists file. eexists.
  unfold Config.paths. rewrite L. cbn [bind kw Config.log Config.defaults].
  rewrite (create_subfolders_relative file w F). reflexivity.
Qed.

Lemma duration_loop_ok (E : env) (gat : GAT E) (subevents : list event)
    (ts : list toi) :
  (forall t, In t ts ->
     let y_error := e_get_predict_error_align E gat t in
     length (planes y_error) = length subevents /\
     length (e_repeated_spearman E
               (present_accuracies E y_error subevents)
               (present_ratings subevents))
     = dim2 y_error) ->
  (exists e, In e subevents /\ target_present e = true) ->
  forall acc, exists acc',
    for_each ts (duration_body E gat subevents) acc = Ok acc'.
Proof.
  intros H He. induction ts as [|t ts IH]; intros acc; simpl; [eauto|].
  destruct (H t (or_introl eq_refl)) as [F R].
  unfold duration_body at 1.
  rewrite (SubscoreFacts.results_pas_of_spec E _ _ F). cbn [bind].
  rewrite (rank_correlation_ok E _ _ F He R). cbn [bind].
  apply IH. intros t' Ht'. apply H. right. exact Ht'.
Qed.

(** One iteration of the subject loop on a well-formed subject. *)
Lemma subject_body_ok (E : env) (analysis subject : string) (v : vars)
    (w : Config.world) :
  PyStr.startswith "/" (e_base_path E) = false ->
  well_formed E analysis subject ->
  exists c w',
    subject_body E analysis subject (v, w) = Ok (push v c, w') /\
    contribution_at E analysis subject = Ok c.
Proof.
  intros Hb [Hs (fname & gat & u & events_sel & events & subevents &
                 L & D & I & F & A & P)].
  assert (S : exists st, subject_body E analysis subject (v, w) = Ok st).
  { unfold subject_body. cbn [fst snd].
    destruct (paths_decod_ok E analysis subject w Hb Hs) as [f [w' Hp]].
    rewrite Hp. cbn [bind].
    rewrite (GatherFacts.paths_decod E _ _ _ _ _ Hp) in L. injection L as ->.
    unfold load. rewrite D. cbn [bind]. rewrite I. cbn [bind].
    destruct (angle_pred_section E analysis gat (bins v)) as [ar b1].
    rewrite GatherFacts.toi_section_closed.
    unfold subscore_section.
    destruct (SubscoreMore.subscore_loop_frame E _ _ _ (e_subscores E) F ∅)
      as [d [Hd _]].
    rewrite Hd. cbn [bind].
    unfold duration_section.
    destruct (duration_loop_ok E gat subevents tois A P ([], [])) as [[al R] Hdur].
    rewrite Hdur. cbn [bind]. eauto. }
  destruct S as [[v' w'] S].
  destruct (GatherFacts.subject_body_inv E _ _ _ _ _ _ S) as [c [Hc ->]].
  exists c, w'. auto.
Qed.

(** The subject loop on well-formed subjects. *)
Lemma subject_loop_ok (E : env) (analysis : string) (subjects : list string) :
  PyStr.startswith "/" (e_base_path E) = false ->
  List.Forall (well_formed E analysis) subjects ->
  forall (v : vars) (w : Config.world),
  exists cs w',
    for_each subjects (subject_body E analysis) (v, w)
      = Ok (fold_left push cs v, w') /\
    map_r (contribution_at E analysis) subjects = Ok cs.
Proof.
  intros Hb. induction 1 as [|s subjects Hs _ IH]; intros v w.
  - exists [], w. split; reflexivity.
  - destruct (subject_body_ok E analysis s v w Hb Hs) as [c [w1 [B C]]].
    destruct (IH (push v c) w1) as [cs [w' [L M]]].
    exists (c :: cs), w'. simpl. rewrite B, C, M. cbn [bind]. rewrite L.
    split; reflexivity.
Qed.

Lemma fold_push_bound (cs : list contribution) (v : vars) :
  cs <> [] ->
  exists t b, times (fold_left push cs v) = Some t /\
              bins (fold_left push cs v) = Some b.
Proof.
  intros H. destruct (exists_last H) as [cs' [c ->]].
  destruct (GatherFacts.fold_push_last cs' c v) as [Ht Hb]. eauto.
Qed.

End LoopFacts.

(** X8.  With a relative base path and well-formed subjects, the subject
    loop completes: the mapping for [pickle.dump] exists, and its lists
    hold the contributions of the subjects, one per subject. *)
Theorem subject_loop_completes (E : Aggregator.env) (analysis : string)
    (subjects : list string) (times0 bins0 : option Np.vec)
    (w : Config.world) :
  PyStr.startswith "/" (Aggregator.e_base_path E) = false ->
  subjects <> [] ->
  List.Forall (WellFormed.well_formed E analysis) subjects ->
  exists r v w' cs,
    Aggregator.results_to_dump E subjects analysis times0 bins0 w
      = Ok (r, v, w') /\
    map_r (ClosedForms.contribution_at E analysis) subjects = Ok cs /\
    length cs = length subjects /\
    Aggregator.subscore r = map ClosedForms.c_subscore cs /\
    Aggregator.R_vis_duration r = map ClosedForms.c_R_vis_duration cs.
Proof.
  intros Hb Hne Hw.
  destruct (LoopFacts.subject_loop_ok E analysis subjects Hb Hw
              {| Aggregator.res := Aggregator.empty_results;
                 Aggregator.times := times0; Aggregator.bins := bins0 |} w)
    as [cs [w' [L M]]].
  pose proof (map_r_length _ _ _ M) as Hlen.
  assert (Hcs : cs <> []) by (intros ->; destruct subjects; [congruence|discriminate]).
  destruct (LoopFacts.fold_push_bound cs
              {| Aggregator.res := Aggregator.empty_results;
                 Aggregator.times := times0; Aggregator.bins := bins0 |} Hcs)
    as [t [b [Ht Hbn]]].
  destruct (GatherFacts.fold_push_res cs
              {| Aggregator.res := Aggregator.empty_results;
                 Aggregator.times := times0; Aggregator.bins := bins0 |})
    as (_ & _ & _ & P4 & _ & _ & P7).
  simpl in P4, P7.
  eexists. eexists. exists w', cs.
  unfold Aggregator.results_to_dump, Aggregator.gather. rewrite L. cbn [bind].
  unfold Aggregator.with_times_bins. rewrite Ht, Hbn. cbn [bind].
  split; [reflexivity|]. split; [exact M|]. split; [exact Hlen|].
  cbn [Aggregator.subscore Aggregator.R_vis_duration]. auto.
Qed.

(** X10.  On any data and from any directories the script ends with an
    exception: no run of it returns, so no run writes a pickle. *)
Theorem script_never_returns (E : Aggregator.env) (subjects : list string)
    (w : Config.world) :
  exists e, Aggregator.script E subjects w = Raise e.
Proof.
  unfold Aggregator.script. cbn [for_each].
  pose proof (analysis_body_raises E subjects "target_circAngle"
                {| Aggregator.s_times := None; Aggregator.s_bins := None;
                   Aggregator.written := []; Aggregator.s_world := w |}) as H.
  destruct (Aggregator.analysis_body E subjects "target_circAngle" _)
    as [st|e]; [discriminate H | eauto].
Qed.

(** X11.  When the pickle of a subject is missing, the subject loop
    raises [IOError] for that path once the subjects before it are done;
    the subjects after it are not loaded. *)
Theorem missing_pickle_raises_IOError (E : Aggregator.env) (analysis : string)
    (earlier : list string) (subject : string) (later : list string)
    (times0 bins0 : option Np.vec) (w : Config.world) (fname : string) :
  PyStr.startswith "/" (Aggregator.e_base_path E) = false ->
  List.Forall (WellFormed.well_formed E analysis) earlier ->
  PyStr.startswith "/" subject = false ->
  Config.lookup_template (Aggregator.e_base_path E) "decod"
    (Aggregator.kw subject analysis) = Ok fname ->
  Aggregator.e_disk E fname = None ->
  Aggregator.gather E (earlier ++ subject :: later) analysis times0 bins0 w
  = Raise (IOError fname).
Proof.
  intros Hb Hw Hs L D.
  unfold Aggregator.gather. rewrite for_each_app.
  destruct (LoopFacts.subject_loop_ok E analysis earlier Hb Hw
              {| Aggregator.res := Aggregator.empty_results;
                 Aggregator.times := times0; Aggregator.bins := bins0 |} w)
    as [cs [w1 [L1 _]]].
  rewrite L1. cbn [bind for_each].
  unfold Aggregator.subject_body at 1. cbn [fst snd].
  destruct (LoopFacts.paths_decod_ok E analysis subject w1 Hb Hs) as [f [w2 Hp]].
  rewrite Hp. cbn [bind].
  rewrite (GatherFacts.paths_decod E _ _ _ _ _ Hp) in L. injection L as ->.
  unfold Aggregator.load. rewrite D. reflexivity.
Qed.

(** Every subject of the configuration is well formed on the toy disk. *)
Lemma toy_subject_well_formed (E : Aggregator.env) (analysis subject fname : string)
    (gat : Aggregator.GAT E) (u : unit) :
  PyStr.startswith "/" subject = false ->
  Config.lookup_template (Aggregator.e_base_path E) "decod"
    (Aggregator.kw subject analysis) = Ok fname ->
  Aggregator.e_disk E fname = Some (gat, u, [0; 1; 2], Toy.events) ->
  ClosedForms.fits (Aggregator.e_train_times E gat)
    (Aggregator.e_get_predict_error_diag E gat) Toy.events ->
  (forall t, In t Aggregator.tois ->
     let y_error := Aggregator.e_get_predict_error_align E gat t in
     length (Np.planes y_error) = length Toy.events /\
     length (Aggregator.e_repeated_spearman E
               (WellFormed.present_accuracies E y_error Toy.events)
               (WellFormed.present_ratings Toy.events))
     = Np.dim2 y_error) ->
  WellFormed.well_formed E analysis subject.
Proof.
  intros Hs L D F A. split; [exact Hs|].
  exists fname, gat, u, [0; 1; 2], Toy.events, Toy.events.
  split; [exact L|]. split; [exact D|]. split; [reflexivity|].
  split; [exact F|]. split; [exact A|].
  exists (Toy.ev 2%float true). split; [simpl; auto | reflexivity].
Qed.

Ltac toy_well_formed :=
  eapply toy_subject_well_formed;
  [ reflexivity
  | vm_compute; reflexivity
  | vm_compute; reflexivity
  | unfold ClosedForms.fits, Np.wf2; simpl; repeat split; repeat constructor
  | intros t _; split; reflexivity ].

Lemma toy_subjects_well_formed :
  List.Forall (WellFormed.well_formed Toy.E "target_circAngle") Config.subjects.
Proof.
  unfold Config.subjects.
  repeat (apply List.Forall_cons; [toy_well_formed|]).
  apply List.Forall_nil.
Qed.

Lemma subject_loop_completes_witness :
  exists r v w' cs,
    Aggregator.results_to_dump Toy.E Config.subjects "target_circAngle"
      None None Toy.world0 = Ok (r, v, w') /\
    map_r (ClosedForms.contribution_at Toy.E "target_circAngle") Config.subjects
      = Ok cs /\
    length cs = length Config.subjects /\
    Aggregator.subscore r = map ClosedForms.c_subscore cs /\
    Aggregator.R_vis_duration r = map ClosedForms.c_R_vis_duration cs.
Proof.
  apply (subject_loop_completes Toy.E "target_circAngle" Config.subjects
           None None Toy.world0).
  - reflexivity.
  - discriminate.
  - exact toy_subjects_well_formed.
Defined.

Lemma missing_pickle_raises_IOError_witness :
  Aggregator.gather Toy2.E_missing
    (["ak130184"; "el130086"] ++ "ga130053" :: skipn 3 Config.subjects)
    "target_circAngle" None None Toy.world0
  = Raise (IOError
      "./data/ga130053/decod/ga130053_target_erf_target_circAngle.pickle").
Proof.
  apply (missing_pickle_raises_IOError Toy2.E_missing "target_circAngle"
           ["ak130184"; "el130086"] "ga130053" (skipn 3 Config.subjects)
           None None Toy.world0).
  - reflexivity.
  - repeat (apply List.Forall_cons; [toy_well_formed|]). apply List.Forall_nil.
  - reflexivity.
  - vm_compute. reflexivity.
  - reflexivity.
Defined.

(** ** More on the report *)

Module ReportMore.

Import Np NpFacts Report.

Lemma dropnan_all_nan (n : nat) : dropnan (repeat nan n) = [].
Proof. induction n as [|n IH]; [reflexivity | exact IH]. Qed.

Lemma get_inv {A : Type} (l : list A) (i : nat) (x : A) :
  get l i = Ok x -> nth_error l i = Some x.
Proof. unfold get. destruct (nth_error l i); [intros [= ->]; reflexivity | discriminate]. Qed.

Lemma get_result {A : Type} (l : list A) (i : nat) :
  (exists x, get l i = Ok x) \/ get l i = Raise IndexError.
Proof. unfold get. destruct (nth_error l i); eauto. Qed.

Lemma map_r_in {A B : Type} (f : A -> result B) (xs : list A) (ys : list B)
    (x : A) :
  map_r f xs = Ok ys -> In x xs -> exists y, f x = Ok y.
Proof.
  intros H Hx. apply In_nth_error in Hx as [i Hi].
  destruct (map_r_nth f xs ys i x H Hi) as [y [Hy _]]. eauto.
Qed.

Lemma map_r_result {A B : Type} (f : A -> result B) (e : exn) (xs : list A) :
  (forall x, (exists y, f x = Ok y) \/ f x = Raise e) ->
  (exists ys, map_r f xs = Ok ys) \/ map_r f xs = Raise e.
Proof.
  intros Hf. induction xs as [|x xs IH]; simpl; [eauto|].
  destruct (Hf x) as [[y ->]| ->]; cbn [bind]; [|auto].
  destruct IH as [[ys ->]| ->]; cbn [bind]; eauto.
Qed.

Lemma slice3_result (a : list (list (list vec))) (i j k : nat) :
  (exists v, slice3 a i j k = Ok v) \/ slice3 a i j k = Raise IndexError.
Proof.
  apply map_r_result. intros subj.
  destruct (get_result subj i) as [[x ->]| ->]; cbn [bind]; [|auto].
  destruct (get_result x j) as [[y ->]| ->]; cbn [bind]; [|auto].
  apply get_result.
Qed.

Lemma slice3_entry (a : list (list (list vec))) (i j k : nat) (v : vec)
    (subj : list (list vec)) :
  slice3 a i j k = Ok v -> In subj a ->
  exists x y z,
    nth_error subj i = Some x /\ nth_error x j = Some y /\ nth_error y k = Some z.
Proof.
  intros H Hs. destruct (map_r_in _ _ _ subj H Hs) as [z Hz].
  apply bind_ok in Hz as [x [Hx Hz]].
  apply bind_ok in Hz as [y [Hy Hz]].
  exists x, y, z. auto using get_inv.
Qed.

Lemma sub_same_length (a b : vec) :
  length a = length b -> exists d, Np.sub a b = Ok d.
Proof.
  revert b. induction a as [|x a IH]; intros [|y b]; simpl; try discriminate; [eauto|].
  intros [= H]. destruct (IH b H) as [d ->]. cbn [bind]. eauto.
Qed.

(** A reduction along axis 0 reduces the rows of the transpose. *)
Lemma along_axis0_transpose (f : vec -> float) (a : ndarray2) :
  along_axis0 f a = map f (rows (transpose a)).
Proof. unfold along_axis0, transpose. cbn [rows]. rewrite map_map. reflexivity. Qed.

End ReportMore.

(** X13.  For a score with no entry that is not NaN, of any length, the
    mean and the standard error of the table cell are both NaN. *)
Theorem table_cell_all_nan (wilcoxon : Np.vec -> float * float) (n : nat) :
  Report.table_cell wilcoxon (repeat nan n)
  = (nan, nan, snd (wilcoxon (repeat nan n))).
Proof.
  unfold Report.table_cell, Np.nanmean, Np.nanstd, Np.count_notnan.
  rewrite ReportMore.dropnan_all_nan. reflexivity.
Qed.

(** X14.  The contrast block either returns or raises [IndexError], and
    it returns only if every subject's block of [bias_toi] has an entry
    at [1, 1, 3] and at [0, 1, 3], that is a fourth toi for both
    estimators. *)
Theorem contrast_needs_four_tois (wilcoxon : Np.vec -> float * float)
    (r : Report.loaded) :
  ((exists x, Report.contrast wilcoxon r = Ok x)
   \/ Report.contrast wilcoxon r = Raise IndexError) /\
  (forall x, Report.contrast wilcoxon r = Ok x ->
     forall subj, In subj (Report.bias_toi r) ->
       forall ii, ii = 0 \/ ii = 1 ->
         exists a b z,
           nth_error subj ii = Some a /\ nth_error a 1 = Some b /\
           nth_error b 3 = Some z).
Proof.
  split.
  - unfold Report.contrast.
    destruct (ReportMore.slice3_result (Report.bias_toi r) 1 1 3)
      as [[p Hp]|Hp]; rewrite Hp; cbn [bind]; [|auto].
    destruct (ReportMore.slice3_result (Report.bias_toi r) 0 1 3)
      as [[t Ht]|Ht]; rewrite Ht; cbn [bind]; [|auto].
    destruct (ReportMore.sub_same_length p t) as [d Hd].
    { rewrite (map_r_length _ _ _ Hp), (map_r_length _ _ _ Ht). reflexivity. }
    rewrite Hd. cbn [bind]. eauto.
  - intros x H subj Hs ii Hii. unfold Report.contrast in H.
    apply bind_ok in H as [p [Hp H]].
    apply bind_ok in H as [t [Ht _]].
    destruct Hii as [-> | ->].
    + exact (ReportMore.slice3_entry _ _ _ _ _ subj Ht Hs).
    + exact (ReportMore.slice3_entry _ _ _ _ _ subj Hp Hs).
Qed.

(** X15.  In a panel of the visibility figure that is computed without an
    error, [score] holds four vectors, one per visibility rating.  The
    [m] and [s] that [quick_stats] prints are the [np.nanmean] and the
    [np.nanstd] of each of the four vectors: axis 0 of the stacked and
    transposed array is the subjects.  The column of the table has five
    cells: those of the four vectors and that of the difference of the
    vector of rating 3 and the vector of rating 0, subject by subject. *)
Theorem visibility_column_stats_and_cells (wilcoxon : Np.vec -> float * float)
    (r : Report.loaded) (TP t : nat) (q : Report.quick)
    (cells : list (float * float * float)) :
  Report.visibility_column wilcoxon r TP t = Ok (q, cells) ->
  exists s0 s1 s2 s3 diff,
    map_r (fun vis =>
             let* v := Report.slice4 (Report.bias_vis_toi r) TP 1 vis t in
             Ok (Np.neg v))
          (seq 0 4) = Ok [s0; s1; s2; s3] /\
    Np.sub s3 s0 = Ok diff /\
    Report.q_m q = map Np.nanmean [s0; s1; s2; s3] /\
    Report.q_s q = map Np.nanstd [s0; s1; s2; s3] /\
    cells = map (Report.table_cell wilcoxon) [s0; s1; s2; s3; diff].
Proof.
  intros H. unfold Report.visibility_column in H.
  apply bind_ok in H as [score [Hs H]].
  pose proof (map_r_length _ _ _ Hs) as L4. simpl in L4.
  destruct score as [|s0 [|s1 [|s2 [|s3 [|s4 rest]]]]]; try discriminate L4.
  pose proof (score_lengths r TP t _ Hs) as L.
  apply bind_ok in H as [hi [Hhi H]].
  apply bind_ok in H as [lo [Hlo H]].
  apply bind_ok in H as [diff [Hd H]].
  apply ReportMore.get_inv in Hhi. apply ReportMore.get_inv in Hlo.
  simpl in Hhi, Hlo. injection Hhi as <-. injection Hlo as <-.
  injection H as <- <-.
  exists s0, s1, s2, s3, diff.
  split; [exact Hs|]. split; [exact Hd|].
  assert (T : Np.rows (Report.transpose (Report.transpose
                (Report.vstack (length (Report.bias_vis_toi r)) [s0; s1; s2; s3])))
              = [s0; s1; s2; s3]).
  { apply ReportFacts.transpose_involutive. split; [reflexivity | exact L]. }
  assert (M : forall f,
            Np.along_axis0 f
              (Report.transpose
                 (Report.vstack (length (Report.bias_vis_toi r)) [s0; s1; s2; s3]))
            = map f [s0; s1; s2; s3]).
  { intros f. rewrite ReportMore.along_axis0_transpose, T. reflexivity. }
  unfold Report.quick_stats. cbn [Report.q_m Report.q_s].
  rewrite !M. repeat split; reflexivity.
Qed.

Lemma visibility_column_stats_and_cells_witness :
  exists q cells,
    Report.visibility_column Toy.toy_wilcoxon Toy.loaded0 1 2 = Ok (q, cells) /\
    exists s0 s1 s2 s3 diff,
      map_r (fun vis =>
               let* v := Report.slice4 (Report.bias_vis_toi Toy.loaded0) 1 1 vis 2 in
               Ok (Np.neg v))
            (seq 0 4) = Ok [s0; s1; s2; s3] /\
      Np.sub s3 s0 = Ok diff /\
      Report.q_m q = map Np.nanmean [s0; s1; s2; s3] /\
      Report.q_s q = map Np.nanstd [s0; s1; s2; s3] /\
      cells = map (Report.table_cell Toy.toy_wilcoxon) [s0; s1; s2; s3; diff].
Proof.
  destruct (Report.visibility_column Toy.toy_wilcoxon Toy.loaded0 1 2)
    as [[q cells]|e] eqn:H.
  - exists q, cells. split; [reflexivity|].
    exact (visibility_column_stats_and_cells Toy.toy_wilcoxon Toy.loaded0 1 2
             q cells H).
  - vm_compute in H. discriminate H.
Defined.

(** ** The pickles of different subjects *)

Module DecodPath.

Import Config PyStr.

Lemma endswith_append (c : ascii) (a b : string) :
  b <> "" -> endswith c (String.append a b) = endswith c b.
Proof.
  intros Hb. induction a as [|x a IH]; [reflexivity|].
  change (endswith c (String x (String.append a b)) = endswith c b).
  cbn [endswith]. destruct (String.append a b) eqn:E.
  - destruct a as [|y a'].
    + change (b = "") in E. contradiction.
    + change (String y (String.append a' b) = "") in E. discriminate E.
  - exact IH.
Qed.

Lemma append_head_inj (a b1 b2 : string) :
  String.append a b1 = String.append a b2 -> b1 = b2.
Proof.
  induction a as [|x a IH]; intros H; [exact H|].
  change (String x (String.append a b1) = String x (String.append a b2)) in H.
  injection H as H. exact (IH H).
Qed.

Lemma append_same_length (a1 a2 b1 b2 : string) :
  String.length a1 = String.length a2 ->
  String.append a1 b1 = String.append a2 b2 -> a1 = a2.
Proof.
  revert a2. induction a1 as [|x a1 IH]; intros [|y a2] L H; try discriminate L.
  - reflexivity.
  - change (String x (String.append a1 b1) = String y (String.append a2 b2)) in H.
    injection H as -> H. injection L as L. rewrite (IH a2 L H). reflexivity.
Qed.

Lemma data_path_endswith (base_path : string) :
  endswith "/" (data_path base_path) = true.
Proof.
  unfold data_path, join. change (startswith "/" "data/") with false. cbv iota.
  destruct (String.eqb base_path "" || endswith "/" base_path).
  - rewrite endswith_append by discriminate. reflexivity.
  - rewrite endswith_append by discriminate. reflexivity.
Qed.

(** The path of a subject's pickle, spelled out. *)
Lemma decod_file_shape (base_path subj analysis : string) :
  startswith "/" subj = false ->
  exists sep,
    (sep = "decod" \/ sep = "/decod") /\
    lookup_template base_path "decod" (Aggregator.kw subj analysis) =
    Ok (String.append
          (String.append (String.append (data_path base_path) subj) sep)
          (String.append "/"
             (String.append subj
                (String.append "_"
                   (fmt3 "target" "erf" analysis ".pickle"))))).
Proof.
  intros Hs.
  unfold lookup_template, path_template. cbv zeta.
  rewrite !lookup_insert_ne by discriminate. rewrite lookup_insert_eq.
  cbn [Aggregator.kw Config.subject Config.lock Config.data_type
       Config.analysis Config.defaults].
  unfold fmt4, join3.
  set (name := String.append subj _).
  assert (Hn : startswith "/" name = false)
    by (apply ArtifactFacts.startswith_name, Hs).
  assert (J1 : join (data_path base_path) subj
               = String.append (data_path base_path) subj).
  { unfold join. rewrite Hs, data_path_endswith, orb_true_r. reflexivity. }
  rewrite J1.
  set (p := String.append (data_path base_path) subj).
  assert (J2 : exists sep, (sep = "decod" \/ sep = "/decod") /\
                 join p "decod" = String.append p sep).
  { unfold join. change (startswith "/" "decod") with false. cbv iota.
    destruct (String.eqb p "" || endswith "/" p); eauto. }
  destruct J2 as [sep [Hsep J2]]. rewrite J2.
  exists sep. split; [exact Hsep|].
  unfold join. rewrite Hn.
  assert (E1 : String.eqb (String.append p sep) "" = false).
  { apply String.eqb_neq. intros H. apply (f_equal String.length) in H.
    rewrite SubscoreFacts.string_length_append in H.
    destruct Hsep as [-> | ->]; simpl in H; lia. }
  assert (E2 : endswith "/" (String.append p sep) = false).
  { destruct Hsep as [-> | ->]; rewrite endswith_append by discriminate; reflexivity. }
  rewrite E1, E2. reflexivity.
Qed.

End DecodPath.

Lemma map_no_dup {A B : Type} (f : A -> B) (l : list A) :
  (forall x y, In x l -> In y l -> f x = f y -> x = y) ->
  List.NoDup l -> List.NoDup (map f l).
Proof.
  intros Hf. induction 1 as [|x l Hx _ IH]; simpl; constructor.
  - intros Hin. apply in_map_iff in Hin as [y [Hy Hin]].
    assert (y = x) by (apply Hf; simpl; auto). subst y. contradiction.
  - apply IH. intros a b Ha Hb. apply Hf; simpl; auto.
Qed.

(** Two different subjects that do not start with ['/'] have different
    pickles. *)
Lemma decod_path_differs (base_path analysis s1 s2 : string) :
  PyStr.startswith "/" s1 = false ->
  PyStr.startswith "/" s2 = false ->
  Config.lookup_template base_path "decod" (Aggregator.kw s1 analysis)
  = Config.lookup_template base_path "decod" (Aggregator.kw s2 analysis) ->
  s1 = s2.
Proof.
  intros H1 H2 L.
  destruct (DecodPath.decod_file_shape base_path s1 analysis H1) as [x1 [X1 F1]].
  destruct (DecodPath.decod_file_shape base_path s2 analysis H2) as [x2 [X2 F2]].
  rewrite L, F2 in F1. injection F1 as F.
  assert (Len : String.length s1 = String.length s2).
  { apply (f_equal String.length) in F.
    rewrite !SubscoreFacts.string_length_append in F.
    destruct X1 as [-> | ->], X2 as [-> | ->]; simpl in F; lia. }
  rewrite !FolderFacts.append_assoc in F.
  apply DecodPath.append_head_inj in F.
  symmetry. exact (DecodPath.append_same_length _ _ _ _ (eq_sym Len) F).
Qed.

(** X16.  For one analysis and one base path, [paths] names a different
    pickle for each of two different subjects that do not start with
    ['/'].  In particular the twenty subjects of the configuration have
    twenty different pickles, whatever the base path is. *)
Theorem subjects_have_their_own_pickle (base_path analysis : string) :
  (forall s1 s2,
     PyStr.startswith "/" s1 = false -> PyStr.startswith "/" s2 = false ->
     s1 <> s2 ->
     Config.lookup_template base_path "decod" (Aggregator.kw s1 analysis)
     <> Config.lookup_template base_path "decod" (Aggregator.kw s2 analysis)) /\
  List.NoDup
    (map (fun s => Config.lookup_template base_path "decod"
                     (Aggregator.kw s analysis))
         Config.subjects).
Proof.
  split.
  - intros s1 s2 H1 H2 Hne L. apply Hne.
    exact (decod_path_differs base_path analysis s1 s2 H1 H2 L).
  - apply map_no_dup.
    + intros s1 s2 I1 I2. apply decod_path_differs.
      * unfold Config.subjects in I1. simpl in I1.
        repeat (destruct I1 as [<-|I1]; [reflexivity|]). contradiction.
      * unfold Config.subjects in I2. simpl in I2.
        repeat (destruct I2 as [<-|I2]; [reflexivity|]). contradiction.
    + unfold Config.subjects.
      repeat (constructor; [simpl; intuition discriminate|]). constructor.
Qed.
